(** * stripe-checkout-api: product store, availability check and webhook
      reconciliation

    A shallow embedding of [src/utils/helpers.js],
    [src/middlewares/validation.js], [src/controllers/checkoutController.js]
    and the route wiring of [src/routes/checkoutRoutes.js].

    The JavaScript platform (values, coercions, [JSON], [path], [fs]) is
    modelled first; the repository's functions follow, each one written after
    its source, in a state-and-exception monad over the file system and an
    effect trace. *)

From Stdlib Require Import ZArith NArith Ascii String List Lia.
From stdpp Require Import base strings gmap list.

Local Open Scope Z_scope.

(* ===================================================================== *)
(** * JavaScript numbers

    A number is [NaN] or an exact decimal [m / 10^e].  IEEE-754 rounding,
    infinities and the sign of zero are not modelled: a literal stands for
    its exact value, and [num_sub] and [num_mul] give the exact difference
    and product.  JavaScript agrees with this on the safe integers (operands
    and result at most [MAX_SAFE_INTEGER] in absolute value) and may differ
    by a rounding beyond them.  The statements about the result of an
    arithmetic operation, or about the digits of a number, are therefore
    made for safe integers. *)

Inductive number :=
| NaN
| Dec (m : Z) (e : nat).

Fixpoint norm_dec (m : Z) (e : nat) : number :=
  match e with
  | O => Dec m O
  | S e' => if m mod 10 =? 0 then norm_dec (m / 10) e' else Dec m e
  end.

Definition pow10 (k : nat) : Z := 10 ^ Z.of_nat k.

(** Both mantissas over the common scale [max e1 e2]. *)
Definition align (m1 : Z) (e1 : nat) (m2 : Z) (e2 : nat) : Z * Z :=
  let e := Nat.max e1 e2 in
  (m1 * pow10 (e - e1), m2 * pow10 (e - e2)).

Definition num_of_Z (z : Z) : number := Dec z O.

(** [Number.MAX_SAFE_INTEGER], and [Number.isSafeInteger] on an integer. *)
Definition MAX_SAFE_INTEGER : Z := 9007199254740991.

Definition safe_integer (z : Z) : bool :=
  (- MAX_SAFE_INTEGER <=? z) && (z <=? MAX_SAFE_INTEGER).

(** [a - b], exact: the difference JavaScript computes when it is
    representable, as it is for safe integers with a safe difference. *)
Definition num_sub (a b : number) : number :=
  match a, b with
  | Dec m1 e1, Dec m2 e2 =>
      let '(x, y) := align m1 e1 m2 e2 in norm_dec (x - y) (Nat.max e1 e2)
  | _, _ => NaN
  end.

(** [a * b], exact: the product JavaScript computes when it is
    representable, as it is for safe integers with a safe product. *)
Definition num_mul (a b : number) : number :=
  match a, b with
  | Dec m1 e1, Dec m2 e2 => norm_dec (m1 * m2) (e1 + e2)
  | _, _ => NaN
  end.

(** [a < b]; any comparison with [NaN] is false. *)
Definition num_ltb (a b : number) : bool :=
  match a, b with
  | Dec m1 e1, Dec m2 e2 => let '(x, y) := align m1 e1 m2 e2 in x <? y
  | _, _ => false
  end.

Definition num_leb (a b : number) : bool :=
  match a, b with
  | Dec m1 e1, Dec m2 e2 => let '(x, y) := align m1 e1 m2 e2 in x <=? y
  | _, _ => false
  end.

(** [Number.isInteger] on a number. *)
Definition num_is_integer (a : number) : bool :=
  match a with
  | NaN => false
  | Dec m e => m mod pow10 e =? 0
  end.

(** The integer a number denotes, when it is one. *)
Definition num_to_Z (a : number) : option Z :=
  match a with
  | NaN => None
  | Dec m e => if m mod pow10 e =? 0 then Some (m / pow10 e) else None
  end.

Definition num_truthy (a : number) : bool :=
  match a with
  | NaN => false
  | Dec m _ => negb (m =? 0)
  end.

(** A decimal in lowest terms (no trailing zero in the fraction), as
    [norm_dec] leaves it. *)
Definition canonicalb (n : number) : bool :=
  match n with
  | NaN => false
  | Dec m e => Nat.eqb e O || negb (m mod 10 =? 0)
  end.

(* ===================================================================== *)
(** * Decimal text of numbers *)

Definition chars := list ascii.

Definition digit_char (d : Z) : ascii := ascii_of_N (Z.to_N (48 + d)).

Definition char_digit (c : ascii) : option Z :=
  let n := Z.of_N (N_of_ascii c) in
  if (48 <=? n) && (n <=? 57) then Some (n - 48) else None.

Definition is_digit (c : ascii) : bool :=
  match char_digit c with Some _ => true | None => false end.

(** The [k] low decimal digits of [n], most significant first. *)
Fixpoint fixed_digits (k : nat) (n : Z) : chars :=
  match k with
  | O => []
  | S k' => fixed_digits k' (n / 10) ++ [digit_char (n mod 10)]
  end.

(** The decimal digits of [n >= 0] without leading zeros; [fuel] bounds the
    number of digits after the first. *)
Fixpoint nat_digits (fuel : nat) (n : Z) (acc : chars) : chars :=
  let acc' := digit_char (n mod 10) :: acc in
  match fuel with
  | O => acc'
  | S f => if n / 10 =? 0 then acc' else nat_digits f (n / 10) acc'
  end.

Definition int_digits (n : Z) : chars :=
  nat_digits (Z.to_nat (Z.log2 n)) n [].

(** Number::toString in plain decimal notation, every digit of the decimal
    written out.  This is the text JavaScript gives for the safe integers
    and for the decimals of a few digits that product files hold.  The
    exponent notation that JavaScript switches to from 1e21 on and below
    1e-6, and the shortest-digits rule for larger doubles, are not
    modelled. *)
Definition num_to_chars (a : number) : chars :=
  match a with
  | NaN => ["N"; "a"; "N"]%char
  | Dec m0 e0 =>
      match norm_dec m0 e0 with
      | NaN => ["N"; "a"; "N"]%char
      | Dec m e =>
          (if m <? 0 then ["-"%char] else []) ++
          int_digits (Z.abs m / pow10 e) ++
          match e with
          | O => []
          | _ => "."%char :: fixed_digits e (Z.abs m mod pow10 e)
          end
      end
  end.

(** Reads the longest prefix of digits: its value on top of [acc], the number
    of digits read on top of [cnt], and the rest. *)
Fixpoint read_digits (s : chars) (acc : Z) (cnt : nat) : Z * nat * chars :=
  match s with
  | c :: s' =>
      match char_digit c with
      | Some d => read_digits s' (10 * acc + d) (S cnt)
      | None => (acc, cnt, s)
      end
  | [] => (acc, cnt, [])
  end.

(** An optional exponent part [e|E][+|-]digits+; [None] when the exponent
    marker is not followed by digits. *)
Definition read_exponent (s : chars) : option (Z * chars) :=
  match s with
  | c :: s1 =>
      if (Ascii.eqb c "e" || Ascii.eqb c "E")%bool then
        let '(neg, s2) :=
          match s1 with
          | "-"%char :: s2 => (true, s2)
          | "+"%char :: s2 => (false, s2)
          | _ => (false, s1)
          end in
        let '(x, cnt, s3) := read_digits s2 0 O in
        match cnt with
        | O => None
        | _ => Some (if neg : bool then - x else x, s3)
        end
      else Some (0, s)
  | [] => Some (0, [])
  end.

(** [m / 10^e * 10^x] as a number. *)
Definition scale_dec (neg : bool) (m : Z) (e : nat) (x : Z) : number :=
  let m := if neg then - m else m in
  if x <? 0 then norm_dec m (e + Z.to_nat (- x))
  else norm_dec (m * 10 ^ x) e.

(** An optional fraction ".digits"; [min_digits] is the least number of
    digits required after the point. *)
Definition read_fraction (min_digits : nat) (s : chars) (ip : Z)
  : option (Z * nat * chars) :=
  match s with
  | "."%char :: s1 =>
      let '(m, cnt, s2) := read_digits s1 ip O in
      if (cnt <? min_digits)%nat then None else Some (m, cnt, s2)
  | _ => Some (ip, O, s)
  end.

(** The JSON number grammar: an optional minus sign, an integer part without
    leading zeros, an optional fraction and an optional exponent. *)
Definition read_json_number (s : chars) : option (number * chars) :=
  let '(neg, s0) :=
    match s with
    | "-"%char :: s0 => (true, s0)
    | _ => (false, s)
    end in
  match s0 with
  | c :: s1 =>
      match char_digit c with
      | None => None
      | Some d =>
          let '(ip, s2) :=
            if d =? 0 then (0, s1)
            else let '(ip, _, s2) := read_digits s0 0 O in (ip, s2) in
          match read_fraction 1 s2 ip with
          | None => None
          | Some (m, e, s3) =>
              match read_exponent s3 with
              | None => None
              | Some (x, s4) => Some (scale_dec neg m e x, s4)
              end
          end
      end
  | [] => None
  end.

(* ===================================================================== *)
(** * JavaScript values

    The values that reach the repository's code are JSON data (request
    bodies, product files, provider events) and [undefined].  An object is the
    list of its own properties in creation order. *)

Local Unset Elimination Schemes.
Inductive value :=
| VUndefined
| VNull
| VBool (b : bool)
| VNum (n : number)
| VStr (s : string)
| VArr (items : list value)
| VObj (props : list (string * value)).
Local Set Elimination Schemes.

Record error := { err_name : string; message : string }.

Inductive result (A : Type) :=
| Ok (a : A)
| Throw (e : error).
Arguments Ok {A} a.
Arguments Throw {A} e.

Definition TypeError (msg : string) : error :=
  {| err_name := "TypeError"; message := msg |}.
Definition SyntaxError (msg : string) : error :=
  {| err_name := "SyntaxError"; message := msg |}.

Definition str (s : string) : chars := list_ascii_of_string s.
Definition unstr (l : chars) : string := string_of_list_ascii l.

Definition is_nullish (v : value) : bool :=
  match v with
  | VUndefined | VNull => true
  | _ => false
  end.

(** ToBoolean. *)
Definition truthy (v : value) : bool :=
  match v with
  | VUndefined | VNull => false
  | VBool b => b
  | VNum n => num_truthy n
  | VStr s => negb (String.eqb s "")
  | VArr _ | VObj _ => true
  end.

Fixpoint join (sep : string) (l : list string) : string :=
  match l with
  | [] => ""
  | [x] => x
  | x :: l' => x +:+ sep +:+ join sep l'
  end.

(** ToString, as a template literal or a string concatenation applies it.
    An array joins its elements with commas, [null] and [undefined] elements
    giving the empty string; a plain object gives "[object Object]". *)
Fixpoint to_string (v : value) : string :=
  match v with
  | VUndefined => "undefined"
  | VNull => "null"
  | VBool true => "true"
  | VBool false => "false"
  | VNum n => unstr (num_to_chars n)
  | VStr s => s
  | VArr items =>
      join "," (List.map (fun x => if is_nullish x then "" else to_string x) items)
  | VObj _ => "[object Object]"
  end.

Definition is_space (c : ascii) : bool :=
  let n := N_of_ascii c in
  ((n =? 32) || (n =? 9) || (n =? 10) || (n =? 13) || (n =? 11) || (n =? 12))%N.

Fixpoint skip_spaces (s : chars) : chars :=
  match s with
  | c :: s' => if is_space c then skip_spaces s' else s
  | [] => []
  end.

Definition read_sign (s : chars) : bool * chars :=
  match s with
  | "-"%char :: s' => (true, s')
  | "+"%char :: s' => (false, s')
  | _ => (false, s)
  end.

(** StringToNumber on decimal literals: surrounding white space is dropped,
    the empty string is 0, anything that is not a signed decimal literal is
    [NaN].  (Hexadecimal, octal and binary literals and "Infinity" are read as
    [NaN] here.) *)
Definition string_to_number (s : string) : number :=
  match skip_spaces (str s) with
  | [] => Dec 0 O
  | s0 =>
      let '(neg, s1) := read_sign s0 in
      let '(ip, n_int, s2) := read_digits s1 0 O in
      match read_fraction O s2 ip with
      | None => NaN
      | Some (m, n_frac, s3) =>
          match (n_int + n_frac)%nat with
          | O => NaN
          | _ =>
              match read_exponent s3 with
              | None => NaN
              | Some (x, s4) =>
                  match skip_spaces s4 with
                  | [] => scale_dec neg m n_frac x
                  | _ => NaN
                  end
              end
          end
      end
  end.

(** ToNumber. *)
Definition to_number (v : value) : number :=
  match v with
  | VUndefined => NaN
  | VNull => Dec 0 O
  | VBool true => Dec 1 O
  | VBool false => Dec 0 O
  | VNum n => n
  | VStr s => string_to_number s
  | VArr _ => string_to_number (to_string v)
  | VObj _ => NaN
  end.

(** [parseInt(v, 10)]. *)
Definition parseInt (v : value) : number :=
  let '(neg, s1) := read_sign (skip_spaces (str (to_string v))) in
  let '(x, cnt, _) := read_digits s1 0 O in
  match cnt with
  | O => NaN
  | _ => Dec (if neg then - x else x) O
  end.

(** [Number.isInteger(v)]: no coercion, only numbers qualify. *)
Definition Number_isInteger (v : value) : bool :=
  match v with
  | VNum n => num_is_integer n
  | _ => false
  end.

(** ToPrimitive with hint Number: arrays and plain objects become their
    string. *)
Definition to_primitive (v : value) : value :=
  match v with
  | VArr _ | VObj _ => VStr (to_string v)
  | _ => v
  end.

(** [a < b]: two strings are compared as strings (here byte by byte), any
    other pair as numbers, and a comparison with [NaN] is false. *)
Definition js_lt (a b : value) : bool :=
  match to_primitive a, to_primitive b with
  | VStr x, VStr y => String.ltb x y
  | pa, pb => num_ltb (to_number pa) (to_number pb)
  end.

(** [a > b] is [b < a]. *)
Definition js_gt (a b : value) : bool := js_lt b a.

(** [a <= b] is true when [b < a] is false and neither side is [NaN]. *)
Definition js_le (a b : value) : bool :=
  match to_primitive a, to_primitive b with
  | VStr x, VStr y => negb (String.ltb y x)
  | pa, pb => num_leb (to_number pa) (to_number pb)
  end.

Definition js_mul (a b : value) : value :=
  VNum (num_mul (to_number a) (to_number b)).
Definition js_sub (a b : value) : value :=
  VNum (num_sub (to_number a) (to_number b)).

(** ** Properties *)

Fixpoint lookup_prop (k : string) (props : list (string * value)) : option value :=
  match props with
  | [] => None
  | (k', v) :: rest => if String.eqb k k' then Some v else lookup_prop k rest
  end.

(** Assignment keeps the position of an existing property and appends a new
    one. *)
Fixpoint assign_prop (k : string) (v : value) (props : list (string * value))
  : list (string * value) :=
  match props with
  | [] => [(k, v)]
  | (k', v') :: rest =>
      if String.eqb k k' then (k', v) :: rest
      else (k', v') :: assign_prop k v rest
  end.

(** [o.k]: a TypeError on [undefined] and [null]; [undefined] for a missing
    property.  (Inherited properties such as [length] are not modelled: the
    repository reads none.) *)
Definition get_prop (o : value) (k : string) : result value :=
  match o with
  | VUndefined =>
      Throw (TypeError ("Cannot read properties of undefined (reading '" +:+ k +:+ "')"))
  | VNull =>
      Throw (TypeError ("Cannot read properties of null (reading '" +:+ k +:+ "')"))
  | VObj props =>
      Ok (match lookup_prop k props with Some v => v | None => VUndefined end)
  | _ => Ok VUndefined
  end.

(** [o.k = v] on an object; other receivers are left as they are. *)
Definition set_prop (o : value) (k : string) (v : value) : value :=
  match o with
  | VObj props => VObj (assign_prop k v props)
  | _ => o
  end.

(** The own enumerable properties an object spread copies. *)
Definition spread_props (v : value) : list (string * value) :=
  match v with
  | VObj props => props
  | VArr items =>
      imap (fun i x => (unstr (int_digits (Z.of_nat i)), x)) items
  | VStr s =>
      imap (fun i c => (unstr (int_digits (Z.of_nat i)), VStr (String c ""))) (str s)
  | _ => []
  end.

Definition object_of (props : list (string * value)) : value :=
  VObj (fold_left (fun acc kv => assign_prop kv.1 kv.2 acc) props []).

(* ===================================================================== *)
(** * JSON text

    [JSON.stringify(v, null, 2)] and [JSON.parse] over byte strings.  Bytes
    from 0x80 on (UTF-8 sequences) pass through both unchanged. *)

Definition dquote : ascii := ascii_of_N 34.
Definition backslash : ascii := ascii_of_N 92.
Definition newline : ascii := ascii_of_N 10.

Definition hex_char (n : N) : ascii :=
  if (n <? 10)%N then ascii_of_N (48 + n) else ascii_of_N (87 + n).

Definition char_hex (c : ascii) : option N :=
  let n := N_of_ascii c in
  if ((48 <=? n) && (n <=? 57))%N then Some (n - 48)%N
  else if ((97 <=? n) && (n <=? 102))%N then Some (n - 87)%N
  else if ((65 <=? n) && (n <=? 70))%N then Some (n - 55)%N
  else None.

(** QuoteJSONString on one byte. *)
Definition escape_char (c : ascii) : chars :=
  let n := N_of_ascii c in
  if (n =? 34)%N then [backslash; dquote]
  else if (n =? 92)%N then [backslash; backslash]
  else if (n =? 8)%N then [backslash; "b"%char]
  else if (n =? 12)%N then [backslash; "f"%char]
  else if (n =? 10)%N then [backslash; "n"%char]
  else if (n =? 13)%N then [backslash; "r"%char]
  else if (n =? 9)%N then [backslash; "t"%char]
  else if (n <? 32)%N then
    [backslash; "u"; "0"; "0"; hex_char (n / 16); hex_char (n mod 16)]%char
  else [c].

Definition quote (s : string) : chars :=
  dquote :: flat_map escape_char (str s) ++ [dquote].

Definition spaces (n : nat) : chars := repeat " "%char n.

Fixpoint join_chars (sep : chars) (parts : list chars) : chars :=
  match parts with
  | [] => []
  | [p] => p
  | p :: rest => p ++ sep ++ join_chars sep rest
  end.

(** An array or object with its parts one per line, indented by [ind + 2]. *)
Definition bracket (op cl : ascii) (ind : nat) (parts : list chars) : chars :=
  match parts with
  | [] => [op; cl]
  | _ =>
      op :: newline :: spaces (ind + 2) ++
      join_chars ("," :: newline :: spaces (ind + 2))%char parts ++
      newline :: spaces ind ++ [cl]
  end.

(** SerializeJSONProperty with gap of two spaces; [None] is [undefined]. *)
Fixpoint stringify_value (ind : nat) (v : value) : option chars :=
  match v with
  | VUndefined => None
  | VNull => Some (str "null")
  | VBool true => Some (str "true")
  | VBool false => Some (str "false")
  | VNum NaN => Some (str "null")
  | VNum n => Some (num_to_chars n)
  | VStr s => Some (quote s)
  | VArr items =>
      let fix elems (l : list value) : list chars :=
        match l with
        | [] => []
        | x :: l' =>
            match stringify_value (ind + 2) x with
            | Some t => t
            | None => str "null"
            end :: elems l'
        end in
      Some (bracket "[" "]" ind (elems items))
  | VObj props =>
      let fix members (l : list (string * value)) : list chars :=
        match l with
        | [] => []
        | (k, x) :: l' =>
            match stringify_value (ind + 2) x with
            | Some t => (quote k ++ ":" :: " " :: t)%char :: members l'
            | None => members l'
            end
        end in
      Some (bracket "{" "}" ind (members props))
  end.

(** What [JSON.stringify] is applied to: a value, or a function. *)
Inductive js_arg (F : Type) :=
| AValue (v : value)
| AFunction (f : F).
Arguments AValue {F} v.
Arguments AFunction {F} f.

(** [JSON.stringify(x, null, 2)]: [undefined] for [undefined] and for a
    function. *)
Definition JSON_stringify {F} (x : js_arg F) : option string :=
  match x with
  | AValue v => unstr <$> stringify_value 0 v
  | AFunction _ => None
  end.

(** ** Parsing *)

Definition is_json_ws (c : ascii) : bool :=
  let n := N_of_ascii c in
  ((n =? 32) || (n =? 9) || (n =? 10) || (n =? 13))%N.

Fixpoint skip_ws (s : chars) : chars :=
  match s with
  | c :: s' => if is_json_ws c then skip_ws s' else s
  | [] => []
  end.

Fixpoint expect (p s : chars) : option chars :=
  match p, s with
  | [], _ => Some s
  | a :: p', b :: s' => if Ascii.eqb a b then expect p' s' else None
  | _ :: _, [] => None
  end.

Definition unescape (c : ascii) : option ascii :=
  let n := N_of_ascii c in
  if (n =? 34)%N then Some dquote
  else if (n =? 92)%N then Some backslash
  else if (n =? 47)%N then Some "/"%char
  else if (n =? 98)%N then Some (ascii_of_N 8)
  else if (n =? 102)%N then Some (ascii_of_N 12)
  else if (n =? 110)%N then Some (ascii_of_N 10)
  else if (n =? 114)%N then Some (ascii_of_N 13)
  else if (n =? 116)%N then Some (ascii_of_N 9)
  else None.

(** The UTF-8 bytes of a code unit below 0x10000 (surrogate pairs are not
    combined). *)
Definition utf8 (cp : N) : chars :=
  if (cp <? 128)%N then [ascii_of_N cp]
  else if (cp <? 2048)%N then
    [ascii_of_N (192 + cp / 64); ascii_of_N (128 + cp mod 64)]
  else
    [ascii_of_N (224 + cp / 4096); ascii_of_N (128 + (cp / 64) mod 64);
     ascii_of_N (128 + cp mod 64)].

Definition hex4 (a b c d : ascii) : option N :=
  match char_hex a, char_hex b, char_hex c, char_hex d with
  | Some x, Some y, Some z, Some w => Some (((x * 16 + y) * 16 + z) * 16 + w)%N
  | _, _, _, _ => None
  end.

Definition prepend (l : chars) (r : option (chars * chars)) : option (chars * chars) :=
  match r with
  | Some (body, rest) => Some (l ++ body, rest)
  | None => None
  end.

(** The characters of a string literal after its opening quote, up to the
    closing one. *)
Fixpoint read_string_body (s : chars) : option (chars * chars) :=
  match s with
  | [] => None
  | c :: s1 =>
      if Ascii.eqb c dquote then Some ([], s1)
      else if Ascii.eqb c backslash then
        match s1 with
        | [] => None
        | e :: s2 =>
            if Ascii.eqb e "u" then
              match s2 with
              | a :: b :: c' :: d :: s3 =>
                  match hex4 a b c' d with
                  | Some cp => prepend (utf8 cp) (read_string_body s3)
                  | None => None
                  end
              | _ => None
              end
            else
              match unescape e with
              | Some x => prepend [x] (read_string_body s2)
              | None => None
              end
        end
      else if (N_of_ascii c <? 32)%N then None
      else prepend [c] (read_string_body s1)
  end.

Definition read_string (s : chars) : option (string * chars) :=
  match s with
  | c :: s1 =>
      if Ascii.eqb c dquote then
        match read_string_body s1 with
        | Some (body, rest) => Some (unstr body, rest)
        | None => None
        end
      else None
  | [] => None
  end.

(** The elements of an array after the first has been announced: value,
    then a comma and more, or the closing bracket. *)
Fixpoint parse_elements (pv : chars → option (value * chars)) (fuel : nat)
    (s : chars) (acc : list value) : option (value * chars) :=
  match fuel with
  | O => None
  | S f =>
      match pv s with
      | None => None
      | Some (x, s1) =>
          match skip_ws s1 with
          | c :: s2 =>
              if Ascii.eqb c "," then parse_elements pv f s2 (acc ++ [x])
              else if Ascii.eqb c "]" then Some (VArr (acc ++ [x]), s2)
              else None
          | [] => None
          end
      end
  end.

(** The members of an object: key, colon, value, then a comma and more, or
    the closing brace.  A repeated key overwrites the earlier value. *)
Fixpoint parse_members (pv : chars → option (value * chars)) (fuel : nat)
    (s : chars) (acc : list (string * value)) : option (value * chars) :=
  match fuel with
  | O => None
  | S f =>
      match read_string (skip_ws s) with
      | None => None
      | Some (k, s1) =>
          match skip_ws s1 with
          | c :: s2 =>
              if Ascii.eqb c ":" then
                match pv s2 with
                | None => None
                | Some (x, s3) =>
                    match skip_ws s3 with
                    | c' :: s4 =>
                        if Ascii.eqb c' "," then
                          parse_members pv f s4 (assign_prop k x acc)
                        else if Ascii.eqb c' "}" then
                          Some (VObj (assign_prop k x acc), s4)
                        else None
                    | [] => None
                    end
                end
              else None
          | [] => None
          end
      end
  end.

Fixpoint parse_value (fuel : nat) (s : chars) : option (value * chars) :=
  match fuel with
  | O => None
  | S f =>
      match skip_ws s with
      | [] => None
      | c :: s1 =>
          if Ascii.eqb c "n" then
            match expect (str "ull") s1 with Some r => Some (VNull, r) | None => None end
          else if Ascii.eqb c "t" then
            match expect (str "rue") s1 with Some r => Some (VBool true, r) | None => None end
          else if Ascii.eqb c "f" then
            match expect (str "alse") s1 with Some r => Some (VBool false, r) | None => None end
          else if Ascii.eqb c dquote then
            match read_string (c :: s1) with
            | Some (k, r) => Some (VStr k, r)
            | None => None
            end
          else if Ascii.eqb c "[" then
            match skip_ws s1 with
            | c' :: s2 =>
                if Ascii.eqb c' "]" then Some (VArr [], s2)
                else parse_elements (parse_value f) f (c' :: s2) []
            | [] => None
            end
          else if Ascii.eqb c "{" then
            match skip_ws s1 with
            | c' :: s2 =>
                if Ascii.eqb c' "}" then Some (VObj [], s2)
                else parse_members (parse_value f) f (c' :: s2) []
            | [] => None
            end
          else
            match read_json_number (c :: s1) with
            | Some (n, r) => Some (VNum n, r)
            | None => None
            end
      end
  end.

(** [JSON.parse]: one value, then only white space; a SyntaxError
    otherwise. *)
Definition JSON_parse (s : string) : result value :=
  let text := str s in
  match parse_value (S (length text)) text with
  | Some (v, rest) =>
      match skip_ws rest with
      | [] => Ok v
      | _ => Throw (SyntaxError "Unexpected non-whitespace character after JSON")
      end
  | None => Throw (SyntaxError "Unexpected token in JSON")
  end.

(* ===================================================================== *)
(** * Node: [path.join] (POSIX) *)

Fixpoint split_slash (s cur : chars) : list chars :=
  match s with
  | [] => [cur]
  | c :: s' =>
      if Ascii.eqb c "/" then cur :: split_slash s' []
      else split_slash s' (cur ++ [c])
  end.

Definition is_dotdot (seg : chars) : bool :=
  match seg with
  | ["."; "."]%char => true
  | _ => false
  end.

Definition is_dot (seg : chars) : bool :=
  match seg with
  | ["."]%char => true
  | _ => false
  end.

(** Resolves "." and ".." segments; [stack] holds the segments kept so far,
    innermost first. *)
Fixpoint resolve_segments (absolute : bool) (segs stack : list chars) : list chars :=
  match segs with
  | [] => rev stack
  | seg :: rest =>
      if is_dot seg then resolve_segments absolute rest stack
      else match seg with
      | [] => resolve_segments absolute rest stack
      | _ =>
          if is_dotdot seg then
            match stack with
            | top :: below =>
                if is_dotdot top then resolve_segments absolute rest (seg :: stack)
                else resolve_segments absolute rest below
            | [] =>
                if absolute then resolve_segments absolute rest []
                else resolve_segments absolute rest [seg]
            end
          else resolve_segments absolute rest (seg :: stack)
      end
  end.

Definition ends_with_slash (s : chars) : bool :=
  match rev s with
  | c :: _ => Ascii.eqb c "/"
  | [] => false
  end.

(** [path.normalize]. *)
Definition path_normalize (p : string) : string :=
  match str p with
  | [] => "."
  | c :: _ as s =>
      let absolute := Ascii.eqb c "/" in
      let body := join_chars ["/"%char] (resolve_segments absolute (split_slash s []) []) in
      let body :=
        match body with
        | [] => if absolute then [] else ["."%char]
        | _ => if ends_with_slash s then body ++ ["/"%char] else body
        end in
      unstr (if absolute then "/"%char :: body else body)
  end.

(** [path.join]: the non-empty arguments joined by "/", then normalized. *)
Definition path_join (parts : list string) : string :=
  path_normalize (join "/" (filter (λ p, p ≠ "") parts)).

(* ===================================================================== *)
(** * The world: product files and observable effects *)

(** What a handler does to its environment, in order. *)
Inductive effect :=
| FsAccess (path : string)
| FsReadFile (path : string)
| FsWriteFile (path data : string)
| StripeConstructEvent
| StripeSessionsCreate (params : value)
| ConsoleLog (text : string)
| ConsoleError (text : string).

(** The file system maps a path to the content of the regular file there. *)
Record world := World {
  files : gmap string string;
  trace : list effect
}.

(** A computation may read and change the world, and returns or throws. *)
Definition M (A : Type) : Type := world → result A * world.

Global Instance M_ret : MRet M := λ A a w, (Ok a, w).

Global Instance M_bind : MBind M := λ A B f m w,
  match m w with
  | (Ok a, w') => f a w'
  | (Throw e, w') => (Throw e, w')
  end.

Global Instance result_ret : MRet result := λ A a, Ok a.

Global Instance result_bind : MBind result := λ A B f r,
  match r with
  | Ok a => f a
  | Throw e => Throw e
  end.

Definition throw {A} (e : error) : M A := λ w, (Throw e, w).

(** [try { body } catch (error) { handler }] *)
Definition try_catch {A} (body : M A) (handler : error → M A) : M A := λ w,
  match body w with
  | (Ok a, w') => (Ok a, w')
  | (Throw e, w') => handler e w'
  end.

Definition lift {A} (r : result A) : M A := λ w, (r, w).

Definition emit (e : effect) : M () := λ w,
  (Ok (), World (files w) (trace w ++ [e])).

Definition console_log (text : string) : M () := emit (ConsoleLog text).
Definition console_error (text : string) : M () := emit (ConsoleError text).

Definition get_files : M (gmap string string) := λ w, (Ok (files w), w).
Definition put_files (fs : gmap string string) : M () := λ w,
  (Ok (), World fs (trace w)).

(** ** [fs.promises] *)

Definition ENOENT (syscall path : string) : error :=
  {| err_name := "Error";
     message := "ENOENT: no such file or directory, " +:+ syscall +:+ " '" +:+ path +:+ "'" |}.

(** Node's message for an argument of the wrong type (where Node puts the
    argument name in double quotes, this text has single ones). *)
Definition ERR_INVALID_ARG_TYPE (arg : string) : error :=
  {| err_name := "TypeError";
     message := "The '" +:+ arg +:+ "' argument must be of type string or an instance of Buffer, TypedArray, or DataView. Received undefined" |}.

(** The path and data arguments are [None] when the caller passes
    [undefined]; the arguments are checked before any file is touched. *)
Definition fs_access (path : option string) : M () :=
  match path with
  | None => throw (ERR_INVALID_ARG_TYPE "path")
  | Some p =>
      emit (FsAccess p);;
      fs ← get_files;
      match fs !! p with
      | Some _ => mret ()
      | None => throw (ENOENT "access" p)
      end
  end.

Definition fs_readFile (path : option string) : M string :=
  match path with
  | None => throw (ERR_INVALID_ARG_TYPE "path")
  | Some p =>
      emit (FsReadFile p);;
      fs ← get_files;
      match fs !! p with
      | Some data => mret data
      | None => throw (ENOENT "open" p)
      end
  end.

(** [fs.writeFile(path, data, "utf-8")] replaces the whole content. *)
Definition fs_writeFile (path : option string) (data : option string) : M () :=
  match data, path with
  | None, _ => throw (ERR_INVALID_ARG_TYPE "data")
  | Some _, None => throw (ERR_INVALID_ARG_TYPE "path")
  | Some d, Some p =>
      emit (FsWriteFile p d);;
      fs ← get_files;
      put_files (<[p := d]> fs)
  end.

(** ** Express requests and responses *)

Record request := Request {
  body : value;
  params : value;
  headers : value;
  product : value
}.

Inductive payload :=
| Json (v : value)
| Text (s : string).

Record response := Response {
  status : Z;
  sent : payload
}.

(** [res.json(v)] and [res.status(code).json(v)]. *)
Definition res_json (v : value) : response := Response 200 (Json v).
Definition res_status_json (code : Z) (v : value) : response := Response code (Json v).
Definition res_status_send (code : Z) (s : string) : response := Response code (Text s).

(** A middleware either answers or hands the request on. *)
Inductive outcome :=
| Next (req : request)
| Sent (res : response).

(** ** The payment provider and the process environment

    The provider's SDK is outside the repository: each call is a function
    from its arguments to a returned value or a thrown error. *)
Record environment := Environment {
  SUCCESS_URL : value;
  CANCEL_URL : value;
  STRIPE_WEBHOOK_SECRET : value;
  stripe_checkout_sessions_create : value → result value;
  stripe_webhooks_constructEvent : value → value → value → result value
}.

(** [v.toString()] *)
Definition method_toString (v : value) : result value :=
  match v with
  | VUndefined => Throw (TypeError "Cannot read properties of undefined (reading 'toString')")
  | VNull => Throw (TypeError "Cannot read properties of null (reading 'toString')")
  | VObj props =>
      match lookup_prop "toString" props with
      | Some _ => Throw (TypeError "toString is not a function")
      | None => Ok (VStr (to_string v))
      end
  | _ => Ok (VStr (to_string v))
  end.

(** [v === "literal"] *)
Definition is_string (v : value) (s : string) : bool :=
  match v with
  | VStr t => String.eqb t s
  | _ => false
  end.

(* ===================================================================== *)
(** * src/utils/helpers.js *)

(** The directory of helpers.js in the container image (WORKDIR /app). *)
Definition __dirname : string := "/app/src/utils".

(** What [checkProductExists] returns: [{exists, path}] or
    [{exists: false, error}]. *)
Record product_check := ProductCheck {
  pc_exists : bool;
  pc_path : option string;
  pc_error : option string
}.

(** The path of a product file; the template literal applies ToString to the
    identifier. *)
Definition product_path (productId : value) : string :=
  path_join [__dirname; ".."; "products"; to_string productId +:+ ".json"].

Definition checkProductExists (productId : value) : M product_check :=
  try_catch
    (let productPath := product_path productId in
     fs_access (Some productPath);;
     mret (ProductCheck true (Some productPath) None))
    (λ error, mret (ProductCheck false None (Some (message error)))).

(** What [getProduct] and [updateProduct] return: [{success, product?,
    error?}], with [loaded] for [product] and [failure] for [error]. *)
Record store_result := StoreResult {
  success : bool;
  loaded : value;
  failure : option string
}.

Definition getProduct (productId : value) : M store_result :=
  try_catch
    (productCheck ← checkProductExists productId;
     if negb (pc_exists productCheck) then
       mret (StoreResult false VUndefined
               (Some ("Product " +:+ to_string productId +:+ " not found")))
     else
       productData ← fs_readFile (pc_path productCheck);
       product ← lift (JSON_parse productData);
       mret (StoreResult true product None))
    (λ error, mret (StoreResult false VUndefined (Some (message error)))).

(** An argument of [updateProduct]: a product record, or the callback the
    webhook handler passes. *)
Definition update_arg := js_arg (value → M value).

Definition updateProduct (productId : value) (updatedProduct : update_arg)
  : M store_result :=
  try_catch
    (productCheck ← checkProductExists productId;
     if negb (pc_exists productCheck) then
       mret (StoreResult false VUndefined
               (Some ("Product " +:+ to_string productId +:+ " not found")))
     else
       fs_writeFile (pc_path productCheck) (JSON_stringify updatedProduct);;
       mret (StoreResult true VUndefined None))
    (λ error, mret (StoreResult false VUndefined (Some (message error)))).

(* ===================================================================== *)
(** * src/middlewares/validation.js *)

Definition one : value := VNum (Dec 1 O).
Definition zero : value := VNum (Dec 0 O).

Definition error_body (msg : string) : value := VObj [("error", VStr msg)].

Definition opt_string (o : option string) : value :=
  match o with
  | Some s => VStr s
  | None => VUndefined
  end.

(** Synchronous, and free of effects: it only inspects the body. *)
Definition validateCheckoutData (req : request) : result outcome :=
  product_id ← get_prop (body req) "product_id";
  given ← get_prop (body req) "quantity";
  let quantity := match given with VUndefined => one | _ => given end in
  if negb (truthy product_id) then
    mret (Sent (res_status_json 400 (error_body "Product ID is required")))
  else if negb (truthy quantity) then
    mret (Sent (res_status_json 400 (error_body "Quantity is required")))
  else if truthy quantity && (negb (Number_isInteger quantity) || js_lt quantity one) then
    mret (Sent (res_status_json 400 (error_body "Quantity must be a positive integer")))
  else mret (Next req).

Definition loadProductInfo (req : request) : M outcome :=
  try_catch
    (product_id ← lift (get_prop (body req) "product_id");
     productCheck ← checkProductExists product_id;
     if negb (pc_exists productCheck) then
       mret (Sent (res_status_json 404 (VObj
         [("error", VStr "Product not found");
          ("details", VStr ("Product file " +:+ to_string product_id +:+ ".json does not exist"));
          ("debugInfo", opt_string (pc_error productCheck))])))
     else
       productData ← fs_readFile (pc_path productCheck);
       product ← lift (JSON_parse productData);
       stock ← lift (get_prop product "stock");
       if negb (truthy stock) || js_lt stock one then
         mret (Sent (res_status_json 400 (VObj
           [("error", VStr "Product out of stock");
            ("details", VStr ("The product with ID " +:+ to_string product_id +:+ " is out of stock"));
            ("available", VBool false)])))
       else
         quantity ← lift (get_prop (body req) "quantity");
         if js_gt quantity stock then
           mret (Sent (res_status_json 400 (VObj
             [("error", VStr "Insufficient stock");
              ("details", VStr ("Requested quantity (" +:+ to_string quantity +:+
                                ") exceeds available stock (" +:+ to_string stock +:+ ")"));
              ("available", VBool true);
              ("stock", stock);
              ("requested", quantity)])))
         else
           mret (Next (Request (body req) (params req) (headers req) product)))
    (λ error,
       console_error ("Error loading product info: " +:+ message error);;
       mret (Sent (res_status_json 500 (error_body "Error loading product info")))).

(* ===================================================================== *)
(** * src/controllers/checkoutController.js *)

Definition getProductInfo (req : request) : M response :=
  try_catch
    (productId ← lift (get_prop (params req) "id");
     productCheck ← checkProductExists productId;
     if negb (pc_exists productCheck) then
       mret (res_status_json 404 (VObj
         [("error", VStr "Product not found");
          ("details", VStr ("Product file " +:+ to_string productId +:+ ".json does not exist"));
          ("debugInfo", opt_string (pc_error productCheck))]))
     else
       productData ← fs_readFile (pc_path productCheck);
       product ← lift (JSON_parse productData);
       let copied := spread_props product in
       stock ← lift (get_prop product "stock");
       let productWithAvailability :=
         object_of (copied ++
           [("available", VBool (js_gt stock zero));
            ("outOfStock", VBool (js_le stock zero));
            ("inStock", VBool (js_gt stock zero))]) in
       mret (res_json (VObj [("success", VBool true); ("data", productWithAvailability)])))
    (λ error,
       console_error ("Error loading product info: " +:+ message error);;
       mret (res_status_json 500 (error_body "Error loading product info"))).

Definition createCheckoutSession (env : environment) (req : request) : M response :=
  try_catch
    (quantity ← lift (get_prop (body req) "quantity");
     let product := product req in
     currency ← lift (get_prop product "currency");
     name ← lift (get_prop product "name");
     unit_amount ← lift (get_prop product "amount");
     let success_url := VStr (to_string (SUCCESS_URL env) +:+ "?session_id={CHECKOUT_SESSION_ID}") in
     product_id ← lift (get_prop product "id");
     product_name ← lift (get_prop product "name");
     quantity_text ← lift (method_toString quantity);
     let create_params := VObj
       [("payment_method_types", VArr [VStr "card"; VStr "paypal"]);
        ("mode", VStr "payment");
        ("line_items", VArr [VObj
           [("price_data", VObj
               [("currency", currency);
                ("product_data", VObj [("name", name)]);
                ("unit_amount", unit_amount)]);
            ("quantity", quantity)]]);
        ("success_url", success_url);
        ("cancel_url", CANCEL_URL env);
        ("metadata", VObj
           [("product_id", product_id);
            ("product_name", product_name);
            ("quantity", quantity_text);
            ("order_type", VStr "single_purchase")]);
        ("customer_creation", VStr "always");
        ("invoice_creation", VObj [("enabled", VBool true)])] in
     emit (StripeSessionsCreate create_params);;
     session ← lift (stripe_checkout_sessions_create env create_params);
     url ← lift (get_prop session "url");
     session_id ← lift (get_prop session "id");
     id ← lift (get_prop product "id");
     amount ← lift (get_prop product "amount");
     unit_price ← lift (get_prop product "amount");
     currency' ← lift (get_prop product "currency");
     mret (res_json (VObj
       [("success", VBool true);
        ("checkout_url", url);
        ("session_id", session_id);
        ("product", VObj
           [("product_id", id);
            ("quantity", quantity);
            ("total_amount", js_mul amount quantity);
            ("unit_price", unit_price);
            ("currency", currency')])])))
    (λ error,
       console_error ("Error creating checkout session: " +:+ message error);;
       mret (res_status_json 500 (error_body "Error creating checkout session"))).

(** The callback the webhook handler hands to [updateProduct].  The source
    updates the object it is given in place and returns that object; here
    the callback returns the updated value, and the identity of the object
    is not modelled (no code calls the callback). *)
Definition decrement_stock (quantityPurchased : number) (currentProduct : value)
  : M value :=
  stock ← lift (get_prop currentProduct "stock");
  mret (set_prop currentProduct "stock" (js_sub stock (VNum quantityPurchased))).

(** Nothing after the signature check is inside a [try]: an error thrown
    there leaves the request without a response. *)
Definition handleWebhook (env : environment) (req : request) : M response :=
  sig ← lift (get_prop (headers req) "stripe-signature");
  verified ← try_catch
    (emit StripeConstructEvent;;
     event ← lift (stripe_webhooks_constructEvent env (body req) sig (STRIPE_WEBHOOK_SECRET env));
     mret (inl event))
    (λ err,
       console_error ("Webhook signature verification failed: " +:+ message err);;
       mret (inr (res_status_send 400 ("Webhook Error: " +:+ message err))));
  match verified with
  | inr rejected => mret rejected
  | inl event =>
      type ← lift (get_prop event "type");
      (if is_string type "checkout.session.completed" then
         data ← lift (get_prop event "data");
         session ← lift (get_prop data "object");
         session_id ← lift (get_prop session "id");
         console_log ("Checkout completed: " +:+ to_string session_id);;
         metadata ← lift (get_prop session "metadata");
         productId ← lift (get_prop metadata "product_id");
         quantity ← lift (get_prop metadata "quantity");
         let quantityPurchased := parseInt quantity in
         productUpdateResult ← updateProduct productId
           (AFunction (decrement_stock quantityPurchased));
         if negb (success productUpdateResult) then
           console_error ("Error updating product stock: " +:+
                          to_string (opt_string (failure productUpdateResult)))
         else
           console_log ("Product " +:+ to_string productId +:+ " stock updated successfully.")
       else if is_string type "payment_intent.succeeded" then
         data ← lift (get_prop event "data");
         paymentIntent ← lift (get_prop data "object");
         id ← lift (get_prop paymentIntent "id");
         console_log ("Payment successful: " +:+ to_string id)
       else if is_string type "payment_intent.payment_failed" then
         data ← lift (get_prop event "data");
         failedPayment ← lift (get_prop data "object");
         id ← lift (get_prop failedPayment "id");
         console_log ("Payment failed: " +:+ to_string id)
       else
         console_log ("Unhandled event type " +:+ to_string type));;
      mret (res_json (VObj [("received", VBool true)]))
  end.

(** ** The status of a session *)

(** [o?.k] *)
Definition optional_prop (o : value) (k : string) : result value :=
  if is_nullish o then Ok VUndefined else get_prop o k.

(** [stripe.checkout.sessions.retrieve], as the environment's other calls:
    a function from the arguments to a returned session or a thrown error.
    The handler receives it as an argument, and the call leaves no entry in
    the trace. *)
Definition retrieve_call := value → value → result value.

Definition getCheckoutStatus (retrieve : retrieve_call) (req : request) : M response :=
  try_catch
    (session_id ← lift (get_prop (params req) "session_id");
     if negb (truthy session_id) then
       mret (res_status_json 400 (error_body "session_id parameter is required"))
     else
       session ← lift (retrieve session_id (VObj [("expand", VArr [VStr "payment_intent"])]));
       id ← lift (get_prop session "id");
       payment_status ← lift (get_prop session "payment_status");
       status ← lift (get_prop session "status");
       amount_total ← lift (get_prop session "amount_total");
       currency ← lift (get_prop session "currency");
       customer_details ← lift (get_prop session "customer_details");
       customer_email ← lift (optional_prop customer_details "email");
       customer_details' ← lift (get_prop session "customer_details");
       customer_name ← lift (optional_prop customer_details' "name");
       payment_intent ← lift (get_prop session "payment_intent");
       metadata ← lift (get_prop session "metadata");
       mret (res_json (VObj
         [("success", VBool true);
          ("session", VObj
             [("id", id);
              ("payment_status", payment_status);
              ("status", status);
              ("amount_total", amount_total);
              ("currency", currency);
              ("customer_email", customer_email);
              ("customer_name", customer_name);
              ("payment_intent", payment_intent);
              ("metadata", metadata)])])))
    (λ error,
       console_error ("Error retrieving checkout status: " +:+ message error);;
       mret (res_status_json 500 (error_body "Error retrieving checkout status"))).

(* ===================================================================== *)
(** * src/routes/checkoutRoutes.js *)

(** POST /create-checkout-session: the two middlewares, then the
    controller. *)
Definition route_create_checkout_session (env : environment) (req : request)
  : M response :=
  validated ← lift (validateCheckoutData req);
  match validated with
  | Sent res => mret res
  | Next req1 =>
      loaded ← loadProductInfo req1;
      match loaded with
      | Sent res => mret res
      | Next req2 => createCheckoutSession env req2
      end
  end.

(** GET /products/:id *)
Definition route_products (req : request) : M response := getProductInfo req.

(** POST /webhook *)
Definition route_webhook (env : environment) (req : request) : M response :=
  handleWebhook env req.

(** GET /session-status/:session_id *)
Definition route_session_status (retrieve : retrieve_call) (req : request) : M response :=
  getCheckoutStatus retrieve req.

(* ===================================================================== *)
(** * Vocabulary of the statements *)

(** ** Effects *)

(** The world with further effects recorded. *)
Definition after (w : world) (es : list effect) : world :=
  World (files w) (trace w ++ es).

Definition is_write (e : effect) : bool :=
  match e with
  | FsWriteFile _ _ => true
  | _ => false
  end.

(** The files are left as they are, and no write is among the effects. *)
Definition read_only {A} (m : M A) : Prop :=
  ∀ w, ∃ es, (m w).2 = after w es ∧ existsb is_write es = false.

(** ** Purchase requests and their answers *)

(** A requested quantity the purchase request allows: a number that is an
    integer and at least 1. *)
Definition is_positive_integer (q : value) : bool :=
  match q with
  | VNum n =>
      match num_to_Z n with
      | Some z => 1 <=? z
      | None => false
      end
  | _ => false
  end.

(** A request as it reaches the first middleware of a POST route. *)
Definition request_of_body (b : value) : request :=
  Request b (VObj []) (VObj []) VUndefined.

Definition purchase (product_id : string) (quantity : Z) : request :=
  request_of_body (VObj [("product_id", VStr product_id); ("quantity", VNum (Dec quantity O))]).

(** [req.product = p] *)
Definition with_product (req : request) (p : value) : request :=
  Request (body req) (params req) (headers req) p.

(** The two rejections of the availability check, as [loadProductInfo]
    sends them. *)
Definition out_of_stock_answer (product_id : value) : response :=
  Response 400 (Json (VObj
    [("error", VStr "Product out of stock");
     ("details", VStr ("The product with ID " +:+ to_string product_id +:+ " is out of stock"));
     ("available", VBool false)])).

Definition insufficient_stock_answer (quantity stock : value) : response :=
  Response 400 (Json (VObj
    [("error", VStr "Insufficient stock");
     ("details", VStr ("Requested quantity (" +:+ to_string quantity +:+
                       ") exceeds available stock (" +:+ to_string stock +:+ ")"));
     ("available", VBool true);
     ("stock", stock);
     ("requested", quantity)])).

(** The status and error text of a middleware's rejection. *)
Definition rejection (o : outcome) : option (Z * string) :=
  match o with
  | Sent (Response code (Json (VObj props))) =>
      match lookup_prop "error" props with
      | Some (VStr msg) => Some (code, msg)
      | _ => None
      end
  | _ => None
  end.

(** The rejection, if any, the availability check answers with. *)
Definition load_rejection (req : request) (w : world) : option (Z * string) :=
  match (loadProductInfo req w).1 with
  | Ok o => rejection o
  | Throw _ => None
  end.

(** ** Provider events *)

(** [o.k], with [undefined] where the access would throw. *)
Definition prop_of (o : value) (k : string) : value :=
  match get_prop o k with
  | Ok v => v
  | Throw _ => VUndefined
  end.

(** The fields [handleWebhook] reads off a verified event after its type:
    [data.object] for the three types the handler names, and with it the
    metadata of the session for a completed checkout.  An event of any other
    type needs none of them. *)
Definition readable_event (event : value) : bool :=
  let type := prop_of event "type" in
  let object := prop_of (prop_of event "data") "object" in
  negb (is_nullish event) &&
  (if is_string type "checkout.session.completed" then
     negb (is_nullish (prop_of event "data")) && negb (is_nullish object) &&
     negb (is_nullish (prop_of object "metadata"))
   else if is_string type "payment_intent.succeeded"
           || is_string type "payment_intent.payment_failed" then
     negb (is_nullish (prop_of event "data")) && negb (is_nullish object)
   else true).

Definition completed_event (product_id quantity : value) : value :=
  VObj [("type", VStr "checkout.session.completed");
        ("data", VObj [("object", VObj
           [("id", VStr "cs_test_1");
            ("metadata", VObj [("product_id", product_id); ("quantity", quantity)])])])].

(** ** Paths *)

Definition products_directory : string := path_join [__dirname; ".."; "products"].

Definition inside_products (p : string) : bool :=
  String.prefix (products_directory +:+ "/") p.

Definition escaping_id : value := VStr "../../package".
Definition escaped_path : string := "/app/package.json".

(** ** Sample stores, providers and requests *)

(** The scenario product of the specification, with a given stock. *)
Definition p1_record (stock : Z) : value :=
  VObj [("id", VStr "p1"); ("name", VStr "T-shirt"); ("amount", VNum (Dec 1000 O));
        ("currency", VStr "usd"); ("stock", VNum (Dec stock O))].

(** The content of a product file holding [v]. *)
Definition json_text (v : value) : string :=
  default "" (JSON_stringify (F := unit) (AValue v)).

Definition p1_store (stock : Z) : world :=
  World {[ "/app/src/products/p1.json" := json_text (p1_record stock) ]} [].

Definition one_product_world : world :=
  World {[ "/app/src/products/p1.json" := "{}" ]} [].

(** The container image: the package manifest next to the sources. *)
Definition image_world : world :=
  World {[ "/app/package.json" := json_text (VObj [("name", VStr "stripe-checkout-api")]);
           "/app/src/products/p1.json" := json_text (p1_record 3) ]} [].

(** A provider that refuses every call and verifies no signature. *)
Definition null_environment : environment :=
  Environment VUndefined VUndefined VUndefined
    (λ _, Throw (TypeError "provider unavailable"))
    (λ _ _ _, Throw (TypeError "No signatures found matching the expected signature for payload")).

(** A provider that opens a session for every request and verifies every
    webhook as the given event. *)
Definition test_environment (event : value) : environment :=
  Environment (VStr "https://shop.example/success") (VStr "https://shop.example/cancel")
    (VStr "whsec_test")
    (λ _, Ok (VObj [("id", VStr "cs_test_1"); ("url", VStr "https://pay.example/cs_test_1")]))
    (λ _ _ _, Ok event).

Definition unsigned_webhook : request :=
  Request (VStr "{}") (VObj [])
    (VObj [("stripe-signature", VStr "t=1,v1=00")]) VUndefined.

Definition signed_webhook : request :=
  Request (VStr "raw") (VObj []) (VObj [("stripe-signature", VStr "t=1,v1=ab")]) VUndefined.

(** ** JSON-representable values *)

Fixpoint distinct (keys : list string) : bool :=
  match keys with
  | [] => true
  | k :: rest => negb (existsb (String.eqb k) rest) && distinct rest
  end.

(** The values [JSON.stringify] writes without loss: no [undefined] and no
    [NaN] anywhere, numbers in lowest terms, and no key twice in an object. *)
Fixpoint json_representable (v : value) : bool :=
  match v with
  | VUndefined => false
  | VNull | VBool _ | VStr _ => true
  | VNum n => canonicalb n
  | VArr items => forallb json_representable items
  | VObj props =>
      distinct (map fst props) &&
      (fix all (l : list (string * value)) : bool :=
         match l with
         | [] => true
         | (_, x) :: l' => json_representable x && all l'
         end) props
  end.

Definition all_representable (props : list (string * value)) : bool :=
  forallb (λ kv, json_representable kv.2) props.

(** The text of a value at an indentation (empty for [undefined]). *)
Definition text (ind : nat) (v : value) : chars :=
  default [] (stringify_value ind v).

Definition member_text (ind : nat) (kv : string * value) : chars :=
  quote kv.1 ++ ":"%char :: " "%char :: text ind kv.2.

(** What may follow a number: the end, or a character that cannot continue
    it. *)
Definition number_stop (r : chars) : bool :=
  match r with
  | [] => true
  | c :: _ =>
      negb (is_digit c) && negb (Ascii.eqb c ".") &&
      negb (Ascii.eqb c "e") && negb (Ascii.eqb c "E")
  end.

(** One element is read back by the parser [pv] when its text is followed by
    something that cannot continue a number. *)
Definition reads_back (pv : chars → option (value * chars)) (t : chars) (x : value) : Prop :=
  ∀ r, number_stop r = true → pv (t ++ r) = Some (x, r).

(** The rest of a number after its integer part. *)
Definition finish_number (neg : bool) (ip : Z) (s : chars) : option (number * chars) :=
  match read_fraction 1 s ip with
  | None => None
  | Some (m, e, s3) =>
      match read_exponent s3 with
      | None => None
      | Some (x, s4) => Some (scale_dec neg m e x, s4)
      end
  end.

(** A character a JSON text can begin with, as far as the parser's loops
    care: not white space and not a closing bracket. *)
Definition value_start (c : ascii) : bool :=
  negb (is_json_ws c) && negb (Ascii.eqb c "]") && negb (Ascii.eqb c "}").

Definition number_start (c : ascii) : Prop :=
  c = "-"%char ∨ ∃ d, 0 ≤ d < 10 ∧ c = digit_char d.

(** ** Structural induction on values *)

Section ValueInduction.
Variable P : value → Prop.
Hypothesis P_undefined : P VUndefined.
Hypothesis P_null : P VNull.
Hypothesis P_bool : ∀ b, P (VBool b).
Hypothesis P_num : ∀ n, P (VNum n).
Hypothesis P_str : ∀ s, P (VStr s).
Hypothesis P_arr : ∀ items, Forall P items → P (VArr items).
Hypothesis P_obj : ∀ props, Forall (λ kv, P kv.2) props → P (VObj props).

Fixpoint value_ind (v : value) : P v :=
  match v with
  | VUndefined => P_undefined
  | VNull => P_null
  | VBool b => P_bool b
  | VNum n => P_num n
  | VStr s => P_str s
  | VArr items =>
      P_arr items
        ((fix all (l : list value) : Forall P l :=
            match l with
            | [] => List.Forall_nil P
            | x :: l' => List.Forall_cons P x l' (value_ind x) (all l')
            end) items)
  | VObj props =>
      P_obj props
        ((fix all (l : list (string * value)) : Forall (λ kv, P kv.2) l :=
            match l with
            | [] => List.Forall_nil _
            | kv :: l' => List.Forall_cons _ kv l' (value_ind kv.2) (all l')
            end) props)
  end.
End ValueInduction.

(* ===================================================================== *)
(** * Vocabulary of the further properties *)

(** The error, if any, that reading a product file's content as a product
    raises: the parser's, or the TypeError of reading [stock] off [null]. *)
Definition load_failure (content : string) : option error :=
  match JSON_parse content with
  | Throw e => Some e
  | Ok item =>
      match get_prop item "stock" with
      | Throw e => Some e
      | Ok _ => None
      end
  end.

(** The three flags [getProductInfo] adds to a product. *)
Definition availability_flags (stock : value) : list (string * value) :=
  [("available", VBool (js_gt stock zero));
   ("outOfStock", VBool (js_le stock zero));
   ("inStock", VBool (js_gt stock zero))].

Definition load_error_answer : response :=
  Response 500 (Json (VObj [("error", VStr "Error loading product info")])).

(** The request [createCheckoutSession] sends to the provider for a product
    and a quantity. *)
Definition session_request (env : environment) (item quantity : value) : value :=
  VObj
    [("payment_method_types", VArr [VStr "card"; VStr "paypal"]);
     ("mode", VStr "payment");
     ("line_items", VArr [VObj
        [("price_data", VObj
            [("currency", prop_of item "currency");
             ("product_data", VObj [("name", prop_of item "name")]);
             ("unit_amount", prop_of item "amount")]);
         ("quantity", quantity)]]);
     ("success_url", VStr (to_string (SUCCESS_URL env) +:+ "?session_id={CHECKOUT_SESSION_ID}"));
     ("cancel_url", CANCEL_URL env);
     ("metadata", VObj
        [("product_id", prop_of item "id");
         ("product_name", prop_of item "name");
         ("quantity", VStr (to_string quantity));
         ("order_type", VStr "single_purchase")]);
     ("customer_creation", VStr "always");
     ("invoice_creation", VObj [("enabled", VBool true)])].

(** The answer of [createCheckoutSession] for a session the provider
    opened. *)
Definition session_answer (session item quantity : value) : response :=
  Response 200 (Json (VObj
    [("success", VBool true);
     ("checkout_url", prop_of session "url");
     ("session_id", prop_of session "id");
     ("product", VObj
        [("product_id", prop_of item "id");
         ("quantity", quantity);
         ("total_amount", js_mul (prop_of item "amount") quantity);
         ("unit_price", prop_of item "amount");
         ("currency", prop_of item "currency")])])).

Definition session_error_answer : response :=
  Response 500 (Json (VObj [("error", VStr "Error creating checkout session")])).

Definition acknowledged : response :=
  Response 200 (Json (VObj [("received", VBool true)])).

(** [event.data.object] *)
Definition event_object (event : value) : value :=
  prop_of (prop_of event "data") "object".

(** An identifier that is one path segment. *)
Definition no_slash (id : string) : bool :=
  forallb (λ c, negb (Ascii.eqb c "/")) (str id).

(** The value of [o?.k]. *)
Definition optional_of (o : value) (k : string) : value :=
  if is_nullish o then VUndefined else prop_of o k.

(** The options [getCheckoutStatus] passes to the provider. *)
Definition retrieve_options : value := VObj [("expand", VArr [VStr "payment_intent"])].

(** ** Sample requests, stores and sessions *)

(** GET /products/:id *)
Definition product_lookup (id : string) : request :=
  Request VUndefined (VObj [("id", VStr id)]) (VObj []) VUndefined.

(** GET /session-status/:session_id *)
Definition session_lookup (session_id : string) : request :=
  Request VUndefined (VObj [("session_id", VStr session_id)]) (VObj []) VUndefined.

(** A store whose product file holds [content]. *)
Definition store_of (content : string) : world :=
  World {[ "/app/src/products/p1.json" := content ]} [].

(** A product record without a stock. *)
Definition unstocked_record : value :=
  VObj [("id", VStr "p1"); ("name", VStr "T-shirt"); ("amount", VNum (Dec 1000 O));
        ("currency", VStr "usd")].

(** A payment-intent event of the given type. *)
Definition payment_event (type : string) : value :=
  VObj [("type", VStr type); ("data", VObj [("object", VObj [("id", VStr "pi_1")])])].

(** A completed checkout whose session carries no metadata. *)
Definition bare_completed_event : value :=
  VObj [("type", VStr "checkout.session.completed");
        ("data", VObj [("object", VObj [("id", VStr "cs_test_1")])])].

(** A session still open: no customer details yet. *)
Definition open_session : value :=
  VObj [("id", VStr "cs_test_1"); ("payment_status", VStr "unpaid"); ("status", VStr "open");
        ("amount_total", VNum (Dec 2000 O)); ("currency", VStr "usd");
        ("customer_details", VNull); ("payment_intent", VNull);
        ("metadata", VObj [("product_id", VStr "p1"); ("quantity", VStr "2")])].

Definition retrieve_open : retrieve_call := λ _ _, Ok open_session.
Definition retrieve_unknown : retrieve_call :=
  λ _ _, Throw (Build_error "StripeInvalidRequestError" "No such checkout.session").

(* ===================================================================== *)
(** * Reasoning about computations *)

Lemma after_nil w : after w [] = w.
Proof. destruct w; unfold after; simpl. by rewrite app_nil_r. Qed.

Lemma after_after w es es' : after (after w es) es' = after w (es ++ es').
Proof. unfold after; simpl. by rewrite app_assoc. Qed.

Lemma bind_run {A B} (m : M A) (f : A → M B) w :
  (m ≫= f) w =
  match m w with
  | (Ok a, w') => f a w'
  | (Throw e, w') => (Throw e, w')
  end.
Proof. reflexivity. Qed.

Lemma emit_run e w : emit e w = (Ok (), after w [e]).
Proof. reflexivity. Qed.

Lemma ret_run {A} (a : A) w : (mret a : M A) w = (Ok a, w).
Proof. reflexivity. Qed.

(** ** Computations that only read the store *)

Lemma read_only_files {A} (m : M A) w : read_only m → files (m w).2 = files w.
Proof. intros H. destruct (H w) as (es & -> & _). done. Qed.

Section ReadOnly.
Context {A B : Type}.

Lemma read_only_ret (a : A) : read_only (mret a : M A).
Proof. intros w. exists []. by rewrite after_nil. Qed.

Lemma read_only_throw (e : error) : read_only (throw e : M A).
Proof. intros w. exists []. by rewrite after_nil. Qed.

Lemma read_only_lift (r : result A) : read_only (lift r).
Proof. intros w. exists []. by rewrite after_nil. Qed.

Lemma read_only_bind (m : M A) (f : A → M B) :
  read_only m → (∀ a, read_only (f a)) → read_only (m ≫= f).
Proof.
  intros Hm Hf w. rewrite bind_run. destruct (Hm w) as (es & Hw & Hes).
  destruct (m w) as [[a|e] w']; simpl in *; subst w'.
  - destruct (Hf a (after w es)) as (es' & -> & Hes').
    exists (es ++ es'). rewrite after_after, existsb_app, Hes, Hes'. done.
  - by exists es.
Qed.

Lemma read_only_try_catch (m : M A) (h : error → M A) :
  read_only m → (∀ e, read_only (h e)) → read_only (try_catch m h).
Proof.
  intros Hm Hh w. unfold try_catch. destruct (Hm w) as (es & Hw & Hes).
  destruct (m w) as [[a|e] w']; simpl in *; subst w'.
  - by exists es.
  - destruct (Hh e (after w es)) as (es' & -> & Hes').
    exists (es ++ es'). rewrite after_after, existsb_app, Hes, Hes'. done.
Qed.
End ReadOnly.

Lemma read_only_emit e : is_write e = false → read_only (emit e).
Proof. intros He w. exists [e]. simpl. by rewrite He. Qed.

Lemma read_only_get_files : read_only get_files.
Proof. intros w. exists []. by rewrite after_nil. Qed.

Create HintDb frame.
#[local] Hint Resolve read_only_ret read_only_throw read_only_lift
  read_only_get_files : frame.

(** Splits a computation along its binds, handlers and branches. *)
Ltac frame_step :=
  match goal with
  | |- read_only (_ ≫= _) => apply read_only_bind; [|intros ?]
  | |- read_only (try_catch _ _) => apply read_only_try_catch; [|intros ?]
  | |- read_only (emit _) => apply read_only_emit; reflexivity
  | |- read_only (console_log _) => apply read_only_emit; reflexivity
  | |- read_only (console_error _) => apply read_only_emit; reflexivity
  | |- read_only (if ?b then _ else _) => destruct b
  | |- read_only (match ?x with _ => _ end) => destruct x
  | |- read_only _ => solve [auto with frame]
  end.
Ltac frame := repeat frame_step.

Lemma read_only_fs_access path : read_only (fs_access path).
Proof. unfold fs_access. frame. Qed.

Lemma read_only_fs_readFile path : read_only (fs_readFile path).
Proof. unfold fs_readFile. frame. Qed.

(** Writing [undefined] fails before the file is opened. *)
Lemma read_only_fs_writeFile_undefined path : read_only (fs_writeFile path None).
Proof. unfold fs_writeFile. frame. Qed.

#[local] Hint Resolve read_only_fs_access read_only_fs_readFile
  read_only_fs_writeFile_undefined : frame.

Lemma read_only_checkProductExists productId :
  read_only (checkProductExists productId).
Proof. unfold checkProductExists. frame. Qed.

#[local] Hint Resolve read_only_checkProductExists : frame.

Lemma read_only_getProduct productId : read_only (getProduct productId).
Proof. unfold getProduct. frame. Qed.

(** [updateProduct] writes nothing when it is given a function. *)
Lemma read_only_updateProduct_function productId f :
  read_only (updateProduct productId (AFunction f)).
Proof. unfold updateProduct. simpl. frame. Qed.

Lemma read_only_loadProductInfo req : read_only (loadProductInfo req).
Proof. unfold loadProductInfo. frame. Qed.

Lemma read_only_createCheckoutSession env req :
  read_only (createCheckoutSession env req).
Proof. unfold createCheckoutSession. frame. Qed.

Lemma read_only_getProductInfo req : read_only (getProductInfo req).
Proof. unfold getProductInfo. frame. Qed.

#[local] Hint Resolve read_only_updateProduct_function read_only_loadProductInfo
  read_only_createCheckoutSession : frame.

Lemma read_only_handleWebhook env req : read_only (handleWebhook env req).
Proof. unfold handleWebhook. frame. Qed.

(** ** Running the store primitives *)

Arguments product_path : simpl never.

Lemma checkProductExists_found productId w content :
  files w !! product_path productId = Some content →
  checkProductExists productId w =
    (Ok (ProductCheck true (Some (product_path productId)) None),
     after w [FsAccess (product_path productId)]).
Proof.
  intros H. unfold checkProductExists, try_catch, fs_access.
  rewrite !bind_run, emit_run. rewrite bind_run. simpl. by rewrite H.
Qed.

Lemma checkProductExists_missing productId w :
  files w !! product_path productId = None →
  checkProductExists productId w =
    (Ok (ProductCheck false None
           (Some (message (ENOENT "access" (product_path productId))))),
     after w [FsAccess (product_path productId)]).
Proof.
  intros H. unfold checkProductExists, try_catch, fs_access.
  rewrite !bind_run, emit_run. rewrite bind_run. simpl. by rewrite H.
Qed.

Lemma fs_readFile_found p w content :
  files w !! p = Some content →
  fs_readFile (Some p) w = (Ok content, after w [FsReadFile p]).
Proof.
  intros H. unfold fs_readFile. rewrite bind_run, emit_run, bind_run. simpl.
  by rewrite H.
Qed.

(** ** Integers among the numbers *)

Lemma pow10_pos k : 0 < pow10 k.
Proof. unfold pow10. apply Z.pow_pos_nonneg; lia. Qed.

Lemma pow10_add a b : pow10 (a + b) = pow10 a * pow10 b.
Proof. unfold pow10. rewrite Nat2Z.inj_add, Z.pow_add_r; lia. Qed.

Lemma num_to_Z_Some m e z :
  num_to_Z (Dec m e) = Some z → m = z * pow10 e.
Proof.
  simpl. destruct (Z.eqb_spec (m mod pow10 e) 0) as [H|H]; [|done].
  intros [= <-]. pose proof (pow10_pos e).
  rewrite (Z.div_mod m (pow10 e)) at 1 by lia. lia.
Qed.

Lemma align_integers m1 e1 m2 e2 x y :
  num_to_Z (Dec m1 e1) = Some x → num_to_Z (Dec m2 e2) = Some y →
  align m1 e1 m2 e2 = (x * pow10 (Nat.max e1 e2), y * pow10 (Nat.max e1 e2)).
Proof.
  intros ->%num_to_Z_Some ->%num_to_Z_Some. unfold align. simpl.
  rewrite <- !Z.mul_assoc, <- !pow10_add. do 2 f_equal; f_equal; lia.
Qed.

Lemma num_ltb_integers a b x y :
  num_to_Z a = Some x → num_to_Z b = Some y → num_ltb a b = (x <? y).
Proof.
  destruct a as [|m1 e1], b as [|m2 e2]; try done. intros Ha Hb.
  unfold num_ltb. rewrite (align_integers _ _ _ _ _ _ Ha Hb).
  pose proof (pow10_pos (Nat.max e1 e2)).
  destruct (Z.ltb_spec x y), (Z.ltb_spec (x * pow10 (Nat.max e1 e2))
    (y * pow10 (Nat.max e1 e2))); try done; nia.
Qed.

Lemma num_leb_integers a b x y :
  num_to_Z a = Some x → num_to_Z b = Some y → num_leb a b = (x <=? y).
Proof.
  destruct a as [|m1 e1], b as [|m2 e2]; try done. intros Ha Hb.
  unfold num_leb. rewrite (align_integers _ _ _ _ _ _ Ha Hb).
  pose proof (pow10_pos (Nat.max e1 e2)).
  destruct (Z.leb_spec x y), (Z.leb_spec (x * pow10 (Nat.max e1 e2))
    (y * pow10 (Nat.max e1 e2))); try done; nia.
Qed.

Lemma num_truthy_integer a x : num_to_Z a = Some x → num_truthy a = negb (x =? 0).
Proof.
  destruct a as [|m e]; [done|]. intros ->%num_to_Z_Some. simpl.
  pose proof (pow10_pos e).
  destruct (Z.eqb_spec x 0), (Z.eqb_spec (x * pow10 e) 0); try done; nia.
Qed.

Lemma num_is_integer_to_Z a : num_is_integer a = true ↔ ∃ z, num_to_Z a = Some z.
Proof.
  destruct a as [|m e]; simpl.
  - split; [done|]. intros [z Hz]. done.
  - destruct (m mod pow10 e =? 0).
    + split; eauto.
    + split; [done|]. intros [z Hz]. done.
Qed.

Lemma num_to_Z_one : num_to_Z (Dec 1 O) = Some 1.
Proof. reflexivity. Qed.

Lemma num_to_Z_zero : num_to_Z (Dec 0 O) = Some 0.
Proof. reflexivity. Qed.

Lemma result_bind_run {A B} (r : result A) (f : A → result B) :
  (r ≫= f) = match r with Ok a => f a | Throw e => Throw e end.
Proof. reflexivity. Qed.

Lemma get_prop_same_receiver o k k' v :
  get_prop o k = Ok v → ∃ v', get_prop o k' = Ok v'.
Proof. destruct o; simpl; try done; eauto. Qed.

(** What the check of the middleware comes to on a quantity that is given. *)
Lemma quantity_check_positive_integer q :
  truthy q = true →
  (negb (Number_isInteger q) || js_lt q one) = negb (is_positive_integer q).
Proof.
  destruct q as [| |b|n|s|l|l]; simpl; try done.
  intros Ht. destruct (num_is_integer n) eqn:Hint; simpl.
  - apply num_is_integer_to_Z in Hint as [z Hz]. rewrite Hz.
    unfold js_lt. simpl. rewrite (num_ltb_integers _ _ _ _ Hz num_to_Z_one).
    destruct (Z.ltb_spec z 1), (Z.leb_spec 1 z); try done; lia.
  - destruct (num_to_Z n) as [z|] eqn:Hz; [|done].
    assert (num_is_integer n = true) by (apply num_is_integer_to_Z; eauto).
    congruence.
Qed.

Lemma positive_integer_truthy q : is_positive_integer q = true → truthy q = true.
Proof.
  destruct q as [| |b|n|s|l|l]; simpl; try done.
  destruct (num_to_Z n) as [z|] eqn:Hz; [|done]. intros H%Z.leb_le.
  rewrite (num_truthy_integer _ _ Hz). destruct (Z.eqb_spec z 0); [lia|done].
Qed.

Lemma validateCheckoutData_invalid_quantity req q :
  get_prop (body req) "quantity" = Ok q → q ≠ VUndefined →
  is_positive_integer q = false →
  ∃ msg, validateCheckoutData req = Ok (Sent (res_status_json 400 (error_body msg))).
Proof.
  intros Hq Hdef Hbad. unfold validateCheckoutData.
  destruct (get_prop_same_receiver _ _ "product_id" _ Hq) as [pid ->].
  rewrite Hq, !result_bind_run.
  destruct (truthy pid); simpl; [|eauto].
  replace (match q with VUndefined => one | _ => q end) with q
    by (by destruct q).
  destruct (truthy q) eqn:Ht; simpl; [|eauto].
  rewrite (quantity_check_positive_integer _ Ht), Hbad. simpl. eauto.
Qed.

Lemma validateCheckoutData_valid req pid q :
  get_prop (body req) "product_id" = Ok pid → truthy pid = true →
  get_prop (body req) "quantity" = Ok q →
  q = VUndefined ∨ is_positive_integer q = true →
  validateCheckoutData req = Ok (Next req).
Proof.
  intros Hpid Hp Hq Hok. unfold validateCheckoutData.
  rewrite Hpid, Hq, !result_bind_run, Hp. simpl.
  destruct Hok as [->|Hok]; [done|].
  replace (match q with VUndefined => one | _ => q end) with q
    by (by destruct q).
  pose proof (positive_integer_truthy _ Hok) as Ht. rewrite Ht. simpl.
  by rewrite (quantity_check_positive_integer _ Ht), Hok.
Qed.

Lemma handleWebhook_rejects env req w sig e :
  get_prop (headers req) "stripe-signature" = Ok sig →
  stripe_webhooks_constructEvent env (body req) sig (STRIPE_WEBHOOK_SECRET env) = Throw e →
  handleWebhook env req w =
    (Ok (Response 400 (Text ("Webhook Error: " +:+ message e))),
     after w [StripeConstructEvent;
              ConsoleError ("Webhook signature verification failed: " +:+ message e)]).
Proof.
  intros Hsig Hthrow. unfold handleWebhook.
  rewrite bind_run. unfold lift at 1. rewrite Hsig.
  rewrite bind_run. unfold try_catch.
  rewrite bind_run, emit_run, bind_run. unfold lift at 1. rewrite Hthrow.
  unfold console_error. rewrite bind_run, emit_run. simpl.
  by rewrite after_after.
Qed.


(** ** The availability check on a product that exists *)

Lemma loadProductInfo_found req w pid quantity content product stock :
  get_prop (body req) "product_id" = Ok pid →
  get_prop (body req) "quantity" = Ok quantity →
  files w !! product_path pid = Some content →
  JSON_parse content = Ok product →
  get_prop product "stock" = Ok stock →
  loadProductInfo req w =
    (Ok (if negb (truthy stock) || js_lt stock one
         then Sent (out_of_stock_answer pid)
         else if js_gt quantity stock
              then Sent (insufficient_stock_answer quantity stock)
              else Next (with_product req product)),
     after w [FsAccess (product_path pid); FsReadFile (product_path pid)]).
Proof.
  intros Hpid Hq Hfile Hparse Hstock. unfold loadProductInfo, try_catch.
  rewrite bind_run. unfold lift at 1. rewrite Hpid.
  rewrite bind_run, (checkProductExists_found _ _ _ Hfile).
  cbn [negb pc_exists pc_path pc_error].
  rewrite bind_run, (fs_readFile_found _ (after w _) content) by done.
  rewrite bind_run. unfold lift at 1. rewrite Hparse.
  rewrite bind_run. unfold lift at 1. rewrite Hstock.
  rewrite after_after. simpl app.
  destruct (negb (truthy stock) || js_lt stock one); [done|].
  rewrite bind_run. unfold lift at 1. rewrite Hq.
  by destruct (js_gt quantity stock).
Qed.

Lemma num_ltb_NaN_r a : num_ltb a NaN = false.
Proof. by destruct a. Qed.

Lemma js_lt_numbers a b : js_lt (VNum a) (VNum b) = num_ltb a b.
Proof. reflexivity. Qed.

(** [undefined > b] is false whatever [b] is. *)
Lemma js_gt_undefined b : js_gt VUndefined b = false.
Proof.
  unfold js_gt, js_lt. destruct (to_primitive b); apply num_ltb_NaN_r.
Qed.

Lemma is_positive_integer_of_Z n q :
  num_to_Z n = Some q → 1 ≤ q → is_positive_integer (VNum n) = true.
Proof. intros Hn Hq. simpl. rewrite Hn. by apply Z.leb_le. Qed.

(** ** Provider events *)

Lemma get_prop_defined o k : is_nullish o = false → get_prop o k = Ok (prop_of o k).
Proof. unfold prop_of. by destruct o. Qed.


(** ** Paths outside the products directory *)

Lemma escaping_id_path : product_path escaping_id = escaped_path.
Proof. vm_compute. reflexivity. Qed.

Lemma loadProductInfo_reads req w pid content :
  get_prop (body req) "product_id" = Ok pid →
  files w !! product_path pid = Some content →
  ∃ out es,
    loadProductInfo req w =
      (Ok out, after w (FsAccess (product_path pid) :: FsReadFile (product_path pid) :: es)).
Proof.
  intros Hpid Hfile. unfold loadProductInfo, try_catch.
  rewrite bind_run. unfold lift at 1. rewrite Hpid.
  rewrite bind_run, (checkProductExists_found _ _ _ Hfile).
  cbn [negb pc_exists pc_path pc_error].
  rewrite bind_run, (fs_readFile_found _ (after w _) content) by done.
  rewrite after_after. cbn [app].
  rewrite bind_run. unfold lift at 1.
  destruct (JSON_parse content) as [item|e].
  - rewrite bind_run. unfold lift at 1.
    destruct (get_prop item "stock") as [stock|e].
    + destruct (negb (truthy stock) || js_lt stock one).
      * eexists _, []. reflexivity.
      * rewrite bind_run. unfold lift at 1.
        destruct (get_prop (body req) "quantity") as [quantity|e].
        -- destruct (js_gt quantity stock); eexists _, []; reflexivity.
        -- unfold console_error. rewrite bind_run, emit_run, after_after.
           eexists _, [_]. reflexivity.
    + unfold console_error. rewrite bind_run, emit_run, after_after.
      eexists _, [_]. reflexivity.
  - unfold console_error. rewrite bind_run, emit_run, after_after.
    eexists _, [_]. reflexivity.
Qed.

(** ** Decimal digits read back *)

Lemma char_digit_digit_char d : 0 ≤ d < 10 → char_digit (digit_char d) = Some d.
Proof.
  intros Hd.
  assert (d = 0 ∨ d = 1 ∨ d = 2 ∨ d = 3 ∨ d = 4 ∨ d = 5 ∨ d = 6 ∨ d = 7 ∨
          d = 8 ∨ d = 9) as H by lia.
  repeat (destruct H as [->|H]; [reflexivity|]). by subst.
Qed.

Lemma read_digits_stop r acc cnt :
  number_stop r = true → read_digits r acc cnt = (acc, cnt, r).
Proof.
  destruct r as [|c r]; [done|]. simpl. unfold is_digit.
  destruct (char_digit c); [done|]. done.
Qed.

Lemma pow10_succ k : pow10 (S k) = 10 * pow10 k.
Proof. unfold pow10. rewrite Nat2Z.inj_succ, Z.pow_succ_r; lia. Qed.

Lemma mod_pow10_succ n k :
  n mod pow10 (S k) = 10 * ((n / 10) mod pow10 k) + n mod 10.
Proof.
  rewrite pow10_succ. pose proof (pow10_pos k).
  rewrite Z.rem_mul_r by lia. lia.
Qed.

Lemma read_digits_fixed k : ∀ n r acc cnt,
  read_digits (fixed_digits k n ++ r) acc cnt =
  read_digits r (acc * pow10 k + n mod pow10 k) (cnt + k)%nat.
Proof.
  induction k as [|k IH]; intros n r acc cnt.
  - simpl. rewrite Z.mod_1_r. f_equal; [unfold pow10; simpl; lia|lia].
  - cbn [fixed_digits]. rewrite <- app_assoc, IH. cbn [app read_digits].
    rewrite char_digit_digit_char by (apply Z.mod_pos_bound; lia).
    rewrite mod_pow10_succ, pow10_succ. f_equal; lia.
Qed.

(** The digits of [n] are the fixed-width digits for the right width. *)
Lemma nat_digits_fixed fuel : ∀ n acc,
  0 ≤ n < 2 ^ Z.of_nat (S fuel) →
  ∃ k, nat_digits fuel n acc = fixed_digits (S k) n ++ acc ∧
       n < pow10 (S k) ∧ (n = 0 ∧ k = O ∨ pow10 k ≤ n).
Proof.
  induction fuel as [|fuel IH]; intros n acc Hn.
  - exists O. cbn [nat_digits fixed_digits app].
    change (2 ^ Z.of_nat 1) with 2 in Hn. unfold pow10. simpl. split; [done|]. lia.
  - cbn [nat_digits]. destruct (Z.eqb_spec (n / 10) 0) as [Hz|Hz].
    + exists O. cbn [fixed_digits app]. split; [done|].
      assert (n < 10) by (apply Z.div_small_iff in Hz; lia).
      unfold pow10. simpl. lia.
    + assert (0 < n / 10) by (pose proof (Z.div_pos n 10); lia).
      destruct (IH (n / 10) (digit_char (n mod 10) :: acc)) as (k & Heq & Hlt & Hge).
      { rewrite Nat2Z.inj_succ, Z.pow_succ_r in Hn by lia.
        split; [lia|]. apply Z.div_lt_upper_bound; lia. }
      exists (S k). rewrite Heq. cbn [fixed_digits]. rewrite <- !app_assoc.
      split; [done|]. rewrite !pow10_succ in *.
      split.
      * pose proof (Z.mul_div_le n 10). pose proof (Z.mod_pos_bound n 10).
        rewrite (Z.div_mod n 10) by lia. lia.
      * right. destruct Hge as [[? ?]|Hge]; [lia|].
        pose proof (Z.mul_div_le n 10). lia.
Qed.

Lemma fixed_digits_cons k : ∀ n,
  fixed_digits (S k) n = digit_char ((n / pow10 k) mod 10) :: fixed_digits k n.
Proof.
  induction k as [|k IH]; intros n.
  - cbn [fixed_digits app]. unfold pow10. simpl. by rewrite Z.div_1_r.
  - change (fixed_digits (S (S k)) n)
      with (fixed_digits (S k) (n / 10) ++ [digit_char (n mod 10)]).
    rewrite IH. cbn [app fixed_digits]. do 2 f_equal.
    pose proof (pow10_pos k). rewrite pow10_succ, Z.div_div by lia. done.
Qed.

Lemma int_digits_fixed n :
  0 ≤ n →
  ∃ k, int_digits n = fixed_digits (S k) n ∧
       n < pow10 (S k) ∧ (n = 0 ∧ k = O ∨ pow10 k ≤ n).
Proof.
  intros Hn. unfold int_digits.
  destruct (nat_digits_fixed (Z.to_nat (Z.log2 n)) n []) as (k & Heq & H).
  - split; [done|]. rewrite Nat2Z.inj_succ, Z2Nat.id by apply Z.log2_nonneg.
    destruct (Z.eq_dec n 0) as [->|]; [done|].
    apply Z.log2_spec. lia.
  - exists k. by rewrite Heq, app_nil_r.
Qed.

Lemma digit_char_not_minus d s :
  0 ≤ d < 10 →
  match digit_char d :: s with
  | "-"%char :: s0 => (true, s0)
  | _ => (false, digit_char d :: s)
  end = (false, digit_char d :: s).
Proof.
  intros Hd.
  assert (d = 0 ∨ d = 1 ∨ d = 2 ∨ d = 3 ∨ d = 4 ∨ d = 5 ∨ d = 6 ∨ d = 7 ∨
          d = 8 ∨ d = 9) as H by lia.
  repeat (destruct H as [->|H]; [reflexivity|]). by subst.
Qed.

Lemma read_json_number_int (neg : bool) ip rest :
  0 ≤ ip → (∀ a c, read_digits rest a c = (a, c, rest)) →
  read_json_number ((if neg then ["-"%char] else []) ++ int_digits ip ++ rest) =
  finish_number neg ip rest.
Proof.
  intros Hip Hstop. destruct (int_digits_fixed ip Hip) as (k & -> & Hlt & Hge).
  assert (Hd : 0 ≤ (ip / pow10 k) mod 10 < 10) by (apply Z.mod_pos_bound; lia).
  assert (Hread : read_json_number (fixed_digits (S k) ip ++ rest)
                  = finish_number false ip rest
                ∧ read_json_number ("-"%char :: fixed_digits (S k) ip ++ rest)
                  = finish_number true ip rest).
  { unfold read_json_number.
    rewrite fixed_digits_cons. cbn [app]. rewrite (digit_char_not_minus _ _ Hd).
    rewrite (char_digit_digit_char _ Hd).
    destruct (Z.eqb_spec ((ip / pow10 k) mod 10) 0) as [Hz|Hz].
    - destruct Hge as [[-> ->]|Hge]; [done|]. exfalso.
      pose proof (pow10_pos k). rewrite pow10_succ in Hlt.
      assert (1 ≤ ip / pow10 k) by (apply Z.div_le_lower_bound; lia).
      assert (ip / pow10 k < 10) by (apply Z.div_lt_upper_bound; lia).
      rewrite Z.mod_small in Hz by lia. lia.
    - rewrite (app_comm_cons (fixed_digits k ip) rest), <- fixed_digits_cons.
      rewrite read_digits_fixed, Hstop.
      rewrite Z.mod_small by lia. done. }
  destruct neg; cbn [app]; apply Hread.
Qed.

Lemma read_fraction_stop r ip min_digits :
  number_stop r = true → read_fraction min_digits r ip = Some (ip, O, r).
Proof.
  destruct r as [|c r]; [done|].
  destruct c as [[] [] [] [] [] [] [] []]; try done.
Qed.

Lemma read_exponent_stop r : number_stop r = true → read_exponent r = Some (0, r).
Proof.
  destruct r as [|c r]; [done|]. simpl.
  intros [[_ He]%andb_prop HE]%andb_prop.
  apply negb_true_iff in He, HE. by rewrite He, HE.
Qed.

Lemma norm_dec_canonical m e : canonicalb (Dec m e) = true → norm_dec m e = Dec m e.
Proof.
  destruct e as [|e]; [done|]. simpl. intros H%negb_true_iff. by rewrite H.
Qed.

Lemma read_json_number_print m e r :
  canonicalb (Dec m e) = true → number_stop r = true →
  read_json_number (num_to_chars (Dec m e) ++ r) = Some (Dec m e, r).
Proof.
  intros Hcanon Hstop. unfold num_to_chars. rewrite (norm_dec_canonical _ _ Hcanon).
  pose proof (pow10_pos e) as Hpow.
  assert (Hip : 0 ≤ Z.abs m / pow10 e) by (apply Z.div_pos; lia).
  assert (Hsign : (if m <? 0 then - Z.abs m else Z.abs m) = m)
    by (destruct (Z.ltb_spec m 0); lia).
  rewrite <- !app_assoc.
  rewrite (read_json_number_int (m <? 0) _ _ Hip).
  - unfold finish_number. destruct e as [|e].
    + cbn [app]. rewrite (read_fraction_stop _ _ _ Hstop), (read_exponent_stop _ Hstop).
      unfold scale_dec. cbn [Z.ltb Z.compare norm_dec]. unfold pow10. simpl Z.of_nat.
      rewrite Z.pow_0_r, Z.div_1_r, Hsign, Z.mul_1_r. done.
    + cbn [app read_fraction]. rewrite read_digits_fixed, (read_digits_stop _ _ _ Hstop).
      cbn [Nat.add Nat.ltb Nat.leb]. rewrite (read_exponent_stop _ Hstop).
      unfold scale_dec. cbn [Z.ltb Z.compare].
      rewrite Z.mod_mod by lia.
      replace (Z.abs m / pow10 (S e) * pow10 (S e) + Z.abs m mod pow10 (S e))
        with (Z.abs m) by (rewrite (Z.div_mod (Z.abs m) (pow10 (S e))) at 1 by lia; lia).
      rewrite Hsign, Z.pow_0_r, Z.mul_1_r.
      by rewrite (norm_dec_canonical _ _ Hcanon).
  - intros a c. destruct e as [|e]; [|done]. by apply read_digits_stop.
Qed.

(** ** String literals read back *)

Lemma read_string_body_escape c tail :
  read_string_body (escape_char c ++ tail) = prepend [c] (read_string_body tail).
Proof. destruct c as [[] [] [] [] [] [] [] []]; reflexivity. Qed.

Lemma read_string_body_print l rest :
  read_string_body (flat_map escape_char l ++ dquote :: rest) = Some (l, rest).
Proof.
  induction l as [|c l IH]; [done|].
  cbn [flat_map]. by rewrite <- app_assoc, read_string_body_escape, IH.
Qed.

Lemma read_string_quote s rest : read_string (quote s ++ rest) = Some (s, rest).
Proof.
  unfold quote, read_string. cbn [app]. change (Ascii.eqb dquote dquote) with true.
  cbv iota. rewrite <- app_assoc. cbn [app]. rewrite read_string_body_print.
  unfold unstr, str. by rewrite string_of_list_ascii_of_string.
Qed.

(** ** White space and first characters *)

Lemma skip_ws_spaces n s : skip_ws (spaces n ++ s) = skip_ws s.
Proof. induction n as [|n IH]; [done|]. exact IH. Qed.

Lemma skip_ws_start c s : is_json_ws c = false → skip_ws (c :: s) = c :: s.
Proof. intros H. simpl. by rewrite H. Qed.

Lemma skip_ws_idemp s : skip_ws (skip_ws s) = skip_ws s.
Proof.
  induction s as [|c s IH]; [done|]. simpl.
  destruct (is_json_ws c) eqn:Hc; [done|]. simpl. by rewrite Hc.
Qed.

Lemma parse_value_skip_ws fuel s : parse_value fuel (skip_ws s) = parse_value fuel s.
Proof. destruct fuel; [done|]. simpl. by rewrite skip_ws_idemp. Qed.

Lemma number_start_value_start c : number_start c → value_start c = true.
Proof.
  intros [->|(d & Hd & ->)]; [done|].
  assert (d = 0 ∨ d = 1 ∨ d = 2 ∨ d = 3 ∨ d = 4 ∨ d = 5 ∨ d = 6 ∨ d = 7 ∨
          d = 8 ∨ d = 9) as H by lia.
  repeat (destruct H as [->|H]; [reflexivity|]). by subst.
Qed.

Lemma parse_value_number fuel c s :
  number_start c →
  parse_value (S fuel) (c :: s) =
  match read_json_number (c :: s) with
  | Some (n, r) => Some (VNum n, r)
  | None => None
  end.
Proof.
  intros [->|(d & Hd & ->)]; [done|].
  assert (d = 0 ∨ d = 1 ∨ d = 2 ∨ d = 3 ∨ d = 4 ∨ d = 5 ∨ d = 6 ∨ d = 7 ∨
          d = 8 ∨ d = 9) as H by lia.
  repeat (destruct H as [->|H]; [reflexivity|]). by subst.
Qed.

Lemma num_to_chars_start m e :
  canonicalb (Dec m e) = true →
  ∃ c t, num_to_chars (Dec m e) = c :: t ∧ number_start c.
Proof.
  intros Hcanon. unfold num_to_chars. rewrite (norm_dec_canonical _ _ Hcanon).
  destruct (m <? 0).
  - eexists _, _. split; [reflexivity|]. by left.
  - pose proof (pow10_pos e).
    destruct (int_digits_fixed (Z.abs m / pow10 e)) as (k & -> & _).
    { apply Z.div_pos; lia. }
    rewrite fixed_digits_cons. eexists _, _. split; [reflexivity|].
    right. eexists. split; [|reflexivity]. apply Z.mod_pos_bound. lia.
Qed.

(** ** Arrays and objects read back *)

Lemma representable_stringify ind v :
  json_representable v = true → stringify_value ind v = Some (text ind v).
Proof.
  unfold text. destruct v as [| |[]|[|m e]|s|items|props]; try done.
Qed.

Lemma text_array ind items :
  forallb json_representable items = true →
  text ind (VArr items) = bracket "[" "]" ind (map (text (ind + 2)) items).
Proof.
  intros Hall. unfold text at 1. cbn [stringify_value].
  apply (f_equal (bracket _ _ _)).
  induction items as [|x items IH]; [done|].
  cbn [forallb] in Hall. apply andb_prop in Hall as [Hx Hall].
  cbn [map]. rewrite (representable_stringify _ _ Hx). f_equal. by apply IH.
Qed.

Lemma representable_object props :
  json_representable (VObj props) =
  distinct (map fst props) && all_representable props.
Proof.
  cbn [json_representable]. f_equal.
  induction props as [|[k x] props IH]; [done|]. cbn. by rewrite IH.
Qed.

Lemma text_object ind props :
  all_representable props = true →
  text ind (VObj props) = bracket "{" "}" ind (map (member_text (ind + 2)) props).
Proof.
  intros Hall. unfold text at 1. cbn [stringify_value].
  apply (f_equal (bracket _ _ _)).
  induction props as [|[k x] props IH]; [done|].
  cbn [all_representable forallb] in Hall. apply andb_prop in Hall as [Hx Hall].
  cbn [map]. rewrite (representable_stringify _ _ Hx). f_equal. by apply IH.
Qed.

Lemma assign_prop_fresh key x acc :
  existsb (String.eqb key) (map fst acc) = false →
  assign_prop key x acc = acc ++ [(key, x)].
Proof.
  induction acc as [|[k' v'] acc IH]; [done|]. cbn.
  intros [Hk Hacc]%orb_false_elim. rewrite Hk. f_equal. by apply IH.
Qed.

Lemma distinct_app_fresh key l1 l2 :
  distinct (l1 ++ key :: l2) = true → existsb (String.eqb key) l1 = false.
Proof.
  induction l1 as [|a l1 IH]; [done|]. cbn.
  intros [Ha Hrest]%andb_prop. rewrite (IH Hrest), orb_false_r.
  apply negb_true_iff in Ha. rewrite existsb_app in Ha.
  apply orb_false_elim in Ha as [_ Ha]. cbn in Ha.
  apply orb_false_elim in Ha as [Ha _]. by rewrite String.eqb_sym.
Qed.

Section Loops.
Variable pv : chars → option (value * chars).
Hypothesis pv_skip_ws : ∀ s, pv (skip_ws s) = pv s.
Variables (k j : nat) (rest : chars).

#[local] Abbreviation sep := (","%char :: newline :: spaces k).

Lemma pv_indented s : pv (newline :: spaces k ++ s) = pv s.
Proof.
  rewrite <- (pv_skip_ws (newline :: _)), <- (pv_skip_ws s). f_equal.
  change (skip_ws (newline :: spaces k ++ s)) with (skip_ws (spaces k ++ s)).
  apply skip_ws_spaces.
Qed.

Lemma parse_elements_same_first fuel s s' acc :
  pv s = pv s' → parse_elements pv fuel s acc = parse_elements pv fuel s' acc.
Proof. intros H. destruct fuel; [done|]. simpl. by rewrite H. Qed.

Lemma parse_elements_join items : ∀ fuel acc,
  items ≠ [] → (length items ≤ fuel)%nat →
  Forall (λ x, reads_back pv (text k x) x) items →
  parse_elements pv fuel
    (join_chars sep (map (text k) items) ++ newline :: spaces j ++ "]"%char :: rest) acc =
  Some (VArr (acc ++ items), rest).
Proof.
  induction items as [|x items IH]; intros fuel acc Hne Hfuel Hall; [done|].
  apply Forall_cons in Hall as [Hx Hall].
  destruct fuel as [|fuel]; [simpl in Hfuel; lia|]. simpl in Hfuel.
  destruct items as [|y items].
  - cbn [map join_chars parse_elements]. rewrite Hx by done.
    change (skip_ws (newline :: spaces j ++ "]"%char :: rest))
      with (skip_ws (spaces j ++ "]"%char :: rest)).
    rewrite skip_ws_spaces. done.
  - change (join_chars sep (map (text k) (x :: y :: items)))
      with (text k x ++ sep ++ join_chars sep (map (text k) (y :: items))).
    set (more := join_chars sep (map (text k) (y :: items))) in *.
    set (closing := (newline :: spaces j ++ "]"%char :: rest)) in *.
    rewrite <- !app_assoc. cbn [parse_elements]. rewrite Hx by done.
    rewrite <- !app_comm_cons.
    rewrite (skip_ws_start ","%char) by done. cbv beta iota.
    change (Ascii.eqb "," ",") with true. cbv iota.
    rewrite (parse_elements_same_first _ _ (more ++ closing)).
    + rewrite IH; [|done|simpl in *; lia|done]. by rewrite <- app_assoc.
    + apply pv_indented.
Qed.
Lemma pv_space s : pv (" "%char :: s) = pv s.
Proof. by rewrite <- (pv_skip_ws (_ :: _)), <- (pv_skip_ws s). Qed.

Lemma parse_members_same_first fuel s s' acc :
  skip_ws s = skip_ws s' → parse_members pv fuel s acc = parse_members pv fuel s' acc.
Proof. intros H. destruct fuel; [done|]. simpl. by rewrite H. Qed.

Lemma skip_ws_member kv tail :
  skip_ws (member_text k kv ++ tail) = member_text k kv ++ tail.
Proof. unfold member_text, quote. by rewrite <- !app_comm_cons, skip_ws_start. Qed.

Lemma parse_members_join props : ∀ fuel acc,
  props ≠ [] → (length props ≤ fuel)%nat →
  distinct (map fst (acc ++ props)) = true →
  Forall (λ kv, reads_back pv (text k kv.2) kv.2) props →
  parse_members pv fuel
    (join_chars sep (map (member_text k) props) ++ newline :: spaces j ++ "}"%char :: rest) acc =
  Some (VObj (acc ++ props), rest).
Proof.
  induction props as [|[key x] props IH]; intros fuel acc Hne Hfuel Hkeys Hall; [done|].
  apply Forall_cons in Hall as [Hx Hall]. cbn [snd] in Hx.
  destruct fuel as [|fuel]; [simpl in Hfuel; lia|].
  assert (Hfresh : assign_prop key x acc = acc ++ [(key, x)]).
  { apply assign_prop_fresh. rewrite map_app in Hkeys. cbn [map fst] in Hkeys.
    by eapply distinct_app_fresh. }
  set (closing := (newline :: spaces j ++ "}"%char :: rest)) in *.
  assert (Hmember : ∀ tail, number_stop tail = true →
    parse_members pv (S fuel) (member_text k (key, x) ++ tail) acc =
    match skip_ws tail with
    | c' :: s4 =>
        if Ascii.eqb c' "," then parse_members pv fuel s4 (acc ++ [(key, x)])
        else if Ascii.eqb c' "}" then Some (VObj (acc ++ [(key, x)]), s4)
        else None
    | [] => None
    end).
  { intros tail Htail. cbn [parse_members]. rewrite skip_ws_member.
    unfold member_text. cbn [fst snd]. rewrite <- app_assoc, read_string_quote.
    rewrite <- !app_comm_cons. rewrite (skip_ws_start ":"%char) by done.
    cbv beta iota. change (Ascii.eqb ":" ":") with true. cbv iota.
    rewrite pv_space, Hx by done. by rewrite Hfresh. }
  destruct props as [|kv props].
  - cbn [map join_chars]. rewrite Hmember by done.
    unfold closing. change (skip_ws (newline :: spaces j ++ "}"%char :: rest))
      with (skip_ws (spaces j ++ "}"%char :: rest)).
    rewrite skip_ws_spaces. done.
  - change (join_chars sep (map (member_text k) ((key, x) :: kv :: props)))
      with (member_text k (key, x) ++ sep ++
            join_chars sep (map (member_text k) (kv :: props))).
    set (more := join_chars sep (map (member_text k) (kv :: props))) in *.
    rewrite <- !app_assoc. rewrite Hmember by done.
    rewrite <- !app_comm_cons.
    rewrite (skip_ws_start ","%char) by done. cbv beta iota.
    change (Ascii.eqb "," ",") with true. cbv iota.
    rewrite (parse_members_same_first _ _ (more ++ closing)).
    + rewrite IH; [|done|simpl in *; lia| |done].
      * by rewrite <- app_assoc.
      * by rewrite <- app_assoc.
    + change (skip_ws (newline :: spaces k ++ more ++ closing))
        with (skip_ws (spaces k ++ more ++ closing)).
      by rewrite skip_ws_spaces.
Qed.
End Loops.

(** ** Lengths: the fuel of the parser suffices *)

Lemma join_chars_length sep texts :
  Forall (λ t, (1 ≤ length t)%nat) texts →
  (length texts ≤ length (join_chars sep texts))%nat ∧
  Forall (λ t, (length t ≤ length (join_chars sep texts))%nat) texts.
Proof.
  induction texts as [|t texts IH]; intros Hall; [by split|].
  apply Forall_cons in Hall as [Ht Hall]. destruct (IH Hall) as [Hcount Heach].
  destruct texts as [|t' texts].
  - cbn [join_chars length]. split; [lia|]. by repeat constructor.
  - change (join_chars sep (t :: t' :: texts))
      with (t ++ sep ++ join_chars sep (t' :: texts)).
    rewrite !length_app. cbn [length] in *. split; [lia|].
    constructor; [lia|]. eapply Forall_impl; [exact Heach|]. simpl. intros; lia.
Qed.

Lemma bracket_length op cl ind parts :
  parts ≠ [] →
  (length (join_chars ("," :: newline :: spaces (ind + 2))%char parts) + 4
   ≤ length (bracket op cl ind parts))%nat.
Proof.
  destruct parts as [|p parts]; [done|]. intros _. unfold bracket.
  repeat first [rewrite length_app | progress cbn [length]]. lia.
Qed.

Lemma text_start ind v :
  json_representable v = true →
  ∃ c t, text ind v = c :: t ∧ value_start c = true.
Proof.
  destruct v as [| |[]|[|m e]|s|items|props]; try done; intros Hrep;
    try (eexists _, _; split; [reflexivity|done]).
  - destruct (num_to_chars_start m e Hrep) as (c & t & Heq & Hc).
    exists c, t. split; [exact Heq|]. by apply number_start_value_start.
  - unfold text. cbn [stringify_value]. unfold bracket.
    match goal with |- context [match ?l with [] => _ | _ :: _ => _ end] =>
      destruct l end; eexists _, _; (split; [reflexivity|done]).
  - unfold text. cbn [stringify_value]. unfold bracket.
    match goal with |- context [match ?l with [] => _ | _ :: _ => _ end] =>
      destruct l end; eexists _, _; (split; [reflexivity|done]).
Qed.

Lemma text_nonempty ind v :
  json_representable v = true → (1 ≤ length (text ind v))%nat.
Proof.
  intros H. destruct (text_start ind v H) as (c & t & -> & _). simpl. lia.
Qed.

(** ** Values read back *)

Lemma parse_value_quote fuel s :
  parse_value (S fuel) (dquote :: s) =
  match read_string (dquote :: s) with
  | Some (k, r) => Some (VStr k, r)
  | None => None
  end.
Proof. reflexivity. Qed.

Lemma parse_value_open_bracket fuel s :
  parse_value (S fuel) ("["%char :: s) =
  match skip_ws s with
  | c' :: s2 =>
      if Ascii.eqb c' "]" then Some (VArr [], s2)
      else parse_elements (parse_value fuel) fuel (c' :: s2) []
  | [] => None
  end.
Proof. reflexivity. Qed.

Lemma parse_value_open_brace fuel s :
  parse_value (S fuel) ("{"%char :: s) =
  match skip_ws s with
  | c' :: s2 =>
      if Ascii.eqb c' "}" then Some (VObj [], s2)
      else parse_members (parse_value fuel) fuel (c' :: s2) []
  | [] => None
  end.
Proof. reflexivity. Qed.

Lemma value_start_spec c :
  value_start c = true →
  is_json_ws c = false ∧ Ascii.eqb c "]" = false ∧ Ascii.eqb c "}" = false.
Proof.
  unfold value_start. intros [[H1 H2]%andb_prop H3]%andb_prop.
  by apply negb_true_iff in H1, H2, H3.
Qed.

Lemma member_text_length ind kv :
  (length (text ind kv.2) ≤ length (member_text ind kv))%nat.
Proof. unfold member_text. rewrite length_app. cbn [length]. lia. Qed.

Lemma forallb_Forall_representable items :
  forallb json_representable items = true →
  Forall (λ x, json_representable x = true) items.
Proof. intros H. apply Forall_forall. intros x Hx. rewrite forallb_forall in H. apply H. by apply list_elem_of_In. Qed.

(** The text of a representable value parses back to the value, with any
    fuel beyond the length of the text. *)
Lemma parse_value_text v :
  json_representable v = true →
  ∀ ind fuel r, (length (text ind v) < fuel)%nat → number_stop r = true →
  parse_value fuel (text ind v ++ r) = Some (v, r).
Proof.
  induction v as [| |b|n|s|items IH|props IH] using value_ind;
    intros Hrep ind fuel r Hfuel Hstop;
    (destruct fuel as [|f]; [lia|]); try done.
  - by destruct b.
  - destruct n as [|m e]; [done|].
    destruct (num_to_chars_start m e Hrep) as (c & t & Heq & Hc).
    change (text ind (VNum (Dec m e))) with (num_to_chars (Dec m e)).
    rewrite Heq. cbn [app]. rewrite (parse_value_number _ _ _ Hc).
    rewrite app_comm_cons, <- Heq. by rewrite (read_json_number_print _ _ _ Hrep Hstop).
  - change (text ind (VStr s)) with (quote s).
    unfold quote at 1. rewrite <- app_comm_cons, parse_value_quote, app_comm_cons.
    change (dquote :: flat_map escape_char (str s) ++ [dquote]) with (quote s).
    by rewrite read_string_quote.
  - cbn [json_representable] in Hrep. rewrite (text_array _ _ Hrep) in Hfuel |- *.
    destruct items as [|x items]; [done|].
    pose proof (forallb_Forall_representable _ Hrep) as Hreps.
    assert (Htexts : Forall (λ t, (1 ≤ length t)%nat) (map (text (ind + 2)) (x :: items))).
    { apply Forall_fmap. eapply Forall_impl; [exact Hreps|].
      intros y Hy. by apply text_nonempty. }
    destruct (join_chars_length ("," :: newline :: spaces (ind + 2))%char _ Htexts)
      as [Hcount Heach].
    pose proof (bracket_length "[" "]" ind (map (text (ind + 2)) (x :: items))
                  ltac:(done)) as Hlen.
    rewrite length_map in Hcount.
    unfold bracket. cbn [map]. rewrite <- !app_comm_cons, parse_value_open_bracket.
    change (skip_ws (newline :: ?s)) with (skip_ws s).
    rewrite <- !app_assoc, skip_ws_spaces.
    destruct (text_start (ind + 2) x) as (c & t & Hx & Hc).
    { by inversion Hreps. }
    destruct (value_start_spec _ Hc) as (Hws & Hclose & _).
    assert (Hjoin : ∃ t', join_chars ("," :: newline :: spaces (ind + 2))%char
                            (text (ind + 2) x :: map (text (ind + 2)) items) = c :: t').
    { destruct (map (text (ind + 2)) items); cbn [join_chars]; rewrite Hx; eauto. }
    destruct Hjoin as [t' Hjoin]. rewrite Hjoin. rewrite <- app_comm_cons.
    rewrite (skip_ws_start _ _ Hws), Hclose. rewrite app_comm_cons, <- Hjoin.
    change (text (ind + 2) x :: map (text (ind + 2)) items)
      with (map (text (ind + 2)) (x :: items)).
    replace ((newline :: spaces ind ++ ["]"%char]) ++ r)
      with (newline :: spaces ind ++ "]"%char :: r)
      by (by rewrite <- app_comm_cons, <- app_assoc).
    rewrite (parse_elements_join (parse_value f) (parse_value_skip_ws f));
      [done|done|lia|].
    apply Forall_forall. intros y Hy r' Hr'.
    rewrite Forall_forall in IH. apply IH; [done| | |done].
    + rewrite Forall_forall in Hreps. by apply Hreps.
    + rewrite Forall_forall in Heach.
      specialize (Heach (text (ind + 2) y) ltac:(apply list_elem_of_fmap; eauto)). lia.
  - rewrite representable_object in Hrep. apply andb_prop in Hrep as [Hkeys Hrep].
    rewrite (text_object _ _ Hrep) in Hfuel |- *.
    destruct props as [|[key x] props]; [done|].
    assert (Hreps : Forall (λ kv : string * value, json_representable kv.2 = true)
                      ((key, x) :: props)).
    { apply Forall_forall. intros kv Hkv. unfold all_representable in Hrep.
      rewrite forallb_forall in Hrep. apply Hrep. by apply list_elem_of_In. }
    assert (Htexts : Forall (λ t, (1 ≤ length t)%nat)
                       (map (member_text (ind + 2)) ((key, x) :: props))).
    { apply Forall_fmap, Forall_forall. intros kv _. unfold member_text, quote.
      simpl. lia. }
    destruct (join_chars_length ("," :: newline :: spaces (ind + 2))%char _ Htexts)
      as [Hcount Heach].
    pose proof (bracket_length "{" "}" ind (map (member_text (ind + 2)) ((key, x) :: props))
                  ltac:(done)) as Hlen.
    rewrite length_map in Hcount.
    unfold bracket. cbn [map]. rewrite <- !app_comm_cons, parse_value_open_brace.
    change (skip_ws (newline :: ?s)) with (skip_ws s).
    rewrite <- !app_assoc, skip_ws_spaces.
    assert (Hjoin : ∃ t', join_chars ("," :: newline :: spaces (ind + 2))%char
                            (member_text (ind + 2) (key, x) :: map (member_text (ind + 2)) props)
                          = dquote :: t').
    { destruct (map (member_text (ind + 2)) props); cbn [join_chars];
        unfold member_text, quote; cbn [fst]; rewrite <- ?app_comm_cons; eauto. }
    destruct Hjoin as [t' Hjoin]. rewrite Hjoin. rewrite <- app_comm_cons.
    rewrite (skip_ws_start dquote) by done.
    change (Ascii.eqb dquote "}") with false. cbv iota.
    rewrite app_comm_cons, <- Hjoin.
    change (member_text (ind + 2) (key, x) :: map (member_text (ind + 2)) props)
      with (map (member_text (ind + 2)) ((key, x) :: props)).
    replace ((newline :: spaces ind ++ ["}"%char]) ++ r)
      with (newline :: spaces ind ++ "}"%char :: r)
      by (by rewrite <- app_comm_cons, <- app_assoc).
    rewrite (parse_members_join (parse_value f) (parse_value_skip_ws f));
      [done|done|lia|done|].
    apply Forall_forall. intros kv Hkv r' Hr'.
    rewrite Forall_forall in IH. apply (IH kv Hkv); [| |done].
    + rewrite Forall_forall in Hreps. by apply Hreps.
    + rewrite Forall_forall in Heach.
      specialize (Heach (member_text (ind + 2) kv) ltac:(apply list_elem_of_fmap; eauto)).
      pose proof (member_text_length (ind + 2) kv). lia.
Qed.

(** [JSON.parse] inverts [JSON.stringify] on representable values. *)
Lemma JSON_round_trip {F} v :
  json_representable v = true →
  ∃ s, JSON_stringify (F := F) (AValue v) = Some s ∧ JSON_parse s = Ok v.
Proof.
  intros Hrep. exists (unstr (text 0 v)). split.
  - unfold JSON_stringify. by rewrite (representable_stringify 0 v Hrep).
  - unfold JSON_parse, str, unstr. rewrite list_ascii_of_string_of_list_ascii.
    rewrite <- (app_nil_r (text 0 v)) at 2.
    rewrite (parse_value_text v Hrep 0 _ []) by (done || lia). done.
Qed.

(** ** The scenario of the specification *)

(** A purchase of two units of p1 (unit price 1000, stock 3) opens a session
    and answers with the total 2000; the product file is checked and read. *)
Example purchase_of_two :
  route_create_checkout_session (test_environment VNull) (purchase "p1" 2) (p1_store 3) =
    (Ok (Response 200 (Json (VObj
       [("success", VBool true);
        ("checkout_url", VStr "https://pay.example/cs_test_1");
        ("session_id", VStr "cs_test_1");
        ("product", VObj
           [("product_id", VStr "p1");
            ("quantity", VNum (Dec 2 O));
            ("total_amount", VNum (Dec 2000 O));
            ("unit_price", VNum (Dec 1000 O));
            ("currency", VStr "usd")])]))),
     (route_create_checkout_session (test_environment VNull) (purchase "p1" 2) (p1_store 3)).2) ∧
  files (route_create_checkout_session (test_environment VNull) (purchase "p1" 2) (p1_store 3)).2 =
    files (p1_store 3).
Proof. split; vm_compute; reflexivity. Qed.

(** The product file as [updateProduct] would write it parses back to the
    record. *)
Example p1_file_parses : JSON_parse (json_text (p1_record 3)) = Ok (p1_record 3).
Proof. vm_compute. reflexivity. Qed.

(* ===================================================================== *)
(** * The properties of the specification *)

(** ** Stock after a completed checkout *)

(** C1. The webhook handler passes a callback to [updateProduct], which
    serialises its argument as the new record: the serialisation of a function
    is [undefined], the write is refused, and the failure is only logged.  So
    no webhook ever changes a file, and in the scenario of the specification
    (stock 3, completed session for quantity "2") the event is acknowledged
    and the product read back afterwards still has stock 3, not 1. *)
Theorem completed_checkout_leaves_stock :
  (∀ env req w, files (route_webhook env req w).2 = files w) ∧
  let event := completed_event (VStr "p1") (VStr "2") in
  let run := route_webhook (test_environment event) signed_webhook (p1_store 3) in
  run.1 = Ok (Response 200 (Json (VObj [("received", VBool true)]))) ∧
  (getProduct (VStr "p1") run.2).1 = Ok (StoreResult true (p1_record 3) None).
Proof.
  split.
  - intros env req w. apply read_only_files, read_only_handleWebhook.
  - vm_compute. done.
Qed.

(** ** The default quantity *)

(** C2. With the quantity left out, the request passes both middlewares
    (the default of the validation stays local to it) and the controller
    fails on [quantity.toString()]: the answer is status 500, and the provider
    is never called.  The claimed default of 1 does not reach the
    controller. *)
Theorem omitted_quantity_fails env req w pid content item stock :
  get_prop (body req) "product_id" = Ok pid → truthy pid = true →
  get_prop (body req) "quantity" = Ok VUndefined →
  files w !! product_path pid = Some content →
  JSON_parse content = Ok item →
  get_prop item "stock" = Ok stock →
  truthy stock = true → js_lt stock one = false →
  ∃ detail,
    route_create_checkout_session env req w =
      (Ok (Response 500 (Json (VObj [("error", VStr "Error creating checkout session")]))),
       after w [FsAccess (product_path pid); FsReadFile (product_path pid);
                ConsoleError ("Error creating checkout session: " +:+ detail)]).
Proof.
  intros Hpid Htruthy Hq Hfile Hparse Hstock Hst Hlt.
  unfold route_create_checkout_session.
  rewrite bind_run. unfold lift at 1.
  rewrite (validateCheckoutData_valid _ _ _ Hpid Htruthy Hq) by auto.
  rewrite bind_run, (loadProductInfo_found _ _ _ _ _ _ _ Hpid Hq Hfile Hparse Hstock).
  rewrite Hst, Hlt.
  rewrite js_gt_undefined.
  cbn [negb orb].
  unfold createCheckoutSession, try_catch.
  rewrite bind_run. unfold lift at 1. cbn [body product with_product]. rewrite Hq.
  destruct (get_prop_same_receiver _ _ "currency" _ Hstock) as [currency Hc].
  destruct (get_prop_same_receiver _ _ "name" _ Hstock) as [name Hn].
  destruct (get_prop_same_receiver _ _ "amount" _ Hstock) as [amount Ha].
  destruct (get_prop_same_receiver _ _ "id" _ Hstock) as [id Hi].
  rewrite bind_run. unfold lift at 1. rewrite Hc.
  rewrite bind_run. unfold lift at 1. rewrite Hn.
  rewrite bind_run. unfold lift at 1. rewrite Ha.
  rewrite bind_run. unfold lift at 1. rewrite Hi.
  rewrite bind_run. unfold lift at 1.
  rewrite bind_run. unfold lift at 1. simpl method_toString.
  unfold console_error. rewrite bind_run, emit_run, after_after. simpl.
  eauto.
Qed.

Lemma omitted_quantity_fails_witness :
  ∃ detail,
    route_create_checkout_session (test_environment VNull)
      (request_of_body (VObj [("product_id", VStr "p1")])) (p1_store 3) =
      (Ok (Response 500 (Json (VObj [("error", VStr "Error creating checkout session")]))),
       after (p1_store 3)
         [FsAccess (product_path (VStr "p1")); FsReadFile (product_path (VStr "p1"));
          ConsoleError ("Error creating checkout session: " +:+ detail)]).
Proof.
  apply (omitted_quantity_fails (test_environment VNull)
           (request_of_body (VObj [("product_id", VStr "p1")])) (p1_store 3)
           (VStr "p1") (json_text (p1_record 3)) (p1_record 3) (VNum (Dec 3 O))).
  - reflexivity.
  - reflexivity.
  - reflexivity.
  - vm_compute. reflexivity.
  - vm_compute. reflexivity.
  - reflexivity.
  - reflexivity.
  - reflexivity.
Defined.

(** ** Invalid quantities *)

(** C3. A requested quantity that is zero, negative or not an integer is
    answered with status 400 and a validation error, and the request ends
    there: the world is left exactly as it was, so no file of the store was
    checked or read and the payment provider was not called. *)
Theorem invalid_quantity_rejected env req w q :
  get_prop (body req) "quantity" = Ok q → q ≠ VUndefined →
  is_positive_integer q = false →
  ∃ msg,
    route_create_checkout_session env req w =
      (Ok (Response 400 (Json (VObj [("error", VStr msg)]))), w).
Proof.
  intros Hq Hdef Hbad.
  destruct (validateCheckoutData_invalid_quantity _ _ Hq Hdef Hbad) as [msg Hv].
  exists msg. unfold route_create_checkout_session. by rewrite bind_run, Hv.
Qed.

Lemma invalid_quantity_rejected_witness :
  ∃ msg,
    route_create_checkout_session null_environment
      (request_of_body (VObj [("product_id", VStr "p1"); ("quantity", VNum (Dec 15 1))]))
      (World ∅ []) =
      (Ok (Response 400 (Json (VObj [("error", VStr msg)]))), World ∅ []).
Proof.
  apply (invalid_quantity_rejected null_environment
           (request_of_body (VObj [("product_id", VStr "p1"); ("quantity", VNum (Dec 15 1))]))
           (World ∅ []) (VNum (Dec 15 1))).
  - reflexivity.
  - discriminate.
  - reflexivity.
Defined.

(** ** The availability check *)

(** The spec's own example of the order of the two tests: with stock 0 and
    quantity 1 the rejection is "Product out of stock". *)
Example out_of_stock_comes_first :
  load_rejection (purchase "p1" 1) (p1_store 0) = Some (400, "Product out of stock").
Proof. vm_compute. reflexivity. Qed.

(** C4.  For a purchase request with a positive integer quantity [q] and an
    existing product record with (integer) stock [s], the availability check
    applies the two tests of the specification in their order.  It rejects
    with "Product out of stock" (status 400) exactly when [s <= 0]; for the
    stocks that pass this first test it rejects with "Insufficient stock"
    (status 400) exactly when [q] exceeds [s]; and otherwise, that is exactly
    when [0 < s] and [q <= s], it hands the request on with the loaded
    product.  On a rejection the request ends with that answer after checking
    and reading the product file: no payment session is created. *)
Theorem availability_check env req w pid nq q content item ns s :
  get_prop (body req) "product_id" = Ok pid → truthy pid = true →
  get_prop (body req) "quantity" = Ok (VNum nq) → num_to_Z nq = Some q → 1 ≤ q →
  files w !! product_path pid = Some content →
  JSON_parse content = Ok item →
  get_prop item "stock" = Ok (VNum ns) → num_to_Z ns = Some s →
  let w' := after w [FsAccess (product_path pid); FsReadFile (product_path pid)] in
  ∃ out,
    loadProductInfo req w = (Ok out, w') ∧
    (rejection out = Some (400, "Product out of stock") ↔ s ≤ 0) ∧
    (rejection out = Some (400, "Insufficient stock") ↔ 0 < s ∧ s < q) ∧
    (out = Next (with_product req item) ↔ 0 < s ∧ q ≤ s) ∧
    (∀ res, out = Sent res →
       route_create_checkout_session env req w = (Ok res, w')).
Proof.
  intros Hpid Htruthy Hq Hnq Hq1 Hfile Hparse Hstock Hns w'.
  pose proof (loadProductInfo_found _ _ _ _ _ _ _ Hpid Hq Hfile Hparse Hstock) as Hrun.
  fold w' in Hrun.
  assert (Hroute : ∀ out, loadProductInfo req w = (Ok out, w') → ∀ res,
    out = Sent res → route_create_checkout_session env req w = (Ok res, w')).
  { intros out Hout res ->. unfold route_create_checkout_session.
    rewrite bind_run. unfold lift at 1.
    rewrite (validateCheckoutData_valid _ _ _ Hpid Htruthy Hq)
      by (right; by eapply is_positive_integer_of_Z).
    by rewrite bind_run, Hout. }
  revert Hrun. unfold js_gt, one, truthy. rewrite !js_lt_numbers.
  rewrite (num_truthy_integer _ _ Hns), (num_ltb_integers _ _ _ _ Hns num_to_Z_one),
    (num_ltb_integers _ _ _ _ Hns Hnq).
  destruct (Z.eqb_spec s 0) as [Hs0|Hs0], (Z.ltb_spec s 1) as [Hs1|Hs1],
    (Z.ltb_spec s q) as [Hsq|Hsq]; cbn [negb orb]; intros Hrun;
    (eexists; split; [exact Hrun|]); (split_and!; [| | |by eapply Hroute]);
    simpl; split; (try done); (try lia); try (intros [? ?]; lia).
Qed.

Lemma availability_check_witness :
  let req := purchase "p1" 6 in
  let w := p1_store 5 in
  let w' := after w [FsAccess (product_path (VStr "p1")); FsReadFile (product_path (VStr "p1"))] in
  ∃ out,
    loadProductInfo req w = (Ok out, w') ∧
    (rejection out = Some (400, "Product out of stock") ↔ 5 ≤ 0) ∧
    (rejection out = Some (400, "Insufficient stock") ↔ 0 < 5 ∧ 5 < 6) ∧
    (out = Next (with_product req (p1_record 5)) ↔ 0 < 5 ∧ 6 ≤ 5) ∧
    (∀ res, out = Sent res →
       route_create_checkout_session (test_environment VNull) req w = (Ok res, w')).
Proof.
  apply (availability_check (test_environment VNull) (purchase "p1" 6) (p1_store 5)
           (VStr "p1") (Dec 6 O) 6 (json_text (p1_record 5)) (p1_record 5) (Dec 5 O) 5).
  - reflexivity.
  - reflexivity.
  - reflexivity.
  - reflexivity.
  - lia.
  - vm_compute. reflexivity.
  - vm_compute. reflexivity.
  - reflexivity.
  - reflexivity.
Defined.

(** ** Unverified webhooks *)

(** C5. A webhook request whose signature does not verify is answered with
    status 400 and is not processed: the only effects are the verification
    call and the log line, so no product file is checked, read or written,
    and every file is unchanged. *)
Theorem webhook_invalid_signature_rejected env req w sig e :
  get_prop (headers req) "stripe-signature" = Ok sig →
  stripe_webhooks_constructEvent env (body req) sig (STRIPE_WEBHOOK_SECRET env) = Throw e →
  (route_webhook env req w).1 =
    Ok (Response 400 (Text ("Webhook Error: " +:+ message e))) ∧
  files (route_webhook env req w).2 = files w ∧
  trace (route_webhook env req w).2 = trace w ++
    [StripeConstructEvent;
     ConsoleError ("Webhook signature verification failed: " +:+ message e)].
Proof.
  intros Hsig Hthrow. unfold route_webhook.
  by rewrite (handleWebhook_rejects _ _ _ _ _ Hsig Hthrow).
Qed.

Lemma webhook_invalid_signature_rejected_witness :
  (route_webhook null_environment unsigned_webhook one_product_world).1 =
    Ok (Response 400 (Text "Webhook Error: No signatures found matching the expected signature for payload")) ∧
  files (route_webhook null_environment unsigned_webhook one_product_world).2 =
    files one_product_world ∧
  trace (route_webhook null_environment unsigned_webhook one_product_world).2 =
    [StripeConstructEvent;
     ConsoleError "Webhook signature verification failed: No signatures found matching the expected signature for payload"].
Proof.
  apply (webhook_invalid_signature_rejected null_environment unsigned_webhook
           one_product_world (VStr "t=1,v1=00")
           (TypeError "No signatures found matching the expected signature for payload")).
  - reflexivity.
  - reflexivity.
Defined.

(** ** Verified webhooks *)


(** An event of a type the handler does not name needs no field. *)
Example ping_event_readable : readable_event (VObj [("type", VStr "ping")]) = true.
Proof. reflexivity. Qed.



(** ** The store under a purchase request *)

(** C7. Handling POST /create-checkout-session never modifies the product
    store: whatever the request, the provider and the files, every file has
    after the response the content it had before, and no write is among the
    effects of the request. *)
Theorem create_checkout_session_preserves_store env req w :
  let w' := (route_create_checkout_session env req w).2 in
  files w' = files w ∧
  ∃ es, w' = after w es ∧ ∀ p d, FsWriteFile p d ∉ es.
Proof.
  assert (Hro : read_only (route_create_checkout_session env req)).
  { unfold route_create_checkout_session. frame. }
  simpl. split; [by apply read_only_files|].
  destruct (Hro w) as (es & Hw & Hes). exists es. split; [done|].
  intros p d Hin. apply list_elem_of_In in Hin.
  assert (existsb is_write es = true); [|congruence].
  apply existsb_exists. by exists (FsWriteFile p d).
Qed.

(** ** Unknown products *)



(** ** Write, then read *)

(** C9. Writing a JSON-representable record over an existing product with
    [updateProduct] and reading the product back with [getProduct] succeeds
    and returns a record equal to the one written. *)
Theorem store_round_trip w productId record :
  is_Some (files w !! product_path productId) →
  json_representable record = true →
  ∃ w1 w2,
    updateProduct productId (AValue record) w =
      (Ok (StoreResult true VUndefined None), w1) ∧
    getProduct productId w1 = (Ok (StoreResult true record None), w2).
Proof.
  intros [old Hold] Hrep.
  destruct (JSON_round_trip (F := value → M value) record Hrep) as (s & Hprint & Hparse).
  eexists _, _. split.
  - unfold updateProduct, try_catch.
    rewrite bind_run, (checkProductExists_found _ _ _ Hold).
    cbn [negb pc_exists pc_path pc_error]. rewrite Hprint. unfold fs_writeFile.
    rewrite !bind_run, emit_run. unfold get_files. cbv beta iota.
    unfold put_files. reflexivity.
  - unfold getProduct, try_catch. rewrite bind_run.
    erewrite checkProductExists_found by (simpl; apply lookup_insert_eq).
    cbn [negb pc_exists pc_path pc_error].
    rewrite bind_run. erewrite fs_readFile_found by (simpl; apply lookup_insert_eq).
    rewrite bind_run. unfold lift. rewrite Hparse. reflexivity.
Qed.

Lemma store_round_trip_witness :
  ∃ w1 w2,
    updateProduct (VStr "p1") (AValue (p1_record 7)) (p1_store 3) =
      (Ok (StoreResult true VUndefined None), w1) ∧
    getProduct (VStr "p1") w1 = (Ok (StoreResult true (p1_record 7) None), w2).
Proof.
  apply (store_round_trip (p1_store 3) (VStr "p1") (p1_record 7)).
  - vm_compute. eauto.
  - reflexivity.
Defined.

(** ** Product identifiers as paths *)

(** C10. The product identifier goes into the path unchecked.  The
    identifier "../../package" resolves to /app/package.json, outside the
    products directory, and whenever a file is there both public endpoints
    check it and read it: GET /products/:id with that identifier, and POST
    /create-checkout-session with it as [product_id]. *)
Theorem product_path_escapes_store w content :
  files w !! escaped_path = Some content →
  product_path escaping_id = escaped_path ∧
  inside_products escaped_path = false ∧
  (∃ res es,
     route_products (Request VUndefined (VObj [("id", escaping_id)]) (VObj []) VUndefined) w =
       (res, after w (FsAccess escaped_path :: FsReadFile escaped_path :: es))) ∧
  (∀ env, ∃ res es,
     route_create_checkout_session env
       (request_of_body (VObj [("product_id", escaping_id)])) w =
       (res, after w (FsAccess escaped_path :: FsReadFile escaped_path :: es))).
Proof.
  intros Hfile. rewrite <- escaping_id_path in Hfile.
  split; [apply escaping_id_path|]. split; [by vm_compute|].
  rewrite <- escaping_id_path. split.
  - unfold route_products, getProductInfo, try_catch.
    rewrite bind_run. unfold lift at 1. cbn [params get_prop lookup_prop String.eqb Ascii.eqb Bool.eqb].
    rewrite bind_run, (checkProductExists_found _ _ _ Hfile).
    cbn [negb pc_exists pc_path pc_error].
    rewrite bind_run, (fs_readFile_found _ (after w _) content) by done.
    rewrite after_after. cbn [app].
    rewrite bind_run. unfold lift at 1.
    destruct (JSON_parse content) as [item|e].
    + rewrite bind_run. unfold lift at 1.
      destruct (get_prop item "stock") as [stock|e].
      * eexists _, []. reflexivity.
      * unfold console_error. rewrite bind_run, emit_run, after_after.
        eexists _, [_]. reflexivity.
    + unfold console_error. rewrite bind_run, emit_run, after_after.
      eexists _, [_]. reflexivity.
  - intros env. unfold route_create_checkout_session.
    set (req := request_of_body _).
    rewrite bind_run. unfold lift at 1.
    rewrite (validateCheckoutData_valid req escaping_id VUndefined) by auto.
    destruct (loadProductInfo_reads req w escaping_id content) as (out & es & Hload);
      [done..|].
    rewrite bind_run, Hload. destruct out as [req2|res].
    + destruct (read_only_createCheckoutSession env req2 (after w
        (FsAccess (product_path escaping_id) :: FsReadFile (product_path escaping_id) :: es)))
        as (es' & Hw & _).
      destruct (createCheckoutSession env req2 _) as [res w2]. simpl in Hw. subst w2.
      rewrite after_after. eexists _, (es ++ es'). reflexivity.
    + eexists _, es. reflexivity.
Qed.

Lemma product_path_escapes_store_witness :
  product_path escaping_id = escaped_path ∧
  inside_products escaped_path = false ∧
  (∃ res es,
     route_products (Request VUndefined (VObj [("id", escaping_id)]) (VObj []) VUndefined)
       image_world =
       (res, after image_world (FsAccess escaped_path :: FsReadFile escaped_path :: es))) ∧
  (∀ env, ∃ res es,
     route_create_checkout_session env
       (request_of_body (VObj [("product_id", escaping_id)])) image_world =
       (res, after image_world (FsAccess escaped_path :: FsReadFile escaped_path :: es))).
Proof.
  apply (product_path_escapes_store image_world
           (json_text (VObj [("name", VStr "stripe-checkout-api")]))).
  vm_compute. reflexivity.
Defined.

(* ===================================================================== *)
(** * Further properties of the code *)

(** ** The store helpers, case by case *)

(** X1. [checkProductExists] never throws, and its only effect is one
    access check of the product's path.  It reports [exists] exactly when a
    file is at that path, with the path when there is one and with an error
    text when there is none. *)
Theorem checkProductExists_reports productId w :
  ∃ check,
    checkProductExists productId w =
      (Ok check, after w [FsAccess (product_path productId)]) ∧
    (pc_exists check = true ↔ is_Some (files w !! product_path productId)) ∧
    (pc_exists check = true → pc_path check = Some (product_path productId)) ∧
    (pc_exists check = false → is_Some (pc_error check)).
Proof.
  destruct (files w !! product_path productId) as [content|] eqn:Hfile.
  - rewrite (checkProductExists_found _ _ _ Hfile). eexists. split; [reflexivity|].
    simpl. split; [split; eauto|]. split; [done|]. intros; discriminate.
  - rewrite (checkProductExists_missing _ _ Hfile). eexists. split; [reflexivity|].
    simpl. split.
    + split; [intros; discriminate|]. intros [? ?]. discriminate.
    + split; [intros; discriminate|]. eauto.
Qed.

Lemma getProduct_missing productId w :
  files w !! product_path productId = None →
  getProduct productId w =
    (Ok (StoreResult false VUndefined
           (Some ("Product " +:+ to_string productId +:+ " not found"))),
     after w [FsAccess (product_path productId)]).
Proof.
  intros H. unfold getProduct, try_catch.
  by rewrite bind_run, (checkProductExists_missing _ _ H).
Qed.

Lemma getProduct_found productId w content :
  files w !! product_path productId = Some content →
  getProduct productId w =
    (Ok match JSON_parse content with
        | Ok v => StoreResult true v None
        | Throw e => StoreResult false VUndefined (Some (message e))
        end,
     after w [FsAccess (product_path productId); FsReadFile (product_path productId)]).
Proof.
  intros H. unfold getProduct, try_catch.
  rewrite bind_run, (checkProductExists_found _ _ _ H).
  cbn [negb pc_exists pc_path pc_error].
  rewrite bind_run, (fs_readFile_found _ (after w _) content) by done.
  rewrite after_after. cbn [app]. rewrite bind_run. unfold lift.
  by destruct (JSON_parse content).
Qed.

Lemma updateProduct_missing productId arg w :
  files w !! product_path productId = None →
  updateProduct productId arg w =
    (Ok (StoreResult false VUndefined
           (Some ("Product " +:+ to_string productId +:+ " not found"))),
     after w [FsAccess (product_path productId)]).
Proof.
  intros H. unfold updateProduct, try_catch.
  by rewrite bind_run, (checkProductExists_missing _ _ H).
Qed.

Lemma updateProduct_found productId arg w content :
  files w !! product_path productId = Some content →
  updateProduct productId arg w =
    match JSON_stringify arg with
    | Some data =>
        (Ok (StoreResult true VUndefined None),
         World (<[product_path productId := data]> (files w))
               (trace w ++ [FsAccess (product_path productId);
                            FsWriteFile (product_path productId) data]))
    | None =>
        (Ok (StoreResult false VUndefined (Some (message (ERR_INVALID_ARG_TYPE "data")))),
         after w [FsAccess (product_path productId)])
    end.
Proof.
  intros H. unfold updateProduct, try_catch.
  rewrite bind_run, (checkProductExists_found _ _ _ H).
  cbn [negb pc_exists pc_path pc_error].
  destruct (JSON_stringify arg) as [data|]; [|done].
  unfold fs_writeFile. rewrite !bind_run, emit_run. unfold get_files, put_files.
  cbv beta iota. unfold after. simpl. by rewrite <- app_assoc.
Qed.

(** X2. [getProduct] never throws and never writes.  It succeeds exactly
    when the product file exists and its content parses, and then returns
    the parsed value.  A missing file is reported as "Product <id> not
    found" after the access check alone; content that does not parse is
    reported with the parser's message. *)
Theorem getProduct_outcome productId w :
  let p := product_path productId in
  ∃ r es,
    getProduct productId w = (Ok r, after w es) ∧
    existsb is_write es = false ∧
    (success r = true ↔
       ∃ content, files w !! p = Some content ∧ JSON_parse content = Ok (loaded r)) ∧
    (files w !! p = None →
       failure r = Some ("Product " +:+ to_string productId +:+ " not found") ∧
       es = [FsAccess p]) ∧
    (∀ content e, files w !! p = Some content → JSON_parse content = Throw e →
       failure r = Some (message e)).
Proof.
  intros p. subst p.
  destruct (files w !! product_path productId) as [content|] eqn:Hfile.
  - rewrite (getProduct_found _ _ _ Hfile). eexists _, _. split; [reflexivity|].
    split; [done|]. destruct (JSON_parse content) as [v|e] eqn:Hparse; simpl.
    + split; [split; eauto|]. split; [done|]. intros ? ? [= <-]. by rewrite Hparse.
    + split.
      * split; [done|]. intros (c & [= <-] & Hc). by rewrite Hparse in Hc.
      * split; [done|]. intros ? ? [= <-]. rewrite Hparse. by intros [= ->].
  - rewrite (getProduct_missing _ _ Hfile). eexists _, _. split; [reflexivity|].
    split; [done|]. simpl. split.
    + split; [done|]. by intros (c & ? & _).
    + split; [done|]. done.
Qed.

(** X3. [updateProduct] never throws.  It succeeds exactly when the
    product file exists and its second argument serialises; then the file
    holds the serialised argument and every other file is as before.  When it
    fails every file is unchanged.  In both cases the set of files is the
    same: [updateProduct] creates no product. *)
Theorem updateProduct_outcome productId arg w :
  let p := product_path productId in
  ∃ r w',
    updateProduct productId arg w = (Ok r, w') ∧
    (success r = true ↔ is_Some (files w !! p) ∧ is_Some (JSON_stringify arg)) ∧
    (∀ data, success r = true → JSON_stringify arg = Some data →
       files w' = <[p := data]> (files w)) ∧
    (success r = false → files w' = files w) ∧
    dom (files w') = dom (files w).
Proof.
  intros p. subst p.
  destruct (files w !! product_path productId) as [content|] eqn:Hfile.
  - rewrite (updateProduct_found _ _ _ _ Hfile).
    destruct (JSON_stringify arg) as [data|]; eexists _, _; (split; [reflexivity|]); simpl.
    + split; [split; eauto|]. split; [by intros ? _ [= <-]|].
      split; [done|]. apply dom_insert_lookup_L. by rewrite Hfile.
    + split; [split; [done|by intros [_ [? ?]]]|]. done.
  - rewrite (updateProduct_missing _ _ _ Hfile). eexists _, _. split; [reflexivity|].
    simpl. split; [split; [done|by intros [[? ?] _]]|]. done.
Qed.

(** X4. Updating one product leaves what [getProduct] returns for a
    product at another path as it was. *)
Theorem updateProduct_other_product productId other arg w :
  product_path productId ≠ product_path other →
  (getProduct other (updateProduct productId arg w).2).1 = (getProduct other w).1.
Proof.
  intros Hne.
  assert (Hlook : files (updateProduct productId arg w).2 !! product_path other
                  = files w !! product_path other).
  { destruct (files w !! product_path productId) as [content|] eqn:Hfile.
    - rewrite (updateProduct_found _ _ _ _ Hfile).
      destruct (JSON_stringify arg); simpl; [|done]. by rewrite lookup_insert_ne.
    - by rewrite (updateProduct_missing _ _ _ Hfile). }
  destruct (files w !! product_path other) as [content|] eqn:Hother.
  - by rewrite (getProduct_found _ _ _ Hlook), (getProduct_found _ _ _ Hother).
  - by rewrite (getProduct_missing _ _ Hlook), (getProduct_missing _ _ Hother).
Qed.

Lemma updateProduct_other_product_witness :
  (getProduct escaping_id
     (updateProduct (VStr "p1") (AValue (p1_record 7)) image_world).2).1 =
  (getProduct escaping_id image_world).1.
Proof.
  apply (updateProduct_other_product (VStr "p1") escaping_id (AValue (p1_record 7)) image_world).
  vm_compute. discriminate.
Defined.

(** X5. The last write wins: after two updates of one product the files
    are what the second update alone leaves, when the second argument
    serialises. *)
Theorem updateProduct_last_write_wins productId a b w :
  is_Some (JSON_stringify b) →
  files (updateProduct productId b (updateProduct productId a w).2).2 =
  files (updateProduct productId b w).2.
Proof.
  intros [data Hb].
  destruct (files w !! product_path productId) as [content|] eqn:Hfile.
  - rewrite (updateProduct_found _ a _ _ Hfile), (updateProduct_found _ b w _ Hfile), Hb.
    destruct (JSON_stringify a) as [data'|]; simpl.
    + erewrite updateProduct_found by (simpl; apply lookup_insert_eq).
      rewrite Hb. simpl. by rewrite insert_insert_eq.
    + erewrite updateProduct_found by (simpl; exact Hfile). by rewrite Hb.
  - rewrite (updateProduct_missing _ a _ Hfile), (updateProduct_missing _ b w Hfile).
    by erewrite updateProduct_missing by (simpl; exact Hfile).
Qed.

Lemma updateProduct_last_write_wins_witness :
  files (updateProduct (VStr "p1") (AValue (p1_record 7))
           (updateProduct (VStr "p1") (AValue (p1_record 4)) (p1_store 3)).2).2 =
  files (updateProduct (VStr "p1") (AValue (p1_record 7)) (p1_store 3)).2.
Proof.
  apply (updateProduct_last_write_wins (VStr "p1") (AValue (p1_record 4))
           (AValue (p1_record 7)) (p1_store 3)).
  vm_compute. eauto.
Defined.

(** ** The validation, case by case *)

(** X6. [validateCheckoutData] on a request with a body hands the
    request on exactly when [product_id] is truthy and [quantity] is either
    absent or a positive integer.  A missing product identifier is answered
    first, with "Product ID is required", whatever the quantity; and every
    answer the middleware sends has status 400. *)
Theorem validateCheckoutData_decides req pid q :
  get_prop (body req) "product_id" = Ok pid →
  get_prop (body req) "quantity" = Ok q →
  (validateCheckoutData req = Ok (Next req) ↔
     truthy pid = true ∧ (q = VUndefined ∨ is_positive_integer q = true)) ∧
  (truthy pid = false →
     validateCheckoutData req =
       Ok (Sent (Response 400 (Json (VObj [("error", VStr "Product ID is required")]))))) ∧
  (∃ o, validateCheckoutData req = Ok o ∧ ∀ res, o = Sent res → status res = 400).
Proof.
  intros Hpid Hq. unfold validateCheckoutData.
  rewrite Hpid, Hq, !result_bind_run.
  destruct (truthy pid) eqn:Hp; cbn [negb].
  2:{ split; [split; [done|by intros [? _]]|]. split; [done|].
      eexists. split; [reflexivity|]. by intros ? [= <-]. }
  assert (q = VUndefined ∨ q ≠ VUndefined) as [->|Hdef]
    by (destruct q; auto; right; discriminate).
  { simpl. split; [split; auto|]. split; [done|].
    eexists. split; [reflexivity|]. done. }
  replace (match q with VUndefined => one | _ => q end) with q by (by destruct q).
  destruct (truthy q) eqn:Ht; cbn [negb andb].
  - rewrite (quantity_check_positive_integer _ Ht).
    destruct (is_positive_integer q); cbn [negb].
    + split; [split; auto|]. split; [done|]. eexists. split; [reflexivity|]. done.
    + split; [split; [done|intros [_ [?|?]]; done]|]. split; [done|].
      eexists. split; [reflexivity|]. by intros ? [= <-].
  - split.
    + split; [done|]. intros [_ [?|Hpos]]; [done|].
      apply positive_integer_truthy in Hpos. congruence.
    + split; [done|]. eexists. split; [reflexivity|]. by intros ? [= <-].
Qed.

Lemma validateCheckoutData_decides_witness :
  let req := purchase "p1" 2 in
  (validateCheckoutData req = Ok (Next req) ↔
     truthy (VStr "p1") = true ∧
     (VNum (Dec 2 O) = VUndefined ∨ is_positive_integer (VNum (Dec 2 O)) = true)) ∧
  (truthy (VStr "p1") = false →
     validateCheckoutData req =
       Ok (Sent (Response 400 (Json (VObj [("error", VStr "Product ID is required")]))))) ∧
  (∃ o, validateCheckoutData req = Ok o ∧ ∀ res, o = Sent res → status res = 400).
Proof.
  apply (validateCheckoutData_decides (purchase "p1" 2) (VStr "p1") (VNum (Dec 2 O))).
  - reflexivity.
  - reflexivity.
Defined.

(** ** Objects without repeated keys *)

Lemma lookup_assign_prop k k' v props :
  lookup_prop k (assign_prop k' v props) =
  if String.eqb k k' then Some v else lookup_prop k props.
Proof.
  induction props as [|[k0 v0] props IH]; simpl.
  - by destruct (String.eqb k k').
  - destruct (String.eqb_spec k' k0) as [->|Hne]; simpl.
    + by destruct (String.eqb k k0).
    + rewrite IH. destruct (String.eqb_spec k k0) as [->|]; [|done].
      destruct (String.eqb_spec k0 k'); [congruence|done].
Qed.

Lemma assign_prop_keys k v props :
  map fst (assign_prop k v props) =
  if existsb (String.eqb k) (map fst props) then map fst props
  else map fst props ++ [k].
Proof.
  induction props as [|[k0 v0] props IH]; [done|]. simpl.
  destruct (String.eqb k k0); simpl; [done|]. rewrite IH.
  by destruct (existsb (String.eqb k) (map fst props)).
Qed.

Lemma distinct_snoc keys k :
  distinct keys = true → existsb (String.eqb k) keys = false →
  distinct (keys ++ [k]) = true.
Proof.
  induction keys as [|a keys IH]; [done|]. simpl.
  intros [Ha Hd]%andb_prop [Hk Hks]%orb_false_elim.
  rewrite (IH Hd Hks), andb_true_r. apply negb_true_iff in Ha.
  rewrite existsb_app, Ha. simpl. by rewrite String.eqb_sym, Hk.
Qed.

Lemma assign_prop_distinct k v props :
  distinct (map fst props) = true → distinct (map fst (assign_prop k v props)) = true.
Proof.
  intros Hd. rewrite assign_prop_keys.
  destruct (existsb (String.eqb k) (map fst props)) eqn:Hk; [done|].
  by apply distinct_snoc.
Qed.

Lemma parse_members_distinct pv fuel : ∀ s acc v r,
  distinct (map fst acc) = true →
  parse_members pv fuel s acc = Some (v, r) →
  ∃ props, v = VObj props ∧ distinct (map fst props) = true.
Proof.
  induction fuel as [|fuel IH]; intros s acc v r Hacc; [done|]. simpl.
  destruct (read_string (skip_ws s)) as [[k s1]|]; [|done].
  destruct (skip_ws s1) as [|c s2]; [done|].
  destruct (Ascii.eqb c ":"); [|done].
  destruct (pv s2) as [[x s3]|]; [|done].
  destruct (skip_ws s3) as [|c' s4]; [done|].
  destruct (Ascii.eqb c' ",").
  - apply IH. by apply assign_prop_distinct.
  - destruct (Ascii.eqb c' "}"); [|done]. intros [= <- <-].
    eexists. split; [done|]. by apply assign_prop_distinct.
Qed.

Lemma parse_elements_array pv fuel : ∀ s acc v r,
  parse_elements pv fuel s acc = Some (v, r) → ∃ items, v = VArr items.
Proof.
  induction fuel as [|fuel IH]; intros s acc v r; [done|]. simpl.
  destruct (pv s) as [[x s1]|]; [|done].
  destruct (skip_ws s1) as [|c s2]; [done|].
  destruct (Ascii.eqb c ","); [apply IH|].
  destruct (Ascii.eqb c "]"); [|done]. intros [= <- <-]. eauto.
Qed.

Lemma parse_value_object_distinct fuel s props r :
  parse_value fuel s = Some (VObj props, r) → distinct (map fst props) = true.
Proof.
  destruct fuel as [|fuel]; [done|]. simpl.
  destruct (skip_ws s) as [|c s1]; [done|].
  repeat match goal with
  | |- context [if ?b then _ else _] => destruct b
  | |- context [match ?x with _ => _ end] => destruct x eqn:?
  end; try done; try (intros [= <- <-]; done);
    try (intros Hm; apply parse_elements_array in Hm as [? ?]; done).
  intros Hm. apply parse_members_distinct in Hm as (props' & [= <-] & Hd); done.
Qed.

(** [JSON.parse] never yields an object with a key twice. *)
Lemma JSON_parse_object_distinct content props :
  JSON_parse content = Ok (VObj props) → distinct (map fst props) = true.
Proof.
  unfold JSON_parse.
  destruct (parse_value _ _) as [[v rest]|] eqn:Hparse; [|done].
  destruct (skip_ws rest); [|done]. intros [= ->].
  by eapply parse_value_object_distinct.
Qed.

Lemma fold_assign_distinct props : ∀ acc,
  distinct (map fst (acc ++ props)) = true →
  fold_left (λ acc kv, assign_prop kv.1 kv.2 acc) props acc = acc ++ props.
Proof.
  induction props as [|[k v] props IH]; intros acc Hd; simpl.
  - by rewrite app_nil_r.
  - rewrite assign_prop_fresh.
    + rewrite IH; rewrite <- app_assoc; done.
    + rewrite map_app in Hd. by eapply distinct_app_fresh.
Qed.

(** ** The two product endpoints on a product that exists *)

Lemma getProductInfo_found req w id content :
  get_prop (params req) "id" = Ok id →
  files w !! product_path id = Some content →
  getProductInfo req w =
    match JSON_parse content with
    | Ok item =>
        match get_prop item "stock" with
        | Ok stock =>
            (Ok (Response 200 (Json (VObj
               [("success", VBool true);
                ("data", object_of (spread_props item ++ availability_flags stock))]))),
             after w [FsAccess (product_path id); FsReadFile (product_path id)])
        | Throw e =>
            (Ok load_error_answer,
             after w [FsAccess (product_path id); FsReadFile (product_path id);
                      ConsoleError ("Error loading product info: " +:+ message e)])
        end
    | Throw e =>
        (Ok load_error_answer,
         after w [FsAccess (product_path id); FsReadFile (product_path id);
                  ConsoleError ("Error loading product info: " +:+ message e)])
    end.
Proof.
  intros Hid Hfile. unfold getProductInfo, try_catch.
  rewrite bind_run. unfold lift at 1. rewrite Hid.
  rewrite bind_run, (checkProductExists_found _ _ _ Hfile).
  cbn [negb pc_exists pc_path pc_error].
  rewrite bind_run, (fs_readFile_found _ (after w _) content) by done.
  rewrite after_after. cbn [app]. rewrite bind_run. unfold lift at 1.
  destruct (JSON_parse content) as [item|e].
  - rewrite bind_run. unfold lift at 1.
    destruct (get_prop item "stock") as [stock|e]; [done|].
    unfold console_error. by rewrite bind_run, emit_run, after_after.
  - unfold console_error. by rewrite bind_run, emit_run, after_after.
Qed.

Lemma loadProductInfo_failure req w pid content e :
  get_prop (body req) "product_id" = Ok pid →
  files w !! product_path pid = Some content →
  load_failure content = Some e →
  loadProductInfo req w =
    (Ok (Sent load_error_answer),
     after w [FsAccess (product_path pid); FsReadFile (product_path pid);
              ConsoleError ("Error loading product info: " +:+ message e)]).
Proof.
  intros Hpid Hfile Hfail. unfold loadProductInfo, try_catch.
  rewrite bind_run. unfold lift at 1. rewrite Hpid.
  rewrite bind_run, (checkProductExists_found _ _ _ Hfile).
  cbn [negb pc_exists pc_path pc_error].
  rewrite bind_run, (fs_readFile_found _ (after w _) content) by done.
  rewrite after_after. cbn [app]. rewrite bind_run. unfold lift at 1.
  unfold load_failure in Hfail.
  destruct (JSON_parse content) as [item|e'].
  - rewrite bind_run. unfold lift at 1.
    destruct (get_prop item "stock") as [stock|e']; [done|]. injection Hfail as ->.
    unfold console_error. by rewrite bind_run, emit_run, after_after.
  - injection Hfail as ->.
    unfold console_error. by rewrite bind_run, emit_run, after_after.
Qed.

(** X7. A product file that cannot be read as a product (its content
    does not parse, or it parses to [null]) makes both endpoints answer with
    status 500 and "Error loading product info": GET /products/:id, and POST
    /create-checkout-session for a valid request.  The effects are the access
    check, the read and the log line with the error. *)
Theorem corrupt_product_file_answers_500 w id content e :
  files w !! product_path id = Some content →
  load_failure content = Some e →
  let w' := after w [FsAccess (product_path id); FsReadFile (product_path id);
                     ConsoleError ("Error loading product info: " +:+ message e)] in
  (∀ req, get_prop (params req) "id" = Ok id →
     route_products req w = (Ok load_error_answer, w')) ∧
  (∀ env req q, get_prop (body req) "product_id" = Ok id → truthy id = true →
     get_prop (body req) "quantity" = Ok q →
     q = VUndefined ∨ is_positive_integer q = true →
     route_create_checkout_session env req w = (Ok load_error_answer, w')).
Proof.
  intros Hfile Hfail w'. split.
  - intros req Hid. unfold route_products.
    rewrite (getProductInfo_found _ _ _ _ Hid Hfile). unfold load_failure in Hfail.
    destruct (JSON_parse content) as [item|e'].
    + destruct (get_prop item "stock"); [done|]. by injection Hfail as ->.
    + by injection Hfail as ->.
  - intros env req q Hid Ht Hq Hok. unfold route_create_checkout_session.
    rewrite bind_run. unfold lift at 1.
    rewrite (validateCheckoutData_valid _ _ _ Hid Ht Hq Hok).
    by rewrite bind_run, (loadProductInfo_failure _ _ _ _ _ Hid Hfile Hfail).
Qed.

Lemma corrupt_product_file_answers_500_witness :
  let w := store_of "null" in
  let p := product_path (VStr "p1") in
  let w' := after w [FsAccess p; FsReadFile p;
                     ConsoleError ("Error loading product info: " +:+
                       "Cannot read properties of null (reading 'stock')")] in
  route_products (product_lookup "p1") w = (Ok load_error_answer, w') ∧
  route_create_checkout_session null_environment (purchase "p1" 2) w =
    (Ok load_error_answer, w').
Proof.
  destruct (corrupt_product_file_answers_500 (store_of "null") (VStr "p1") "null"
              (TypeError "Cannot read properties of null (reading 'stock')"))
    as [Hget Hpost].
  - reflexivity.
  - reflexivity.
  - split.
    + apply Hget. reflexivity.
    + apply (Hpost null_environment (purchase "p1" 2) (VNum (Dec 2 O))).
      * reflexivity.
      * reflexivity.
      * reflexivity.
      * right. reflexivity.
Defined.

Lemma product_data_lookup props stock :
  distinct (map fst props) = true →
  ∃ data,
    object_of (props ++ availability_flags stock) = VObj data ∧
    lookup_prop "available" data = Some (VBool (js_gt stock zero)) ∧
    lookup_prop "outOfStock" data = Some (VBool (js_le stock zero)) ∧
    lookup_prop "inStock" data = Some (VBool (js_gt stock zero)) ∧
    ∀ k, k ≠ "available" → k ≠ "outOfStock" → k ≠ "inStock" →
      lookup_prop k data = lookup_prop k props.
Proof.
  intros Hd. unfold object_of. rewrite fold_left_app.
  rewrite (fold_assign_distinct props []) by done. cbn [app].
  unfold availability_flags. cbn [fold_left fst snd].
  eexists. split; [reflexivity|]. rewrite !lookup_assign_prop.
  split; [done|]. split; [done|]. split; [done|].
  intros k H1 H2 H3. rewrite !lookup_assign_prop.
  destruct (String.eqb_spec k "inStock"); [done|].
  destruct (String.eqb_spec k "outOfStock"); [done|].
  by destruct (String.eqb_spec k "available").
Qed.

Lemma js_gt_zero_integer ns s : num_to_Z ns = Some s → js_gt (VNum ns) zero = (0 <? s).
Proof.
  intros Hs. unfold js_gt, zero. rewrite js_lt_numbers.
  by rewrite (num_ltb_integers _ _ _ _ num_to_Z_zero Hs).
Qed.

Lemma js_le_zero_integer ns s : num_to_Z ns = Some s → js_le (VNum ns) zero = (s <=? 0).
Proof.
  intros Hs. unfold js_le, zero. simpl.
  by rewrite (num_leb_integers _ _ _ _ Hs num_to_Z_zero).
Qed.

(** X8. GET /products/:id for a product with an integer stock [s]
    answers with status 200 after one access check and one read.  The data
    carry [available] and [inStock] equal to [0 < s], [outOfStock] equal to
    [s <= 0], and every other property of the product file unchanged. *)
Theorem getProductInfo_reports req w id content props ns s :
  get_prop (params req) "id" = Ok id →
  files w !! product_path id = Some content →
  JSON_parse content = Ok (VObj props) →
  lookup_prop "stock" props = Some (VNum ns) → num_to_Z ns = Some s →
  ∃ data,
    route_products req w =
      (Ok (Response 200 (Json (VObj [("success", VBool true); ("data", VObj data)]))),
       after w [FsAccess (product_path id); FsReadFile (product_path id)]) ∧
    lookup_prop "available" data = Some (VBool (0 <? s)) ∧
    lookup_prop "outOfStock" data = Some (VBool (s <=? 0)) ∧
    lookup_prop "inStock" data = Some (VBool (0 <? s)) ∧
    ∀ k, k ≠ "available" → k ≠ "outOfStock" → k ≠ "inStock" →
      lookup_prop k data = lookup_prop k props.
Proof.
  intros Hid Hfile Hparse Hstock Hs. unfold route_products.
  rewrite (getProductInfo_found _ _ _ _ Hid Hfile), Hparse.
  cbn [get_prop spread_props]. rewrite Hstock.
  destruct (product_data_lookup props (VNum ns)) as (data & -> & Ha & Ho & Hi & Hk).
  { by eapply JSON_parse_object_distinct. }
  exists data. rewrite (js_gt_zero_integer _ _ Hs) in Ha, Hi.
  rewrite (js_le_zero_integer _ _ Hs) in Ho. done.
Qed.

Lemma getProductInfo_reports_witness :
  let p := product_path (VStr "p1") in
  ∃ data,
    route_products (product_lookup "p1") (p1_store 5) =
      (Ok (Response 200 (Json (VObj [("success", VBool true); ("data", VObj data)]))),
       after (p1_store 5) [FsAccess p; FsReadFile p]) ∧
    lookup_prop "available" data = Some (VBool (0 <? 5)) ∧
    lookup_prop "outOfStock" data = Some (VBool (5 <=? 0)) ∧
    lookup_prop "inStock" data = Some (VBool (0 <? 5)) ∧
    ∀ k, k ≠ "available" → k ≠ "outOfStock" → k ≠ "inStock" →
      lookup_prop k data =
      lookup_prop k [("id", VStr "p1"); ("name", VStr "T-shirt"); ("amount", VNum (Dec 1000 O));
                     ("currency", VStr "usd"); ("stock", VNum (Dec 5 O))].
Proof.
  apply (getProductInfo_reports (product_lookup "p1") (p1_store 5) (VStr "p1")
           (json_text (p1_record 5)) _ (Dec 5 O) 5).
  - reflexivity.
  - reflexivity.
  - vm_compute. reflexivity.
  - reflexivity.
  - reflexivity.
Defined.

(** X9. The two readers of the stock agree: for a product with an
    integer stock, GET /products/:id reports [available] exactly when
    [loadProductInfo] hands a purchase of one unit on to the controller. *)
Theorem available_iff_purchasable req req1 w id content props ns s :
  get_prop (params req) "id" = Ok id →
  get_prop (body req1) "product_id" = Ok id →
  get_prop (body req1) "quantity" = Ok one →
  files w !! product_path id = Some content →
  JSON_parse content = Ok (VObj props) →
  lookup_prop "stock" props = Some (VNum ns) → num_to_Z ns = Some s →
  ∃ data out,
    (route_products req w).1 =
      Ok (Response 200 (Json (VObj [("success", VBool true); ("data", VObj data)]))) ∧
    (loadProductInfo req1 w).1 = Ok out ∧
    (lookup_prop "available" data = Some (VBool true) ↔
     out = Next (with_product req1 (VObj props))).
Proof.
  intros Hid Hpid Hq Hfile Hparse Hstock Hs. unfold route_products.
  rewrite (getProductInfo_found _ _ _ _ Hid Hfile), Hparse.
  cbn [get_prop spread_props]. rewrite Hstock.
  destruct (product_data_lookup props (VNum ns)) as (data & -> & Ha & _).
  { by eapply JSON_parse_object_distinct. }
  rewrite (loadProductInfo_found _ _ _ _ _ _ (VNum ns) Hpid Hq Hfile Hparse)
    by (simpl; by rewrite Hstock).
  eexists _, _. split; [reflexivity|]. split; [reflexivity|].
  rewrite Ha, (js_gt_zero_integer _ _ Hs).
  unfold js_gt, one, truthy. rewrite !js_lt_numbers.
  rewrite (num_truthy_integer _ _ Hs), (num_ltb_integers _ _ _ _ Hs num_to_Z_one).
  destruct (Z.eqb_spec s 0), (Z.ltb_spec s 1), (Z.ltb_spec 0 s); cbn [negb orb];
    try lia; split; try done; intros [=].
Qed.

Lemma available_iff_purchasable_witness :
  ∃ data out,
    (route_products (product_lookup "p1") (p1_store 0)).1 =
      Ok (Response 200 (Json (VObj [("success", VBool true); ("data", VObj data)]))) ∧
    (loadProductInfo (purchase "p1" 1) (p1_store 0)).1 = Ok out ∧
    (lookup_prop "available" data = Some (VBool true) ↔
     out = Next (with_product (purchase "p1" 1) (p1_record 0))).
Proof.
  apply (available_iff_purchasable (product_lookup "p1") (purchase "p1" 1) (p1_store 0)
           (VStr "p1") (json_text (p1_record 0)) _ (Dec 0 O) 0).
  - reflexivity.
  - reflexivity.
  - reflexivity.
  - reflexivity.
  - vm_compute. reflexivity.
  - reflexivity.
  - reflexivity.
Defined.

(** X10. A product file without a [stock] property: GET /products/:id
    answers with [available], [inStock] and [outOfStock] all false (both
    comparisons with [undefined] fail), while [loadProductInfo] rejects every
    purchase of it as out of stock. *)
Theorem product_without_stock req req1 w id content props q :
  get_prop (params req) "id" = Ok id →
  get_prop (body req1) "product_id" = Ok id →
  get_prop (body req1) "quantity" = Ok q →
  files w !! product_path id = Some content →
  JSON_parse content = Ok (VObj props) →
  lookup_prop "stock" props = None →
  (∃ data,
     (route_products req w).1 =
       Ok (Response 200 (Json (VObj [("success", VBool true); ("data", VObj data)]))) ∧
     lookup_prop "available" data = Some (VBool false) ∧
     lookup_prop "outOfStock" data = Some (VBool false) ∧
     lookup_prop "inStock" data = Some (VBool false)) ∧
  (loadProductInfo req1 w).1 = Ok (Sent (out_of_stock_answer id)).
Proof.
  intros Hid Hpid Hq Hfile Hparse Hstock. split.
  - unfold route_products.
    rewrite (getProductInfo_found _ _ _ _ Hid Hfile), Hparse.
    cbn [get_prop spread_props]. rewrite Hstock.
    destruct (product_data_lookup props VUndefined) as (data & -> & Ha & Ho & Hi & _).
    { by eapply JSON_parse_object_distinct. }
    exists data. done.
  - rewrite (loadProductInfo_found _ _ _ _ _ _ VUndefined Hpid Hq Hfile Hparse)
      by (simpl; by rewrite Hstock).
    done.
Qed.

Lemma product_without_stock_witness :
  let w := store_of (json_text unstocked_record) in
  (∃ data,
     (route_products (product_lookup "p1") w).1 =
       Ok (Response 200 (Json (VObj [("success", VBool true); ("data", VObj data)]))) ∧
     lookup_prop "available" data = Some (VBool false) ∧
     lookup_prop "outOfStock" data = Some (VBool false) ∧
     lookup_prop "inStock" data = Some (VBool false)) ∧
  (loadProductInfo (purchase "p1" 1) w).1 = Ok (Sent (out_of_stock_answer (VStr "p1"))).
Proof.
  apply (product_without_stock (product_lookup "p1") (purchase "p1" 1)
           (store_of (json_text unstocked_record)) (VStr "p1")
           (json_text unstocked_record)
           [("id", VStr "p1"); ("name", VStr "T-shirt"); ("amount", VNum (Dec 1000 O));
            ("currency", VStr "usd")]
           (VNum (Dec 1 O))).
  - reflexivity.
  - reflexivity.
  - reflexivity.
  - reflexivity.
  - vm_compute. reflexivity.
  - reflexivity.
Defined.

(** ** Opening a session *)

Lemma lift_get_prop_defined {B} o k (f : value → M B) w :
  is_nullish o = false →
  (lift (get_prop o k) ≫= f) w = f (prop_of o k) w.
Proof. intros H. rewrite bind_run. unfold lift. by rewrite (get_prop_defined _ _ H). Qed.

Lemma createCheckoutSession_number env req w nq :
  is_nullish (product req) = false →
  get_prop (body req) "quantity" = Ok (VNum nq) →
  let quantity := VNum nq in
  let request := session_request env (product req) quantity in
  createCheckoutSession env req w =
    match stripe_checkout_sessions_create env request with
    | Ok session =>
        if is_nullish session then
          (Ok session_error_answer,
           after w [StripeSessionsCreate request;
                    ConsoleError ("Error creating checkout session: " +:+
                      match get_prop session "url" with
                      | Throw e => message e
                      | Ok _ => ""
                      end)])
        else
          (Ok (session_answer session (product req) quantity),
           after w [StripeSessionsCreate request])
    | Throw e =>
        (Ok session_error_answer,
         after w [StripeSessionsCreate request;
                  ConsoleError ("Error creating checkout session: " +:+ message e)])
    end.
Proof.
  intros Hitem Hq quantity request. unfold createCheckoutSession, try_catch.
  rewrite bind_run. unfold lift at 1. rewrite Hq.
  rewrite !(lift_get_prop_defined (product req)) by done.
  rewrite bind_run. unfold lift at 1. cbn [method_toString].
  rewrite bind_run, emit_run. rewrite bind_run. unfold lift at 1.
  fold quantity. change (VObj _) with request at 1.
  destruct (stripe_checkout_sessions_create env request) as [session|e].
  - destruct (is_nullish session) eqn:Hs.
    + rewrite bind_run. unfold lift at 1.
      destruct session; try discriminate; simpl;
        unfold console_error; by rewrite bind_run, emit_run, after_after.
    + rewrite !(lift_get_prop_defined session) by done.
      rewrite !(lift_get_prop_defined (product req)) by done.
      by rewrite ret_run.
  - unfold console_error. by rewrite bind_run, emit_run, after_after.
Qed.

Lemma norm_dec_value e : ∀ m, num_to_Z (norm_dec m e) = num_to_Z (Dec m e).
Proof.
  induction e as [|e IH]; intros m; [done|]. cbn [norm_dec].
  destruct (Z.eqb_spec (m mod 10) 0) as [Hz|Hz]; [|done].
  rewrite IH. pose proof (pow10_pos e).
  assert (Hm : m = 10 * (m / 10)) by (pose proof (Z.div_mod m 10); lia).
  set (k := m / 10) in *. clearbody k. subst m.
  cbn [num_to_Z]. rewrite pow10_succ.
  rewrite Z.mul_mod_distr_l, Z.div_mul_cancel_l by lia.
  destruct (Z.eqb_spec (k mod pow10 e) 0) as [->|Hne]; [done|].
  destruct (Z.eqb_spec (10 * (k mod pow10 e)) 0); [lia|done].
Qed.

Lemma num_mul_integers a b x y :
  num_to_Z a = Some x → num_to_Z b = Some y → num_to_Z (num_mul a b) = Some (x * y).
Proof.
  destruct a as [|m1 e1], b as [|m2 e2]; try done.
  intros ->%num_to_Z_Some ->%num_to_Z_Some. cbn [num_mul].
  rewrite norm_dec_value. cbn [num_to_Z]. rewrite pow10_add.
  pose proof (pow10_pos e1). pose proof (pow10_pos e2).
  replace (x * pow10 e1 * (y * pow10 e2)) with (x * y * (pow10 e1 * pow10 e2)) by lia.
  rewrite Z.mod_mul, Z.div_mul by lia. done.
Qed.

Lemma lookup_prop_of props k v : lookup_prop k props = Some v → prop_of (VObj props) k = v.
Proof. intros H. unfold prop_of. simpl. by rewrite H. Qed.

(** The middlewares hand a valid purchase of an in-stock product on to the
    controller. *)
Lemma purchase_reaches_controller env req w pid nq q content props ns s :
  get_prop (body req) "product_id" = Ok pid → truthy pid = true →
  get_prop (body req) "quantity" = Ok (VNum nq) → num_to_Z nq = Some q → 1 ≤ q →
  files w !! product_path pid = Some content →
  JSON_parse content = Ok (VObj props) →
  lookup_prop "stock" props = Some (VNum ns) → num_to_Z ns = Some s → q ≤ s →
  route_create_checkout_session env req w =
    createCheckoutSession env (with_product req (VObj props))
      (after w [FsAccess (product_path pid); FsReadFile (product_path pid)]).
Proof.
  intros Hpid Ht Hq Hnq Hq1 Hfile Hparse Hstock Hns Hqs.
  unfold route_create_checkout_session.
  rewrite bind_run. unfold lift at 1.
  rewrite (validateCheckoutData_valid _ _ _ Hpid Ht Hq)
    by (right; by eapply is_positive_integer_of_Z).
  rewrite bind_run.
  rewrite (loadProductInfo_found _ _ _ _ _ _ (VNum ns) Hpid Hq Hfile Hparse)
    by (simpl; by rewrite Hstock).
  unfold js_gt, one, truthy. rewrite !js_lt_numbers.
  rewrite (num_truthy_integer _ _ Hns), (num_ltb_integers _ _ _ _ Hns num_to_Z_one),
    (num_ltb_integers _ _ _ _ Hns Hnq).
  destruct (Z.eqb_spec s 0), (Z.ltb_spec s 1), (Z.ltb_spec s q); try lia. done.
Qed.

(** X11. A valid purchase of [q] units of a product with stock at least
    [q], when the provider opens a session: POST /create-checkout-session
    answers with status 200, the url and id of the session, the unit price
    and a total amount of price times [q].  The effects are the access check,
    the read and one call of the provider with the request built from the
    product and the quantity.  The quantity, the price and their product are
    safe integers: there the multiplication is exact and the quantity is
    printed digit by digit in the metadata. *)
Theorem purchase_opens_session env req w pid nq q content props ns s na a session :
  get_prop (body req) "product_id" = Ok pid → truthy pid = true →
  get_prop (body req) "quantity" = Ok (VNum nq) → num_to_Z nq = Some q → 1 ≤ q →
  safe_integer q = true →
  files w !! product_path pid = Some content →
  JSON_parse content = Ok (VObj props) →
  lookup_prop "stock" props = Some (VNum ns) → num_to_Z ns = Some s → q ≤ s →
  lookup_prop "amount" props = Some (VNum na) → num_to_Z na = Some a →
  safe_integer a = true → safe_integer (a * q) = true →
  stripe_checkout_sessions_create env (session_request env (VObj props) (VNum nq)) = Ok session →
  is_nullish session = false →
  ∃ total,
    route_create_checkout_session env req w =
      (Ok (Response 200 (Json (VObj
         [("success", VBool true);
          ("checkout_url", prop_of session "url");
          ("session_id", prop_of session "id");
          ("product", VObj
             [("product_id", prop_of (VObj props) "id");
              ("quantity", VNum nq);
              ("total_amount", VNum total);
              ("unit_price", VNum na);
              ("currency", prop_of (VObj props) "currency")])]))),
       after w [FsAccess (product_path pid); FsReadFile (product_path pid);
                StripeSessionsCreate (session_request env (VObj props) (VNum nq))]) ∧
    num_to_Z total = Some (a * q).
Proof.
  intros Hpid Ht Hq Hnq Hq1 _ Hfile Hparse Hstock Hns Hqs Hamount Hna _ _ Hcreate Hsession.
  rewrite (purchase_reaches_controller _ _ _ _ _ _ _ _ _ _
             Hpid Ht Hq Hnq Hq1 Hfile Hparse Hstock Hns Hqs).
  rewrite (createCheckoutSession_number _ _ _ nq) by done.
  cbn [product with_product]. rewrite Hcreate, Hsession, after_after. cbn [app].
  unfold session_answer. rewrite (lookup_prop_of _ _ _ Hamount).
  eexists. split; [reflexivity|]. by apply num_mul_integers.
Qed.

Lemma purchase_opens_session_witness :
  let env := test_environment VNull in
  let p := product_path (VStr "p1") in
  ∃ total,
    route_create_checkout_session env (purchase "p1" 2) (p1_store 5) =
      (Ok (Response 200 (Json (VObj
         [("success", VBool true);
          ("checkout_url", VStr "https://pay.example/cs_test_1");
          ("session_id", VStr "cs_test_1");
          ("product", VObj
             [("product_id", VStr "p1");
              ("quantity", VNum (Dec 2 O));
              ("total_amount", VNum total);
              ("unit_price", VNum (Dec 1000 O));
              ("currency", VStr "usd")])]))),
       after (p1_store 5)
         [FsAccess p; FsReadFile p;
          StripeSessionsCreate (session_request env (p1_record 5) (VNum (Dec 2 O)))]) ∧
    num_to_Z total = Some (1000 * 2).
Proof.
  apply (purchase_opens_session (test_environment VNull) (purchase "p1" 2) (p1_store 5)
           (VStr "p1") (Dec 2 O) 2 (json_text (p1_record 5))
           [("id", VStr "p1"); ("name", VStr "T-shirt"); ("amount", VNum (Dec 1000 O));
            ("currency", VStr "usd"); ("stock", VNum (Dec 5 O))]
           (Dec 5 O) 5 (Dec 1000 O) 1000
           (VObj [("id", VStr "cs_test_1"); ("url", VStr "https://pay.example/cs_test_1")])).
  - reflexivity.
  - reflexivity.
  - reflexivity.
  - reflexivity.
  - lia.
  - reflexivity.
  - reflexivity.
  - vm_compute. reflexivity.
  - reflexivity.
  - reflexivity.
  - lia.
  - reflexivity.
  - reflexivity.
  - reflexivity.
  - reflexivity.
  - reflexivity.
  - reflexivity.
Defined.

(** X12. When the provider fails on a valid purchase of an available
    product, POST /create-checkout-session answers with status 500 and
    "Error creating checkout session"; the provider's message goes to the log
    only. *)
Theorem provider_failure_answers_500 env req w pid nq q content props ns s e :
  get_prop (body req) "product_id" = Ok pid → truthy pid = true →
  get_prop (body req) "quantity" = Ok (VNum nq) → num_to_Z nq = Some q → 1 ≤ q →
  files w !! product_path pid = Some content →
  JSON_parse content = Ok (VObj props) →
  lookup_prop "stock" props = Some (VNum ns) → num_to_Z ns = Some s → q ≤ s →
  stripe_checkout_sessions_create env (session_request env (VObj props) (VNum nq)) = Throw e →
  route_create_checkout_session env req w =
    (Ok (Response 500 (Json (VObj [("error", VStr "Error creating checkout session")]))),
     after w [FsAccess (product_path pid); FsReadFile (product_path pid);
              StripeSessionsCreate (session_request env (VObj props) (VNum nq));
              ConsoleError ("Error creating checkout session: " +:+ message e)]).
Proof.
  intros Hpid Ht Hq Hnq Hq1 Hfile Hparse Hstock Hns Hqs Hcreate.
  rewrite (purchase_reaches_controller _ _ _ _ _ _ _ _ _ _
             Hpid Ht Hq Hnq Hq1 Hfile Hparse Hstock Hns Hqs).
  rewrite (createCheckoutSession_number _ _ _ nq) by done.
  cbn [product with_product]. by rewrite Hcreate, after_after.
Qed.

Lemma provider_failure_answers_500_witness :
  let p := product_path (VStr "p1") in
  route_create_checkout_session null_environment (purchase "p1" 2) (p1_store 5) =
    (Ok (Response 500 (Json (VObj [("error", VStr "Error creating checkout session")]))),
     after (p1_store 5)
       [FsAccess p; FsReadFile p;
        StripeSessionsCreate (session_request null_environment (p1_record 5) (VNum (Dec 2 O)));
        ConsoleError ("Error creating checkout session: " +:+ "provider unavailable")]).
Proof.
  apply (provider_failure_answers_500 null_environment (purchase "p1" 2) (p1_store 5)
           (VStr "p1") (Dec 2 O) 2 (json_text (p1_record 5))
           [("id", VStr "p1"); ("name", VStr "T-shirt"); ("amount", VNum (Dec 1000 O));
            ("currency", VStr "usd"); ("stock", VNum (Dec 5 O))]
           (Dec 5 O) 5 (TypeError "provider unavailable")).
  - reflexivity.
  - reflexivity.
  - reflexivity.
  - reflexivity.
  - lia.
  - reflexivity.
  - vm_compute. reflexivity.
  - reflexivity.
  - reflexivity.
  - lia.
  - reflexivity.
Defined.

(** ** The quantity in the session metadata *)

Lemma norm_dec_integer e : ∀ m q, num_to_Z (Dec m e) = Some q → norm_dec m e = Dec q O.
Proof.
  induction e as [|e IH]; intros m q Hq.
  - apply num_to_Z_Some in Hq. unfold pow10 in Hq. simpl in Hq. subst. simpl.
    f_equal. lia.
  - apply num_to_Z_Some in Hq. subst m. cbn [norm_dec]. rewrite pow10_succ.
    pose proof (pow10_pos e).
    replace (q * (10 * pow10 e)) with (q * pow10 e * 10) by lia.
    rewrite Z.mod_mul, Z.div_mul by lia. simpl. apply IH.
    cbn [num_to_Z]. by rewrite Z.mod_mul, Z.div_mul by lia.
Qed.

Lemma read_sign_digit d s :
  0 ≤ d < 10 → read_sign (digit_char d :: s) = (false, digit_char d :: s).
Proof.
  intros Hd.
  assert (d = 0 ∨ d = 1 ∨ d = 2 ∨ d = 3 ∨ d = 4 ∨ d = 5 ∨ d = 6 ∨ d = 7 ∨
          d = 8 ∨ d = 9) as H by lia.
  repeat (destruct H as [->|H]; [reflexivity|]). by subst.
Qed.

Lemma skip_spaces_digit d s :
  0 ≤ d < 10 → skip_spaces (digit_char d :: s) = digit_char d :: s.
Proof.
  intros Hd.
  assert (d = 0 ∨ d = 1 ∨ d = 2 ∨ d = 3 ∨ d = 4 ∨ d = 5 ∨ d = 6 ∨ d = 7 ∨
          d = 8 ∨ d = 9) as H by lia.
  repeat (destruct H as [->|H]; [reflexivity|]). by subst.
Qed.

Lemma read_sign_minus s : read_sign (skip_spaces ("-"%char :: s)) = (true, s).
Proof. reflexivity. Qed.

(** [parseInt] reads the decimal text of an integer back. *)
Lemma parseInt_integer_text n q :
  num_to_Z n = Some q → parseInt (VStr (to_string (VNum n))) = Dec q O.
Proof.
  intros Hq. destruct n as [|m e]; [done|].
  unfold parseInt. cbn [to_string]. unfold str, unstr.
  rewrite list_ascii_of_string_of_list_ascii. unfold num_to_chars.
  rewrite (norm_dec_integer _ _ _ Hq). unfold pow10. simpl Z.of_nat.
  rewrite Z.pow_0_r, Z.div_1_r, app_nil_r.
  destruct (int_digits_fixed (Z.abs q)) as (k & -> & Hlt & _); [lia|].
  assert (Hd : 0 ≤ (Z.abs q / pow10 k) mod 10 < 10) by (apply Z.mod_pos_bound; lia).
  assert (Hread : read_digits (fixed_digits (S k) (Z.abs q)) 0 0 = (Z.abs q, S k, [])).
  { rewrite <- (app_nil_r (fixed_digits _ _)), read_digits_fixed.
    cbn [read_digits]. rewrite Z.mod_small by lia. done. }
  destruct (Z.ltb_spec q 0).
  - cbn [app]. rewrite read_sign_minus, Hread. f_equal. lia.
  - cbn [app]. rewrite fixed_digits_cons, (skip_spaces_digit _ _ Hd), (read_sign_digit _ _ Hd).
    rewrite <- fixed_digits_cons, Hread. f_equal. lia.
Qed.

(** X13. The quantity that [createCheckoutSession] writes as text into
    the metadata of the session is read back by the [parseInt] of
    [handleWebhook] as the same integer, for a quantity that is a safe
    integer.  (From 1e21 on the text is in exponent notation and [parseInt]
    reads its first digits only.) *)
Theorem metadata_quantity_read_back env item nq q :
  num_to_Z nq = Some q → safe_integer q = true →
  parseInt (prop_of (prop_of (session_request env item (VNum nq)) "metadata") "quantity")
  = Dec q O.
Proof.
  intros Hq _. unfold session_request, prop_of.
  cbn [get_prop lookup_prop String.eqb Ascii.eqb Bool.eqb].
  by apply parseInt_integer_text.
Qed.

Lemma metadata_quantity_read_back_witness :
  parseInt (prop_of (prop_of (session_request (test_environment VNull) (p1_record 5)
                                (VNum (Dec 20 O))) "metadata") "quantity")
  = Dec 20 O.
Proof.
  apply (metadata_quantity_read_back (test_environment VNull) (p1_record 5) (Dec 20 O) 20).
  - reflexivity.
  - reflexivity.
Defined.

(** ** The callback of the webhook handler *)

Lemma num_sub_integers a b x y :
  num_to_Z a = Some x → num_to_Z b = Some y → num_to_Z (num_sub a b) = Some (x - y).
Proof.
  destruct a as [|m1 e1], b as [|m2 e2]; try done. intros Ha Hb.
  cbn [num_sub]. rewrite (align_integers _ _ _ _ _ _ Ha Hb).
  rewrite norm_dec_value. cbn [num_to_Z].
  pose proof (pow10_pos (Nat.max e1 e2)).
  rewrite <- Z.mul_sub_distr_r, Z.mod_mul, Z.div_mul by lia. done.
Qed.

Lemma num_sub_NaN a : num_sub a NaN = NaN.
Proof. by destruct a. Qed.

Lemma lookup_prop_key k props v :
  lookup_prop k props = Some v → existsb (String.eqb k) (map fst props) = true.
Proof.
  induction props as [|[k0 v0] props IH]; [done|]. simpl.
  destruct (String.eqb k k0); [done|]. exact IH.
Qed.

(** X14. The value returned by the callback that [handleWebhook] passes to
    [updateProduct], applied to a product with a safe integer stock [s]: for
    a safe integer quantity [q] with [s - q] safe, it is the product with
    stock [s - q], the same keys in the same order and every other property
    unchanged.  For the quantity [NaN] (a metadata quantity that is not a
    number) the stock is [NaN].  The callback reads and writes no file and
    logs nothing.  (The statement is about the returned value: that the
    source returns the very object it was given, updated in place, is not
    expressed.) *)
Theorem decrement_stock_callback props ns s w :
  lookup_prop "stock" props = Some (VNum ns) → num_to_Z ns = Some s →
  safe_integer s = true →
  (∀ nq q, num_to_Z nq = Some q → safe_integer q = true → safe_integer (s - q) = true →
     ∃ props' n',
       decrement_stock nq (VObj props) w = (Ok (VObj props'), w) ∧
       lookup_prop "stock" props' = Some (VNum n') ∧ num_to_Z n' = Some (s - q) ∧
       map fst props' = map fst props ∧
       ∀ k, k ≠ "stock" → lookup_prop k props' = lookup_prop k props) ∧
  (∃ props',
     decrement_stock NaN (VObj props) w = (Ok (VObj props'), w) ∧
     lookup_prop "stock" props' = Some (VNum NaN)).
Proof.
  intros Hstock Hs _.
  assert (Hrun : ∀ nq, decrement_stock nq (VObj props) w =
    (Ok (VObj (assign_prop "stock" (VNum (num_sub ns nq)) props)), w)).
  { intros nq. unfold decrement_stock. rewrite bind_run. unfold lift.
    cbn [get_prop]. by rewrite Hstock. }
  split.
  - intros nq q Hq _ _. eexists _, _. split; [apply Hrun|].
    rewrite lookup_assign_prop. split; [reflexivity|].
    split; [by apply num_sub_integers|]. split.
    + by rewrite assign_prop_keys, (lookup_prop_key _ _ _ Hstock).
    + intros k Hk. rewrite lookup_assign_prop.
      by destruct (String.eqb_spec k "stock").
  - eexists. split; [apply Hrun|]. by rewrite lookup_assign_prop, num_sub_NaN.
Qed.

Lemma decrement_stock_callback_witness :
  let props := [("id", VStr "p1"); ("stock", VNum (Dec 5 O))] in
  let w := p1_store 5 in
  (∃ props' n',
     decrement_stock (Dec 2 O) (VObj props) w = (Ok (VObj props'), w) ∧
     lookup_prop "stock" props' = Some (VNum n') ∧ num_to_Z n' = Some (5 - 2) ∧
     map fst props' = map fst props ∧
     ∀ k, k ≠ "stock" → lookup_prop k props' = lookup_prop k props) ∧
  (∃ props',
     decrement_stock NaN (VObj props) w = (Ok (VObj props'), w) ∧
     lookup_prop "stock" props' = Some (VNum NaN)).
Proof.
  destruct (decrement_stock_callback [("id", VStr "p1"); ("stock", VNum (Dec 5 O))]
              (Dec 5 O) 5 (p1_store 5)) as [Hint Hnan].
  - reflexivity.
  - reflexivity.
  - reflexivity.
  - split.
    + apply (Hint (Dec 2 O) 2).
      * reflexivity.
      * reflexivity.
      * reflexivity.
    + exact Hnan.
Defined.

(** ** Verified webhooks, effect by effect *)

Lemma handleWebhook_verified env req w sig event :
  get_prop (headers req) "stripe-signature" = Ok sig →
  stripe_webhooks_constructEvent env (body req) sig (STRIPE_WEBHOOK_SECRET env) = Ok event →
  is_nullish event = false →
  handleWebhook env req w =
    let type := prop_of event "type" in
    let w1 := after w [StripeConstructEvent] in
    ((if is_string type "checkout.session.completed" then
        data ← lift (get_prop event "data");
        session ← lift (get_prop data "object");
        session_id ← lift (get_prop session "id");
        console_log ("Checkout completed: " +:+ to_string session_id);;
        metadata ← lift (get_prop session "metadata");
        productId ← lift (get_prop metadata "product_id");
        quantity ← lift (get_prop metadata "quantity");
        let quantityPurchased := parseInt quantity in
        productUpdateResult ← updateProduct productId
          (AFunction (decrement_stock quantityPurchased));
        if negb (success productUpdateResult) then
          console_error ("Error updating product stock: " +:+
                         to_string (opt_string (failure productUpdateResult)))
        else
          console_log ("Product " +:+ to_string productId +:+ " stock updated successfully.")
      else if is_string type "payment_intent.succeeded" then
        data ← lift (get_prop event "data");
        paymentIntent ← lift (get_prop data "object");
        id ← lift (get_prop paymentIntent "id");
        console_log ("Payment successful: " +:+ to_string id)
      else if is_string type "payment_intent.payment_failed" then
        data ← lift (get_prop event "data");
        failedPayment ← lift (get_prop data "object");
        id ← lift (get_prop failedPayment "id");
        console_log ("Payment failed: " +:+ to_string id)
      else
        console_log ("Unhandled event type " +:+ to_string type));;
     mret (res_json (VObj [("received", VBool true)]))) w1.
Proof.
  intros Hsig Hevent Hev. unfold handleWebhook.
  rewrite bind_run. unfold lift at 1. rewrite Hsig.
  rewrite bind_run. unfold try_catch.
  rewrite bind_run, emit_run, bind_run. unfold lift at 1. rewrite Hevent.
  rewrite ret_run. cbv beta iota zeta.
  rewrite (lift_get_prop_defined event "type") by done. done.
Qed.

(** X15. A verified [payment_intent.succeeded] or
    [payment_intent.payment_failed] event is acknowledged with
    {received: true}; after the verification the only effect is one log line
    with the id of the payment intent.  The store is not consulted. *)
Theorem payment_intent_events_only_logged env req w sig event :
  get_prop (headers req) "stripe-signature" = Ok sig →
  stripe_webhooks_constructEvent env (body req) sig (STRIPE_WEBHOOK_SECRET env) = Ok event →
  is_nullish event = false → is_nullish (prop_of event "data") = false →
  is_nullish (event_object event) = false →
  (is_string (prop_of event "type") "payment_intent.succeeded" = true →
     route_webhook env req w =
       (Ok acknowledged,
        after w [StripeConstructEvent;
                 ConsoleLog ("Payment successful: " +:+
                             to_string (prop_of (event_object event) "id"))])) ∧
  (is_string (prop_of event "type") "payment_intent.payment_failed" = true →
     route_webhook env req w =
       (Ok acknowledged,
        after w [StripeConstructEvent;
                 ConsoleLog ("Payment failed: " +:+
                             to_string (prop_of (event_object event) "id"))])).
Proof.
  intros Hsig Hevent Hev Hdata Hobj. unfold route_webhook, event_object in *.
  rewrite (handleWebhook_verified _ _ _ _ _ Hsig Hevent Hev). cbv zeta.
  destruct (prop_of event "type") as [| | | |type| |]; try (split; intros; discriminate).
  cbn [is_string]. split; intros Htype.
  - apply String.eqb_eq in Htype as ->. cbn [String.eqb Ascii.eqb Bool.eqb andb].
    rewrite bind_run.
    rewrite (lift_get_prop_defined event "data") by done.
    rewrite (lift_get_prop_defined _ "object") by done.
    rewrite (lift_get_prop_defined _ "id") by done.
    unfold console_log. by rewrite emit_run, ret_run, after_after.
  - apply String.eqb_eq in Htype as ->. cbn [String.eqb Ascii.eqb Bool.eqb andb].
    rewrite bind_run.
    rewrite (lift_get_prop_defined event "data") by done.
    rewrite (lift_get_prop_defined _ "object") by done.
    rewrite (lift_get_prop_defined _ "id") by done.
    unfold console_log. by rewrite emit_run, ret_run, after_after.
Qed.

Lemma payment_intent_events_only_logged_witness :
  route_webhook (test_environment (payment_event "payment_intent.succeeded"))
    signed_webhook (p1_store 3) =
    (Ok acknowledged,
     after (p1_store 3) [StripeConstructEvent; ConsoleLog "Payment successful: pi_1"]) ∧
  route_webhook (test_environment (payment_event "payment_intent.payment_failed"))
    signed_webhook (p1_store 3) =
    (Ok acknowledged,
     after (p1_store 3) [StripeConstructEvent; ConsoleLog "Payment failed: pi_1"]).
Proof.
  split.
  - apply (payment_intent_events_only_logged
             (test_environment (payment_event "payment_intent.succeeded"))
             signed_webhook (p1_store 3) (VStr "t=1,v1=ab")
             (payment_event "payment_intent.succeeded")); reflexivity.
  - apply (payment_intent_events_only_logged
             (test_environment (payment_event "payment_intent.payment_failed"))
             signed_webhook (p1_store 3) (VStr "t=1,v1=ab")
             (payment_event "payment_intent.payment_failed")); reflexivity.
Defined.



(** X17. A verified [checkout.session.completed] event whose session
    has no metadata: the handler throws a TypeError after the log line and
    sends no answer (the [switch] is outside the [try]). *)
Theorem completed_checkout_without_metadata_throws env req w sig event :
  get_prop (headers req) "stripe-signature" = Ok sig →
  stripe_webhooks_constructEvent env (body req) sig (STRIPE_WEBHOOK_SECRET env) = Ok event →
  is_nullish event = false → is_nullish (prop_of event "data") = false →
  is_nullish (event_object event) = false →
  is_nullish (prop_of (event_object event) "metadata") = true →
  is_string (prop_of event "type") "checkout.session.completed" = true →
  ∃ e,
    route_webhook env req w =
      (Throw e,
       after w [StripeConstructEvent;
                ConsoleLog ("Checkout completed: " +:+
                            to_string (prop_of (event_object event) "id"))]) ∧
    err_name e = "TypeError".
Proof.
  intros Hsig Hevent Hev Hdata Hobj Hmeta Htype.
  unfold route_webhook, event_object in *.
  rewrite (handleWebhook_verified _ _ _ _ _ Hsig Hevent Hev). cbv zeta.
  rewrite Htype, bind_run.
  rewrite (lift_get_prop_defined event "data") by done.
  rewrite (lift_get_prop_defined _ "object") by done.
  rewrite (lift_get_prop_defined _ "id") by done.
  unfold console_log. rewrite bind_run, emit_run.
  rewrite (lift_get_prop_defined _ "metadata") by done.
  rewrite bind_run. unfold lift at 1. rewrite after_after. cbn [app].
  destruct (prop_of _ "metadata"); try discriminate; simpl; eauto.
Qed.

Lemma completed_checkout_without_metadata_throws_witness :
  ∃ e,
    route_webhook (test_environment bare_completed_event) signed_webhook (p1_store 3) =
      (Throw e,
       after (p1_store 3) [StripeConstructEvent; ConsoleLog "Checkout completed: cs_test_1"]) ∧
    err_name e = "TypeError".
Proof.
  apply (completed_checkout_without_metadata_throws
           (test_environment bare_completed_event)
           signed_webhook (p1_store 3) (VStr "t=1,v1=ab") bare_completed_event); reflexivity.
Defined.

Lemma get_prop_nullish o k :
  is_nullish o = true → ∃ e, get_prop o k = Throw e ∧ err_name e = "TypeError".
Proof. destruct o; try discriminate; intros _; simpl; eauto. Qed.

Ltac throw_on H k :=
  rewrite bind_run; unfold lift at 1;
  let e := fresh "e" in let Hn := fresh "Hn" in
  destruct (get_prop_nullish _ k H) as (e & -> & Hn);
  eexists _, _; split; [reflexivity|]; split; [exact Hn|reflexivity].

(** X23. A verified event that lacks a field the handler reads for its
    type -- [data.object] for the three types it names, the session's
    metadata for a completed checkout -- or that is null, makes the handler
    throw a TypeError: no answer is sent, and every file is unchanged. *)
Theorem unreadable_event_throws env req w sig event :
  get_prop (headers req) "stripe-signature" = Ok sig →
  stripe_webhooks_constructEvent env (body req) sig (STRIPE_WEBHOOK_SECRET env) = Ok event →
  readable_event event = false →
  ∃ e w',
    route_webhook env req w = (Throw e, w') ∧ err_name e = "TypeError" ∧
    files w' = files w.
Proof.
  intros Hsig Hevent Hshape.
  destruct (is_nullish event) eqn:Hev.
  { unfold route_webhook, handleWebhook.
    rewrite bind_run. unfold lift at 1. rewrite Hsig.
    rewrite bind_run. unfold try_catch.
    rewrite bind_run, emit_run, bind_run. unfold lift at 1. rewrite Hevent.
    rewrite ret_run. throw_on Hev "type". }
  unfold route_webhook.
  rewrite (handleWebhook_verified _ _ _ _ _ Hsig Hevent Hev). cbv zeta.
  unfold readable_event in Hshape. rewrite Hev in Hshape. cbn [negb andb] in Hshape.
  destruct (is_string (prop_of event "type") "checkout.session.completed") eqn:Hcompleted.
  - rewrite bind_run.
    rewrite (lift_get_prop_defined event "data") by done.
    destruct (is_nullish (prop_of event "data")) eqn:Hdata; [throw_on Hdata "object"|].
    rewrite (lift_get_prop_defined _ "object") by done.
    destruct (is_nullish (prop_of (prop_of event "data") "object")) eqn:Hobj;
      [throw_on Hobj "id"|].
    rewrite (lift_get_prop_defined _ "id") by done.
    unfold console_log. rewrite bind_run, emit_run.
    rewrite (lift_get_prop_defined _ "metadata") by done.
    cbn [negb andb] in Hshape. apply negb_false_iff in Hshape.
    throw_on Hshape "product_id".
  - destruct (is_string (prop_of event "type") "payment_intent.succeeded") eqn:Hsucceeded;
      [|destruct (is_string (prop_of event "type") "payment_intent.payment_failed")
          eqn:Hfailed]; cbn [orb] in Hshape; [| |discriminate].
    + rewrite bind_run.
      rewrite (lift_get_prop_defined event "data") by done.
      destruct (is_nullish (prop_of event "data")) eqn:Hdata; [throw_on Hdata "object"|].
      rewrite (lift_get_prop_defined _ "object") by done.
      cbn [negb andb] in Hshape. apply negb_false_iff in Hshape.
      throw_on Hshape "id".
    + rewrite bind_run.
      rewrite (lift_get_prop_defined event "data") by done.
      destruct (is_nullish (prop_of event "data")) eqn:Hdata; [throw_on Hdata "object"|].
      rewrite (lift_get_prop_defined _ "object") by done.
      cbn [negb andb] in Hshape. apply negb_false_iff in Hshape.
      throw_on Hshape "id".
Qed.

Lemma unreadable_event_throws_witness :
  let event := VObj [("type", VStr "payment_intent.succeeded")] in
  ∃ e w',
    route_webhook (test_environment event) signed_webhook (p1_store 3) = (Throw e, w') ∧
    err_name e = "TypeError" ∧ files w' = files (p1_store 3).
Proof.
  apply (unreadable_event_throws
           (test_environment (VObj [("type", VStr "payment_intent.succeeded")]))
           signed_webhook (p1_store 3) (VStr "t=1,v1=ab")
           (VObj [("type", VStr "payment_intent.succeeded")])).
  - reflexivity.
  - reflexivity.
  - reflexivity.
Defined.

(** ** Identifiers that are one path segment *)

(** [product_path] joins from [__dirname], so [path_normalize] is only ever
    applied to an absolute path; the lemmas below are about those. *)

Lemma str_app a b : str (a +:+ b) = str a ++ str b.
Proof. unfold str. induction a as [|c a IH]; [done|]. simpl. by rewrite IH. Qed.

Lemma unstr_app l m : unstr (l ++ m) = unstr l +:+ unstr m.
Proof. unfold unstr. induction l as [|c l IH]; [done|]. simpl. by rewrite IH. Qed.

Lemma unstr_str s : unstr (str s) = s.
Proof. apply string_of_list_ascii_of_string. Qed.

Lemma split_slash_segment l : ∀ cur,
  forallb (λ c, negb (Ascii.eqb c "/")) l = true → split_slash l cur = [cur ++ l].
Proof.
  induction l as [|c l IH]; intros cur Hl; simpl.
  - by rewrite app_nil_r.
  - cbn [forallb] in Hl. apply andb_prop in Hl as [Hc Hl].
    apply negb_true_iff in Hc. rewrite Hc, IH by done. by rewrite <- app_assoc.
Qed.

Lemma json_segment_kept l stack :
  resolve_segments true [l ++ str ".json"] stack = rev ((l ++ str ".json") :: stack).
Proof.
  destruct l as [|a [|b [|c l]]]; try reflexivity.
  - destruct a as [[] [] [] [] [] [] [] []]; reflexivity.
  - destruct a as [[] [] [] [] [] [] [] []]; try reflexivity;
      destruct b as [[] [] [] [] [] [] [] []]; reflexivity.
  - destruct a as [[] [] [] [] [] [] [] []]; try reflexivity;
      destruct b as [[] [] [] [] [] [] [] []]; reflexivity.
Qed.

Lemma ends_with_slash_json l : ends_with_slash (l ++ str ".json") = false.
Proof.
  unfold ends_with_slash. change (str ".json") with (str ".jso" ++ ["n"%char]).
  by rewrite app_assoc, rev_app_distr.
Qed.

Lemma normalize_product_file id :
  no_slash id = true →
  path_normalize ("/app/src/utils/../products/" +:+ (id +:+ ".json")) =
  "/app/src/products/" +:+ id +:+ ".json".
Proof.
  intros Hid. unfold path_normalize.
  rewrite !str_app.
  change (str "/app/src/utils/../products/")
    with ("/"%char :: str "app/src/utils/../products/").
  cbn [app]. change (Ascii.eqb "/" "/") with true. cbv iota.
  set (tail := str "app/src/utils/../products/" ++ str id ++ str ".json").
  assert (Hsplit : split_slash tail [] =
    [str "app"; str "src"; str "utils"; str ".."; str "products"; str id ++ str ".json"]).
  { unfold tail. unfold str at 1.
    cbn [list_ascii_of_string app split_slash Ascii.eqb Bool.eqb andb].
    rewrite split_slash_segment; [done|].
    rewrite forallb_app, andb_true_iff. split; [exact Hid|done]. }
  rewrite Hsplit.
  change (resolve_segments true _ [])
    with (resolve_segments true [str id ++ str ".json"] [str "products"; str "src"; str "app"]).
  rewrite json_segment_kept.
  replace (ends_with_slash tail) with false
    by (symmetry; unfold tail; rewrite app_assoc; apply ends_with_slash_json).
  cbn [rev app join_chars].
  change (str "app") with ("a"%char :: str "pp"). cbn [app]. cbv iota.
  change ("/"%char :: "a"%char :: str "pp" ++ "/"%char :: str "src" ++ "/"%char
            :: str "products" ++ "/"%char :: str id ++ str ".json")
    with (str "/app/src/products/" ++ str id ++ str ".json").
  rewrite !unstr_app, !unstr_str. done.
Qed.

Lemma product_path_segment id :
  no_slash id = true →
  product_path (VStr id) = "/app/src/products/" +:+ id +:+ ".json".
Proof.
  intros Hid. unfold product_path, path_join.
  cbn [to_string].
  assert (Hne : id +:+ ".json" ≠ "") by (destruct id; discriminate).
  rewrite !filter_cons_True by done.
  rewrite filter_nil.
  replace (join "/" [__dirname; ".."; "products"; id +:+ ".json"])
    with ("/app/src/utils/../products/" +:+ (id +:+ ".json")) by reflexivity.
  apply normalize_product_file, Hid.
Qed.

Lemma append_json_inj a b : a +:+ ".json" = b +:+ ".json" → a = b.
Proof.
  intros H. apply (f_equal str) in H. rewrite !str_app in H.
  apply app_inv_tail in H. apply (f_equal unstr) in H. by rewrite !unstr_str in H.
Qed.

Lemma prefix_append p s : String.prefix p (p +:+ s) = true.
Proof.
  apply String.prefix_correct. induction p as [|c p IH]; simpl.
  - by destruct s.
  - by rewrite IH.
Qed.

(** X18. A product identifier without a slash names the file
    /app/src/products/<id>.json: the path is inside the products directory,
    and two such identifiers with the same path are equal. *)
Theorem slash_free_id_stays_in_store a :
  no_slash a = true →
  product_path (VStr a) = "/app/src/products/" +:+ a +:+ ".json" ∧
  inside_products (product_path (VStr a)) = true ∧
  ∀ b, no_slash b = true → product_path (VStr a) = product_path (VStr b) → a = b.
Proof.
  intros Ha. rewrite (product_path_segment _ Ha). split; [done|]. split.
  { unfold inside_products.
    replace products_directory with "/app/src/products" by (by vm_compute).
    apply (prefix_append "/app/src/products/"). }
  intros b Hb. rewrite (product_path_segment _ Hb).
  intros H. cbn [String.append] in H. injection H as H. by apply append_json_inj.
Qed.

Lemma slash_free_id_stays_in_store_witness :
  product_path (VStr "p1") = "/app/src/products/" +:+ "p1" +:+ ".json" ∧
  inside_products (product_path (VStr "p1")) = true ∧
  ∀ b, no_slash b = true → product_path (VStr "p1") = product_path (VStr b) → "p1" = b.
Proof.
  apply (slash_free_id_stays_in_store "p1"). reflexivity.
Defined.

(** ** The status of a session *)

Lemma try_catch_answers {A} (body : M A) handler w :
  (∀ e w1, ∃ a w2, handler e w1 = (Ok a, w2)) →
  ∃ a w', try_catch body handler w = (Ok a, w').
Proof.
  intros Hh. unfold try_catch. destruct (body w) as [[a|e] w1]; eauto.
Qed.

(** X19. GET /session-status/:session_id.  Without a session id the
    answer is status 400 and nothing is logged, whatever the provider would
    return.  When the provider throws, the answer is status 500 with
    "Error retrieving checkout status", and the provider's message goes to
    the log only. *)
Theorem getCheckoutStatus_failures retrieve req w sid :
  get_prop (params req) "session_id" = Ok sid →
  (truthy sid = false →
     route_session_status retrieve req w =
       (Ok (Response 400 (Json (VObj [("error", VStr "session_id parameter is required")]))),
        w)) ∧
  (∀ e, truthy sid = true → retrieve sid retrieve_options = Throw e →
     route_session_status retrieve req w =
       (Ok (Response 500 (Json (VObj [("error", VStr "Error retrieving checkout status")]))),
        after w [ConsoleError ("Error retrieving checkout status: " +:+ message e)])).
Proof.
  intros Hsid. unfold route_session_status, getCheckoutStatus, try_catch. split.
  - intros Ht. rewrite bind_run. unfold lift at 1. by rewrite Hsid, Ht.
  - intros e Ht He. rewrite bind_run. unfold lift at 1. rewrite Hsid, Ht. cbn [negb]. rewrite bind_run. unfold lift at 1.
    fold retrieve_options. rewrite He.
    unfold console_error. by rewrite bind_run, emit_run.
Qed.

Lemma getCheckoutStatus_failures_witness :
  route_session_status retrieve_open (product_lookup "p1") (p1_store 3) =
    (Ok (Response 400 (Json (VObj [("error", VStr "session_id parameter is required")]))),
     p1_store 3) ∧
  route_session_status retrieve_unknown (session_lookup "cs_test_9") (p1_store 3) =
    (Ok (Response 500 (Json (VObj [("error", VStr "Error retrieving checkout status")]))),
     after (p1_store 3)
       [ConsoleError ("Error retrieving checkout status: " +:+ "No such checkout.session")]).
Proof.
  split.
  - destruct (getCheckoutStatus_failures retrieve_open (product_lookup "p1") (p1_store 3)
                VUndefined) as [H _].
    + reflexivity.
    + apply H. reflexivity.
  - destruct (getCheckoutStatus_failures retrieve_unknown (session_lookup "cs_test_9")
                (p1_store 3) (VStr "cs_test_9")) as [_ H].
    + reflexivity.
    + apply (H (Build_error "StripeInvalidRequestError" "No such checkout.session")).
      * reflexivity.
      * reflexivity.
Defined.

(** X20. GET /session-status/:session_id for a session the provider
    returns: the answer is status 200 with the nine fields read off the
    session.  The customer's email and name are [undefined] when the session
    has no customer details (optional chaining), not an error.  Nothing is
    logged. *)
Theorem getCheckoutStatus_view retrieve req w sid session :
  get_prop (params req) "session_id" = Ok sid → truthy sid = true →
  retrieve sid retrieve_options = Ok session → is_nullish session = false →
  route_session_status retrieve req w =
    (Ok (Response 200 (Json (VObj
       [("success", VBool true);
        ("session", VObj
           [("id", prop_of session "id");
            ("payment_status", prop_of session "payment_status");
            ("status", prop_of session "status");
            ("amount_total", prop_of session "amount_total");
            ("currency", prop_of session "currency");
            ("customer_email", optional_of (prop_of session "customer_details") "email");
            ("customer_name", optional_of (prop_of session "customer_details") "name");
            ("payment_intent", prop_of session "payment_intent");
            ("metadata", prop_of session "metadata")])]))),
     w).
Proof.
  intros Hsid Ht Hs Hn. unfold route_session_status, getCheckoutStatus, try_catch.
  rewrite bind_run. unfold lift at 1. rewrite Hsid, Ht. cbn [negb].
  rewrite bind_run. unfold lift at 1. fold retrieve_options. rewrite Hs.
  rewrite !(lift_get_prop_defined session) by done.
  rewrite bind_run. unfold lift at 1. unfold optional_prop, optional_of.
  destruct (is_nullish (prop_of session "customer_details")) eqn:Hd.
  - rewrite (lift_get_prop_defined session) by done. rewrite bind_run. unfold lift at 1.
    rewrite Hd. rewrite !(lift_get_prop_defined session) by done. by rewrite ret_run.
  - rewrite (get_prop_defined _ _ Hd).
    rewrite (lift_get_prop_defined session) by done. rewrite bind_run. unfold lift at 1.
    rewrite Hd, (get_prop_defined _ _ Hd).
    rewrite !(lift_get_prop_defined session) by done. by rewrite ret_run.
Qed.

Lemma getCheckoutStatus_view_witness :
  route_session_status retrieve_open (session_lookup "cs_test_1") (p1_store 3) =
    (Ok (Response 200 (Json (VObj
       [("success", VBool true);
        ("session", VObj
           [("id", VStr "cs_test_1");
            ("payment_status", VStr "unpaid");
            ("status", VStr "open");
            ("amount_total", VNum (Dec 2000 O));
            ("currency", VStr "usd");
            ("customer_email", VUndefined);
            ("customer_name", VUndefined);
            ("payment_intent", VNull);
            ("metadata", VObj [("product_id", VStr "p1"); ("quantity", VStr "2")])])]))),
     p1_store 3).
Proof.
  apply (getCheckoutStatus_view retrieve_open (session_lookup "cs_test_1") (p1_store 3)
           (VStr "cs_test_1") open_session); reflexivity.
Defined.

(** ** Handlers that always answer *)

(** X21. The four handlers whose body is inside a [try] --
    [loadProductInfo], [getProductInfo], [createCheckoutSession] and
    [getCheckoutStatus] -- never throw: for every request, store and provider
    they return an answer (or, for the middleware, hand the request on). *)
Theorem handlers_always_answer env retrieve req w :
  (∃ out w', loadProductInfo req w = (Ok out, w')) ∧
  (∃ res w', getProductInfo req w = (Ok res, w')) ∧
  (∃ res w', createCheckoutSession env req w = (Ok res, w')) ∧
  (∃ res w', getCheckoutStatus retrieve req w = (Ok res, w')).
Proof.
  repeat split; apply try_catch_answers; intros e w1;
    unfold console_error; rewrite bind_run, emit_run, ret_run; eauto.
Qed.

(** X22. [validateCheckoutData] has no [try]: on a request without a
    body ([undefined] or [null]) the destructuring throws a TypeError, and
    POST /create-checkout-session throws it on with no effect and no
    answer. *)
Theorem validateCheckoutData_without_body env req w :
  is_nullish (body req) = true →
  ∃ e,
    validateCheckoutData req = Throw e ∧ err_name e = "TypeError" ∧
    route_create_checkout_session env req w = (Throw e, w).
Proof.
  intros Hb. unfold route_create_checkout_session, validateCheckoutData.
  destruct (body req); try discriminate; simpl; eexists; split; try reflexivity;
    split; try reflexivity.
Qed.

Lemma validateCheckoutData_without_body_witness :
  ∃ e,
    validateCheckoutData (product_lookup "p1") = Throw e ∧ err_name e = "TypeError" ∧
    route_create_checkout_session null_environment (product_lookup "p1") (p1_store 3) =
      (Throw e, p1_store 3).
Proof.
  apply (validateCheckoutData_without_body null_environment (product_lookup "p1") (p1_store 3)).
  reflexivity.
Defined.
